(** * Degen trader: decision and risk engine

    A shallow embedding of the decision logic of
    [plugins/degen-trader/tradingService.ts] (class [DegenTradingService]):
    the technical indicators, the position sizer, the slippage model, the
    position monitor with its trailing stop, the portfolio drawdown, the
    circuit breaker and the pending-sells counter.

    JavaScript numbers are IEEE binary64 values.  The code is embedded once,
    over an interface [JsNumber] of the arithmetic it uses, and read at two
    instances: [Q] (exact rationals, where the algebraic facts are proved)
    and [float] (Rocq's primitive binary64 numbers, where the code is
    evaluated bit for bit, special values included).  [bigint] amounts are
    [Z]; objects used as dictionaries are [gmap]s keyed by the token
    address. *)

From Stdlib Require Import ZArith QArith Qround Qabs Lqa Lia List Bool String.
From Stdlib Require Import Floats.
From Stdlib Require Import Sorted Permutation.
From stdpp Require Import gmap strings.
Import ListNotations.

Set Default Proof Using "Type".

(** ** Numbers *)

Declare Scope js_scope.
Delimit Scope js_scope with js.

(** The operations of a JavaScript [number] that the service uses.  [lit q]
    is the value of the decimal literal denoting [q]; [truthy] is
    [ToBoolean]; [nleb] and [nltb] are [<=] and [<] ([>=] and [>] are the
    same tests with the operands exchanged, as in IEEE 754). *)
Class JsNumber (N : Type) : Type := {
  lit : Q -> N;
  nadd : N -> N -> N;
  nsub : N -> N -> N;
  nmul : N -> N -> N;
  ndiv : N -> N -> N;
  nleb : N -> N -> bool;
  nltb : N -> N -> bool;
  Math_max : N -> N -> N;
  Math_min : N -> N -> N;
  Math_abs : N -> N;
  truthy : N -> bool
}.

Arguments lit {N _} q%_Q.

Notation "a + b" := (nadd a b) : js_scope.
Notation "a - b" := (nsub a b) : js_scope.
Notation "a * b" := (nmul a b) : js_scope.
Notation "a / b" := (ndiv a b) : js_scope.
Notation "a <=? b" := (nleb a b) (at level 70) : js_scope.
Notation "a <? b" := (nltb a b) (at level 70) : js_scope.
Notation "a >=? b" := (nleb b a) (at level 70) : js_scope.
Notation "a >? b" := (nltb b a) (at level 70) : js_scope.

(** [Number(b)] for a [bigint] [b]. *)
Definition of_Z {N} `{JsNumber N} (z : Z) : N := lit (inject_Z z).

(** Exact arithmetic.  A quotient by zero is [0] here ([Qdiv]), where
    JavaScript yields an infinity or NaN: statements that depend on a
    quotient say that its divisor is not zero. *)
#[export] Instance Q_number : JsNumber Q := {|
  lit := fun q => q;
  nadd := Qplus;
  nsub := Qminus;
  nmul := Qmult;
  ndiv := Qdiv;
  nleb := Qle_bool;
  nltb := fun a b => negb (Qle_bool b a);
  Math_max := fun a b => if Qle_bool a b then b else a;
  Math_min := fun a b => if Qle_bool a b then a else b;
  Math_abs := Qabs;
  truthy := fun a => negb (Qeq_bool a 0)
|}.

(** Binary64 arithmetic. *)
Definition float_of_Z (z : Z) : float :=
  match z with
  | Z0 => PrimFloat.zero
  | Zpos _ => PrimFloat.of_uint63 (Uint63.of_Z z)
  | Zneg p => PrimFloat.opp (PrimFloat.of_uint63 (Uint63.of_Z (Zpos p)))
  end.

(** A literal [n/d] with [n] and [d] below [2^53] is the correctly rounded
    quotient of two exact integers, which is the double nearest to the
    literal. *)
Definition float_lit (q : Q) : float :=
  PrimFloat.div (float_of_Z (Qnum q)) (float_of_Z (Zpos (Qden q))).

Definition float_is_nan (a : float) : bool := negb (PrimFloat.eqb a a).

Definition float_max (a b : float) : float :=
  if float_is_nan a || float_is_nan b then PrimFloat.nan
  else if PrimFloat.leb a b then b else a.

Definition float_min (a b : float) : float :=
  if float_is_nan a || float_is_nan b then PrimFloat.nan
  else if PrimFloat.leb a b then a else b.

#[export] Instance float_number : JsNumber float := {|
  lit := float_lit;
  nadd := PrimFloat.add;
  nsub := PrimFloat.sub;
  nmul := PrimFloat.mul;
  ndiv := PrimFloat.div;
  nleb := PrimFloat.leb;
  nltb := PrimFloat.ltb;
  Math_max := float_max;
  Math_min := float_min;
  Math_abs := PrimFloat.abs;
  truthy := fun a => negb (PrimFloat.eqb a PrimFloat.zero) && negb (float_is_nan a)
|}.

(** [ToBoolean] of an optional number: [undefined] and [null] are falsy. *)
Definition truthy_opt {N} `{JsNumber N} (o : option N) : bool :=
  match o with
  | Some a => truthy a
  | None => false
  end.

(** ** Technical indicators *)

Section TechnicalAnalyzer.
Context {N : Type} `{JsNumber N}.
Local Open Scope js_scope.

(** [prices[i]].  Every read below is guarded by a length test of the
    source, so the default is never returned there. *)
Definition at_index (prices : list N) (i : nat) : N := nth i prices (lit 0).

Definition of_nat (n : nat) : N := of_Z (Z.of_nat n).

(** [calculateEMA]: the last element when the series is shorter than the
    period; otherwise the average of the first [period] elements, updated
    by [ema = (prices[i] - ema) * multiplier + ema] for
    [i = period .. length - 1]. *)
Definition calculateEMA (prices : list N) (period : nat) : N :=
  if (length prices <? period)%nat then at_index prices (length prices - 1)
  else
    let multiplier := lit 2 / (of_nat period + lit 1) in
    let ema :=
      fold_left (fun sum price => sum + price) (firstn period prices) (lit 0)
      / of_nat period in
    fold_left
      (fun ema i => (at_index prices i - ema) * multiplier + ema)
      (seq period (length prices - period)) ema.

(** The two loops of [calculateRSI]: the sums of the first [period]
    changes, then Wilder's smoothing over the remaining ones.  The result
    is the pair [(avgGain, avgLoss)] that reaches the final division. *)
Definition rsiInitial (prices : list N) (period : nat) : N * N :=
  fold_left
    (fun (acc : N * N) i =>
       let '(gains, losses) := acc in
       let change := at_index prices i - at_index prices (i - 1) in
       if change >=? lit 0 then (gains + change, losses)
       else (gains, losses - change))
    (seq 1 period) (lit 0, lit 0).

Definition rsiAverages (prices : list N) (period : nat) : N * N :=
  let '(gains, losses) := rsiInitial prices period in
  fold_left
    (fun (acc : N * N) i =>
       let '(avgGain, avgLoss) := acc in
       let change := at_index prices i - at_index prices (i - 1) in
       if change >=? lit 0 then
         ((avgGain * (of_nat period - lit 1) + change) / of_nat period,
          (avgLoss * (of_nat period - lit 1)) / of_nat period)
       else
         ((avgGain * (of_nat period - lit 1)) / of_nat period,
          (avgLoss * (of_nat period - lit 1) - change) / of_nat period))
    (seq (period + 1) (length prices - (period + 1)))
    (gains / of_nat period, losses / of_nat period).

Definition calculateRSI (prices : list N) (period : nat) : N :=
  if (length prices <? period + 1)%nat then lit 50
  else
    let '(avgGain, avgLoss) := rsiAverages prices period in
    let rs := avgGain / avgLoss in
    lit 100 - lit 100 / (lit 1 + rs).

Record MACD : Type := {
  macd : N;
  signal : N;
  histogram : N
}.

(** [calculateMACD]; the signal line is [calculateEMA] of the one-element
    array [[macdLine]]. *)
Definition calculateMACD (prices : list N) : MACD :=
  let shortPeriod := 12%nat in
  let longPeriod := 26%nat in
  let signalPeriod := 9%nat in
  if (length prices <? longPeriod)%nat then
    {| macd := lit 0; signal := lit 0; histogram := lit 0 |}
  else
    let shortEMA := calculateEMA prices shortPeriod in
    let longEMA := calculateEMA prices longPeriod in
    let macdLine := shortEMA - longEMA in
    let signalLine := calculateEMA [macdLine] signalPeriod in
    {| macd := macdLine; signal := signalLine;
       histogram := macdLine - signalLine |}.

End TechnicalAnalyzer.

Arguments MACD N : clear implicits.

(** ** Configuration *)

Record RiskLimits (N : Type) : Type := {
  maxPositionSize : N;
  maxDrawdown : N;
  stopLossPercentage : N;
  takeProfitPercentage : N
}.

Record SlippageSettings (N : Type) : Type := {
  baseSlippage : N;
  maxSlippage : N;
  liquidityMultiplier : N;
  volumeMultiplier : N
}.

Record TradingConfig (N : Type) : Type := {
  riskLimits : RiskLimits N;
  slippageSettings : SlippageSettings N
}.

Arguments maxPositionSize {N} _.
Arguments maxDrawdown {N} _.
Arguments stopLossPercentage {N} _.
Arguments takeProfitPercentage {N} _.
Arguments baseSlippage {N} _.
Arguments maxSlippage {N} _.
Arguments liquidityMultiplier {N} _.
Arguments volumeMultiplier {N} _.
Arguments riskLimits {N} _.
Arguments slippageSettings {N} _.

(** The result of an awaited call that may throw. *)
Inductive Fetched (A : Type) : Type :=
  | Got (a : A)
  | Threw.

Arguments Got {A} a.
Arguments Threw {A}.

(** What [getTokenMarketData] returns, as far as the decisions read it. *)
Record MarketData (N : Type) : Type := {
  price : N;
  priceHistory : list N
}.

Arguments price {N} _.
Arguments priceHistory {N} _.

(** ** Position sizing *)

Inductive MarketCondition : Type := bullish | neutral | bearish.

(** The fields of a [TokenSignal] that the sizer reads; [volatility] is
    [token.technicalSignals?.volatility]. *)
Record TokenSignal (N : Type) : Type := {
  score : N;
  liquidity : N;
  volatility : option N
}.

Arguments score {N} _.
Arguments liquidity {N} _.
Arguments volatility {N} _.

Section RiskSizer.
Context {N : Type} `{JsNumber N}.
Local Open Scope js_scope.

Variable tradingConfig : TradingConfig N.

Definition assessMarketCondition (solData : MarketData N) : MarketCondition :=
  if (length (priceHistory solData) <? 24)%nat then neutral
  else
    let currentPrice := price solData in
    let previousPrice := at_index (priceHistory solData) 0 in
    let priceChange :=
      ((currentPrice - previousPrice) / previousPrice) * lit 100 in
    let rsi := calculateRSI (priceHistory solData) 14 in
    if (priceChange >? lit 5) && (rsi <? lit 70) then bullish
    else if (priceChange <? lit (-5)) || (rsi >? lit 70) then bearish
    else neutral.

Definition availableCapital (walletBalance drawdown : N) : N :=
  walletBalance
  * (lit 1 - drawdown / maxDrawdown (riskLimits tradingConfig)).

Definition minTradeSize : N := lit 0.05.

Definition maxLiquidityImpact (token : TokenSignal N) : N :=
  liquidity token * lit 0.02.

(** [calculateOptimalBuyAmount], given what its awaited calls returned:
    the wallet balance ([Threw] lands in the [catch], which returns 0),
    the drawdown of [getPortfolioStatus] and the market condition. *)
Definition calculateOptimalBuyAmount (walletBalance : Fetched N)
    (drawdown : N) (token : TokenSignal N)
    (marketCondition : MarketCondition) : N :=
  match walletBalance with
  | Threw => lit 0
  | Got walletBalance =>
      if availableCapital walletBalance drawdown <=? lit 0 then lit 0
      else
        let basePercentage :=
          Math_min (score token / lit 200)
                   (maxPositionSize (riskLimits tradingConfig)) in
        let adjustedPercentage :=
          match volatility token with
          | Some v =>
              if truthy v then
                basePercentage * Math_max (lit 0.5) (lit 1 - v)
              else basePercentage
          | None => basePercentage
          end in
        let adjustedPercentage :=
          match marketCondition with
          | bearish => adjustedPercentage * lit 0.5
          | _ => adjustedPercentage
          end in
        let rawPositionSize :=
          availableCapital walletBalance drawdown * adjustedPercentage in
        Math_max minTradeSize
                 (Math_min rawPositionSize (maxLiquidityImpact token))
  end.

End RiskSizer.

(** ** Portfolio drawdown *)

Record Position (N : Type) : Type := {
  amount : N;
  value : N
}.

Record PortfolioStatus (N : Type) : Type := {
  totalValue : N;
  positions : gmap string (Position N);
  solBalance : N;
  drawdown : N
}.

Arguments amount {N} _.
Arguments value {N} _.
Arguments totalValue {N} _.
Arguments positions {N} _.
Arguments solBalance {N} _.
Arguments drawdown {N} _.

(** A monitored token as [getPortfolioStatus] sees it: its address, the
    balance of [getTokenBalance] and the price of [getTokenPrice]. *)
Record Holding (N : Type) : Type := {
  address : string;
  balance : Z;
  holdingPrice : N
}.

Arguments address {N} _.
Arguments balance {N} _.
Arguments holdingPrice {N} _.

Section PortfolioRiskManager.
Context {N : Type} `{JsNumber N}.
Local Open Scope js_scope.

(** [calculateDrawdown]: [portfolio_hwm] is the entry of the database
    cache under that key; the result is the entry afterwards and the
    drawdown returned. *)
Definition calculateDrawdown (portfolio_hwm : option N) (total : N)
    : option N * N :=
  let hwm :=
    match portfolio_hwm with
    | Some h => if truthy h then h else total
    | None => total
    end in
  if total >? hwm then (Some total, lit 0)
  else (portfolio_hwm, (hwm - total) / hwm).

(** [getHighWaterMark]: [cached || 0], where [cached] is the entry of the
    service's own [CacheManager] under [portfolio_high_water_mark]. *)
Definition getHighWaterMark (cached : option N) : N :=
  match cached with
  | Some h => if truthy h then h else lit 0
  | None => lit 0
  end.

(** The loop of [getPortfolioStatus] over the monitored tokens. *)
Definition addHolding (acc : gmap string (Position N) * N) (token : Holding N)
    : gmap string (Position N) * N :=
  let '(positions, total) := acc in
  let value := of_Z (balance token) * holdingPrice token in
  if value >? lit 0 then
    (<[address token := {| amount := of_Z (balance token); value := value |}]>
       positions,
     total + value)
  else (positions, total).

(** [getPortfolioStatus].  It reads the high-water mark and writes no
    cache entry: the cache is not part of its result. *)
Definition getPortfolioStatus (wallet : Fetched N)
    (monitoredTokens : list (Holding N)) (cached : option N)
    : PortfolioStatus N :=
  match wallet with
  | Threw =>
      {| totalValue := lit 0; positions := ∅; solBalance := lit 0;
         drawdown := lit 0 |}
  | Got solBalance =>
      let '(positions, total) :=
        fold_left addHolding monitoredTokens (∅, solBalance) in
      let highWaterMark := getHighWaterMark cached in
      {| totalValue := total; positions := positions;
         solBalance := solBalance;
         drawdown :=
           if highWaterMark >? lit 0 then
             (highWaterMark - total) / highWaterMark
           else lit 0 |}
  end.

End PortfolioRiskManager.

(** ** Slippage *)

(** What [getTokenPrice] returns. *)
Record TokenPrice (N : Type) : Type := {
  tokenPrice : N;
  marketCap : N;
  tokenLiquidity : N;
  volume24h : N
}.

Arguments tokenPrice {N} _.
Arguments marketCap {N} _.
Arguments tokenLiquidity {N} _.
Arguments volume24h {N} _.

Section SlippageModel.
Context {N : Type} `{JsNumber N}.
Local Open Scope js_scope.

(** [x ** y] and [Math.floor]: their results are not rational functions
    of the arguments, so the model takes them as given. *)
Variable Math_pow : N -> N -> N.
Variable Math_floor : N -> N.

Variable tradingConfig : TradingConfig N.

Definition liquidityPercentage (tokenData : TokenPrice N) (tradeAmount : N)
    (isSell : bool) : N :=
  let tradeValue :=
    if isSell then tradeAmount * tokenPrice tokenData else tradeAmount in
  (tradeValue / tokenLiquidity tokenData) * lit 100.

Definition volumeToMcapRatio (tokenData : TokenPrice N) : N :=
  volume24h tokenData / marketCap tokenData.

(** The body of [calculateDynamicSlippage] up to [finalSlippage].
    [special] is [Some adjustment] when [hasSpecialSlippageRequirement]
    holds, with the value of [getSpecialSlippageAdjustment]. *)
Definition finalSlippage (tokenData : TokenPrice N) (tradeAmount : N)
    (isSell : bool) (special : option N) : N :=
  let settings := slippageSettings tradingConfig in
  let slippage := baseSlippage settings in
  let liquidityPercentage := liquidityPercentage tokenData tradeAmount isSell in
  let slippage :=
    if liquidityPercentage >? lit 0.1 then
      let liquidityFactor :=
        Math_pow liquidityPercentage (lit 1.5) * liquidityMultiplier settings in
      slippage + liquidityFactor * lit 0.01
    else slippage in
  let volumeToMcapRatio := volumeToMcapRatio tokenData in
  let slippage :=
    if volumeToMcapRatio >? lit 0.05 then
      let volumeDiscount :=
        Math_min (volumeToMcapRatio * lit 5) (lit 0.5)
        * volumeMultiplier settings in
      Math_max (slippage - volumeDiscount) (baseSlippage settings * lit 0.5)
    else slippage in
  let slippage :=
    match special with
    | Some specialAdjustment => slippage + specialAdjustment
    | None => slippage
    end in
  Math_min slippage (maxSlippage settings).

(** [calculateDynamicSlippage]: basis points; 100 when the market-data
    lookup throws. *)
Definition calculateDynamicSlippage (tokenData : Fetched (TokenPrice N))
    (tradeAmount : N) (isSell : bool) (special : option N) : N :=
  match tokenData with
  | Threw => lit 100
  | Got tokenData =>
      Math_floor (finalSlippage tokenData tradeAmount isSell special * lit 100)
  end.

End SlippageModel.

(** ** Runtime state *)

(** The record stored under [trailing_stop:<tokenAddress>]; [amount] is the
    decimal string of a [bigint]. *)
Record TrailingStop (N : Type) : Type := {
  highestPrice : N;
  activationPrice : N;
  trailingStopPercentage : N;
  trailingAmount : Z;
  createdAt : Z
}.

Arguments highestPrice {N} _.
Arguments activationPrice {N} _.
Arguments trailingStopPercentage {N} _.
Arguments trailingAmount {N} _.
Arguments createdAt {N} _.

(** A call of [createSellSignal]. *)
Record SellSignal : Type := {
  sellToken : string;
  sellAmount : Z;
  sellReason : string
}.

(** The record stored under [circuit_breaker]. *)
Record CircuitBreaker (N : Type) : Type := {
  triggered : bool;
  breakerReason : string;
  breakerTimestamp : Z;
  detailPriceChangePercent : N;
  detailVolatility : N
}.

Arguments triggered {N} _.
Arguments breakerReason {N} _.
Arguments breakerTimestamp {N} _.
Arguments detailPriceChangePercent {N} _.
Arguments detailVolatility {N} _.

(** The record stored under [trading_paused]; times are milliseconds. *)
Record TradingPaused : Type := {
  paused : bool;
  pausedReason : string;
  pausedTimestamp : Z;
  expiryTime : Z
}.

(** The part of the runtime that the monitors and the circuit breaker
    write: the database cache entries named above, the tasks created
    (name and token) and the sell signals created, oldest first. *)
Record Runtime (N : Type) : Type := {
  trailing_stop : gmap string (TrailingStop N);
  circuit_breaker : option (CircuitBreaker N);
  trading_paused : option TradingPaused;
  tasks : list (string * string);
  sellSignals : list SellSignal
}.

Arguments trailing_stop {N} _.
Arguments circuit_breaker {N} _.
Arguments trading_paused {N} _.
Arguments tasks {N} _.
Arguments sellSignals {N} _.

Section RuntimeOps.
Context {N : Type}.

Definition createSellSignal (tokenAddress : string) (amount : Z)
    (reason : string) (rt : Runtime N) : Runtime N :=
  {| trailing_stop := trailing_stop rt;
     circuit_breaker := circuit_breaker rt;
     trading_paused := trading_paused rt;
     tasks := tasks rt;
     sellSignals :=
       sellSignals rt
       ++ [{| sellToken := tokenAddress; sellAmount := amount;
              sellReason := reason |}] |}.

Definition setTrailingStopCache (tokenAddress : string)
    (record : TrailingStop N) (rt : Runtime N) : Runtime N :=
  {| trailing_stop := <[tokenAddress := record]> (trailing_stop rt);
     circuit_breaker := circuit_breaker rt;
     trading_paused := trading_paused rt;
     tasks := tasks rt;
     sellSignals := sellSignals rt |}.

Definition deleteTrailingStopCache (tokenAddress : string)
    (rt : Runtime N) : Runtime N :=
  {| trailing_stop := delete tokenAddress (trailing_stop rt);
     circuit_breaker := circuit_breaker rt;
     trading_paused := trading_paused rt;
     tasks := tasks rt;
     sellSignals := sellSignals rt |}.

Definition createTask (name tokenAddress : string) (rt : Runtime N)
    : Runtime N :=
  {| trailing_stop := trailing_stop rt;
     circuit_breaker := circuit_breaker rt;
     trading_paused := trading_paused rt;
     tasks := tasks rt ++ [(name, tokenAddress)];
     sellSignals := sellSignals rt |}.

Definition setCircuitBreaker (breaker : CircuitBreaker N)
    (pause : TradingPaused) (rt : Runtime N) : Runtime N :=
  {| trailing_stop := trailing_stop rt;
     circuit_breaker := Some breaker;
     trading_paused := Some pause;
     tasks := tasks rt;
     sellSignals := sellSignals rt |}.

End RuntimeOps.

(** ** Position monitor *)

(** The options of a [MONITOR_TOKEN] task that [monitorToken] reads. *)
Record MonitorOptions (N : Type) : Type := {
  tokenAddress : string;
  initialPrice : option N;
  stopLossPrice : option N;
  takeProfitPrice : option N
}.

Arguments tokenAddress {N} _.
Arguments initialPrice {N} _.
Arguments stopLossPrice {N} _.
Arguments takeProfitPrice {N} _.

(** What the awaited calls of one monitoring tick return:
    [getTokenBalance] ([None] for [null] or [undefined]),
    [getTokenMarketData] (which catches its own errors),
    [getLatestTradePerformance] and the clock. *)
Record Tick (N : Type) : Type := {
  currentBalance : Fetched (option Z);
  marketData : MarketData N;
  performance : Fetched unit;
  now : Z
}.

Arguments currentBalance {N} _.
Arguments marketData {N} _.
Arguments performance {N} _.
Arguments now {N} _.

(** The technical signals that a decision reads.  The volume profile and
    the volatility of the source's record need [Math.sqrt] and are read by
    no branch of the monitor; they are left out of the record.
    [macd (macdSignals s)] is the source's [macd.value]. *)
Record TechnicalSignals (N : Type) : Type := {
  rsi : N;
  macdSignals : MACD N
}.

Arguments rsi {N} _.
Arguments macdSignals {N} _.

Inductive MonitorResult (N : Type) : Type :=
  | NoResult
  | Status (currentPrice priceChangePercent : N)
           (technicalSignals : TechnicalSignals N)
  | MonitorError.

Arguments NoResult {N}.
Arguments Status {N} _ _ _.
Arguments MonitorError {N}.

Section PositionMonitor.
Context {N : Type} `{JsNumber N}.
Local Open Scope js_scope.

Variable tradingConfig : TradingConfig N.

Definition calculateTechnicalSignals (marketData : MarketData N)
    : TechnicalSignals N :=
  match priceHistory marketData with
  | [] =>
      {| rsi := lit 50;
         macdSignals :=
           {| macd := lit 0; signal := lit 0; histogram := lit 0 |} |}
  | _ =>
      {| rsi := calculateRSI (priceHistory marketData) 14;
         macdSignals := calculateMACD (priceHistory marketData) |}
  end.

(** [options.stopLossPrice || (options.initialPrice ? ... : null)]. *)
Definition stopLossLevel (options : MonitorOptions N) : option N :=
  if truthy_opt (stopLossPrice options) then stopLossPrice options
  else
    match initialPrice options with
    | Some initial =>
        if truthy initial then
          Some (initial
                * (lit 1
                   - stopLossPercentage (riskLimits tradingConfig) / lit 100))
        else None
    | None => None
    end.

(** [options.takeProfitPrice || (options.initialPrice ? ... : null)]. *)
Definition takeProfitLevel (options : MonitorOptions N) : option N :=
  if truthy_opt (takeProfitPrice options) then takeProfitPrice options
  else
    match initialPrice options with
    | Some initial =>
        if truthy initial then
          Some (initial
                * (lit 1
                   + takeProfitPercentage (riskLimits tradingConfig)
                     / lit 100))
        else None
    | None => None
    end.

Definition priceChangePercentOf (options : MonitorOptions N) (current : N)
    : N :=
  match initialPrice options with
  | Some initial =>
      if truthy initial then ((current - initial) / initial) * lit 100
      else lit 0
  | None => lit 0
  end.

(** [setTrailingStop]: the cache entry, then the monitoring task. *)
Definition setTrailingStop (tokenAddress : string) (activationPrice : N)
    (amount : Z) (now : Z) (rt : Runtime N) : Runtime N :=
  let trailingStopPercentage := lit 5 in
  createTask "MONITOR_TRAILING_STOP" tokenAddress
    (setTrailingStopCache tokenAddress
       {| highestPrice := activationPrice;
          activationPrice := activationPrice;
          trailingStopPercentage := trailingStopPercentage;
          trailingAmount := amount;
          createdAt := now |} rt).

(** [monitorToken]: the runtime afterwards and the value returned.
    [bigint] division truncates ([Z.quot]). *)
Definition monitorToken (options : MonitorOptions N) (tick : Tick N)
    (rt : Runtime N) : Runtime N * MonitorResult N :=
  match currentBalance tick with
  | Threw => (rt, MonitorError)
  | Got None => (rt, NoResult)
  | Got (Some currentBalance) =>
      if (currentBalance <=? 0)%Z then (rt, NoResult)
      else
        let marketData := marketData tick in
        if negb (truthy (price marketData)) then (rt, NoResult)
        else
          let priceChangePercent :=
            priceChangePercentOf options (price marketData) in
          match performance tick with
          | Threw => (rt, MonitorError)
          | Got _ =>
              if match stopLossLevel options with
                 | Some stopLossPrice =>
                     truthy stopLossPrice
                     && (price marketData <=? stopLossPrice)
                 | None => false
                 end
              then
                (createSellSignal (tokenAddress options) currentBalance
                   "Stop loss triggered" rt,
                 NoResult)
              else if match takeProfitLevel options with
                      | Some takeProfitPrice =>
                          truthy takeProfitPrice
                          && (price marketData >=? takeProfitPrice)
                      | None => false
                      end
              then
                let halfPosition := Z.quot currentBalance 2 in
                (setTrailingStop (tokenAddress options) (price marketData)
                   (Z.quot currentBalance 2) (now tick)
                   (createSellSignal (tokenAddress options) halfPosition
                      "Take profit - selling half position" rt),
                 NoResult)
              else
                let technicalSignals := calculateTechnicalSignals marketData in
                let rt :=
                  if (priceChangePercent >? lit 0)
                     && (histogram (macdSignals technicalSignals) <? lit 0)
                     && (macd (macdSignals technicalSignals)
                         <? signal (macdSignals technicalSignals))
                  then
                    createSellSignal (tokenAddress options)
                      (Z.quot (currentBalance * 3) 4)
                      "Negative momentum while in profit" rt
                  else rt in
                (rt,
                 Status (price marketData) priceChangePercent
                   technicalSignals)
          end
  end.

(** [monitorTrailingStop]. *)
Definition monitorTrailingStop (tokenAddress : string) (tick : Tick N)
    (rt : Runtime N) : Runtime N :=
  match trailing_stop rt !! tokenAddress with
  | None => rt
  | Some trailingStop =>
      match currentBalance tick with
      | Threw => rt
      | Got currentBalance =>
          if match currentBalance with
             | Some b => (b <=? 0)%Z
             | None => true
             end
          then deleteTrailingStopCache tokenAddress rt
          else
            let marketData := marketData tick in
            if negb (truthy (price marketData)) then rt
            else
              let '(trailingStop, rt) :=
                if price marketData >? highestPrice trailingStop then
                  let updated :=
                    {| highestPrice := price marketData;
                       activationPrice := activationPrice trailingStop;
                       trailingStopPercentage :=
                         trailingStopPercentage trailingStop;
                       trailingAmount := trailingAmount trailingStop;
                       createdAt := createdAt trailingStop |} in
                  (updated, setTrailingStopCache tokenAddress updated rt)
                else (trailingStop, rt) in
              let stopPrice :=
                highestPrice trailingStop
                * (lit 1 - trailingStopPercentage trailingStop / lit 100) in
              if price marketData <=? stopPrice then
                deleteTrailingStopCache tokenAddress
                  (createSellSignal tokenAddress
                     (trailingAmount trailingStop)
                     "Trailing stop triggered" rt)
              else rt
      end
  end.

End PositionMonitor.

(** ** Circuit breaker *)

Section CircuitBreakerCheck.
Context {N : Type} `{JsNumber N}.
Local Open Scope js_scope.

(** [Math.sqrt], taken as given. *)
Variable Math_sqrt : N -> N.

(** [calculateVolatility]: the standard deviation of the simple returns;
    [x ** 2] is written [x * x]. *)
Definition calculateVolatility (prices : list N) : N :=
  if (length prices <? 2)%nat then lit 0
  else
    let returns :=
      map (fun i =>
             (at_index prices i - at_index prices (i - 1))
             / at_index prices (i - 1))
          (seq 1 (length prices - 1)) in
    let mean :=
      fold_left (fun sum ret => sum + ret) returns (lit 0)
      / of_nat (length returns) in
    let variance :=
      fold_left (fun sum ret => sum + (ret - mean) * (ret - mean))
                returns (lit 0)
      / of_nat (length returns) in
    Math_sqrt variance.

Definition circuitBreakerTriggered (priceChangePercent volatility : N)
    : bool :=
  (Math_abs priceChangePercent >? lit 15) || (volatility >? lit 0.6).

Definition circuitBreakerReason (priceChangePercent : N) : string :=
  if Math_abs priceChangePercent >? lit 15 then "extreme_price_movement"
  else "high_volatility".

(** The part of [checkCircuitBreaker] after the two measurements. *)
Definition tripCircuitBreaker (priceChangePercent volatility : N) (now : Z)
    (rt : Runtime N) : Runtime N :=
  if circuitBreakerTriggered priceChangePercent volatility then
    setCircuitBreaker
      {| triggered := true;
         breakerReason := circuitBreakerReason priceChangePercent;
         breakerTimestamp := now;
         detailPriceChangePercent := priceChangePercent;
         detailVolatility := volatility |}
      {| paused := true;
         pausedReason := "Circuit breaker triggered";
         pausedTimestamp := now;
         expiryTime := now + 3600000 |}
      rt
  else rt.

Definition priceChangePercentOfHistory (solData : MarketData N) : N :=
  let currentPrice := price solData in
  let priorPrice := at_index (priceHistory solData) 6 in
  ((currentPrice - priorPrice) / priorPrice) * lit 100.

(** [checkCircuitBreaker]; a throwing market-data call lands in the
    [catch], which only logs. *)
Definition checkCircuitBreaker (solData : Fetched (MarketData N)) (now : Z)
    (rt : Runtime N) : Runtime N :=
  match solData with
  | Threw => rt
  | Got solData =>
      if (length (priceHistory solData) <? 24)%nat then rt
      else
        tripCircuitBreaker (priceChangePercentOfHistory solData)
          (calculateVolatility (priceHistory solData)) now rt
  end.

End CircuitBreakerCheck.

(** ** Pending sells *)

(** How a piece of code ends: with a value or with an exception. *)
Inductive Completion (A : Type) : Type :=
  | Returns (a : A)
  | Throws.

Arguments Returns {A} a.
Arguments Throws {A}.

(** What [wallet.sell] resolves to; [signature] is [None] for a signature
    that is absent or empty. *)
Record SellResult : Type := {
  success : bool;
  signature : option string
}.

(** The calls that a sell awaits, each with the type of what it resolves
    to: [calculateDynamicSlippage], [getQuote], [getWallet] ([None] for no
    wallet) and [wallet.sell]. *)
Inductive Call : Type -> Type :=
  | slippageCall (tokenAddress : string) (tradeAmount : Z) : Call unit
  | quoteCall (inputMint : string) (amount : Z) : Call unit
  | walletCall : Call (option unit)
  | sellCall (tokenAddress : string) (tokenAmount : Z) : Call SellResult.

(** An [async] function over [this.pendingSells].  It is finished; or it
    updates the counter and goes on; or it awaits a call, and goes on
    with what the call did once that is known.  The code between two
    awaits runs without interruption; at an await, other invocations
    take their turns. *)
Inductive Async (A : Type) : Type :=
  | Finished (completion : Completion A)
  | Update (f : gmap string Z -> gmap string Z) (rest : Async A)
  | Await {B : Type} (call : Call B) (resume : Fetched B -> Async A).

Arguments Finished {A} completion.
Arguments Update {A} f rest.
Arguments Await {A B} call resume.

Definition ret {A} (a : A) : Async A := Finished (Returns a).

Definition throw {A} : Async A := Finished Throws.

Fixpoint bind {A B} (m : Async A) (k : A -> Async B) : Async B :=
  match m with
  | Finished (Returns a) => k a
  | Finished Throws => Finished Throws
  | Update f rest => Update f (bind rest k)
  | Await call resume => Await call (fun result => bind (resume result) k)
  end.

Definition modify (f : gmap string Z -> gmap string Z) : Async unit :=
  Update f (ret tt).

(** [await call]: the value that the call resolves to, or its exception. *)
Definition await {B} (call : Call B) : Async B :=
  Await call (fun result =>
                match result with
                | Got b => ret b
                | Threw => throw
                end).

(** [try { body } finally { final }]: [final] runs however [body] ends, and
    the completion of [body] stands unless [final] throws. *)
Fixpoint try_finally {A} (body : Async A) (final : Async unit) : Async A :=
  match body with
  | Finished completion => bind final (fun _ => Finished completion)
  | Update f rest => Update f (try_finally rest final)
  | Await call resume =>
      Await call (fun result => try_finally (resume result) final)
  end.

(** [try { body } catch (error) { handler }]. *)
Fixpoint try_catch {A} (body : Async A) (handler : Async A) : Async A :=
  match body with
  | Finished (Returns a) => Finished (Returns a)
  | Finished Throws => handler
  | Update f rest => Update f (try_catch rest handler)
  | Await call resume =>
      Await call (fun result => try_catch (resume result) handler)
  end.

Declare Scope sell_scope.
Delimit Scope sell_scope with sell.
Bind Scope sell_scope with Async.

Notation "'let*' x := m 'in' k" := (bind m (fun x => k))
  (at level 10, x name, m at level 100, k at level 200) : sell_scope.
Notation "'do' m 'then' k" := (bind m (fun _ => k))
  (at level 10, m at level 100, k at level 200) : sell_scope.

Section PendingSells.
Local Open Scope Z_scope.

(** [this.pendingSells[tokenAddress] || BigInt(0)]. *)
Definition pendingOf (pendingSells : gmap string Z) (tokenAddress : string)
    : Z :=
  default 0 (pendingSells !! tokenAddress).

(** The statement at the head of the inner [try]. *)
Definition recordPendingSell (tokenAddress : string) (sellAmount : Z)
    (pendingSells : gmap string Z) : gmap string Z :=
  <[tokenAddress := pendingOf pendingSells tokenAddress + sellAmount]>
    pendingSells.

(** The [finally] block. *)
Definition releasePendingSell (tokenAddress : string) (sellAmount : Z)
    (pendingSells : gmap string Z) : gmap string Z :=
  let pendingSells :=
    <[tokenAddress := pendingOf pendingSells tokenAddress - sellAmount]>
      pendingSells in
  if pendingOf pendingSells tokenAddress <=? 0 then
    delete tokenAddress pendingSells
  else pendingSells.

(** [handleSellSignal]; the value is [success] of the object returned.
    [amount] is [BigInt(signal.amount)], [None] when the conversion
    throws.  The notification at the head of the function
    ([TRADER_SELL_KUMA]) is not awaited and does not touch the counter; it
    is left out. *)
Definition handleSellSignal (tokenAddress : string) (amount : option Z)
    : Async bool :=
  try_catch
    (let* sellAmount := match amount with
                        | Some a => ret a
                        | None => throw
                        end in
     try_finally
       (do modify (recordPendingSell tokenAddress sellAmount) then
        do await (slippageCall tokenAddress sellAmount) then
        do await (quoteCall tokenAddress sellAmount) then
        let* wallet := await walletCall in
        match wallet with
        | None => ret false
        | Some _ =>
            let* result := await (sellCall tokenAddress sellAmount) in
            match signature result with
            | Some _ => ret (success result)
            | None => ret false
            end
        end)
       (modify (releasePendingSell tokenAddress sellAmount)))%sell
    (ret false).

(** What the awaited calls of one invocation do: [getQuote], [getWallet]
    and [wallet.sell] return or throw; [calculateDynamicSlippage] catches
    its own errors. *)
Record SellCalls : Type := {
  getQuote : Fetched unit;
  getWallet : Fetched (option unit);
  walletSell : Fetched SellResult
}.

Definition answer (calls : SellCalls) {B} (call : Call B) : Fetched B :=
  match call in Call B return Fetched B with
  | slippageCall _ _ => Got tt
  | quoteCall _ _ => getQuote calls
  | walletCall => getWallet calls
  | sellCall _ _ => walletSell calls
  end.

(** A call of whatever type, and a call as it was made, with the counter
    at that moment. *)
Definition AnyCall : Type := {B : Type & Call B}.

Definition anyCall {B : Type} (call : Call B) : AnyCall := existT B call.

Definition Submitted : Type := AnyCall * gmap string Z.

Definition submitted {B : Type} (call : Call B)
    (pendingSells : gmap string Z) : Submitted :=
  (anyCall call, pendingSells).

(** The run of one invocation with no other in between: how it ends, the
    counter that it leaves and the calls that it made. *)
Record Run (A : Type) : Type := {
  completion : Completion A;
  counterAfter : gmap string Z;
  callsMade : list Submitted
}.

#[global] Arguments completion {A} _.
#[global] Arguments counterAfter {A} _.
#[global] Arguments callsMade {A} _.

Fixpoint perform {A} (calls : SellCalls) (task : Async A)
    (pendingSells : gmap string Z) : Run A :=
  match task with
  | Finished completion =>
      {| completion := completion; counterAfter := pendingSells;
         callsMade := [] |}
  | Update f rest => perform calls rest (f pendingSells)
  | Await call resume =>
      let run := perform calls (resume (answer calls call)) pendingSells in
      {| completion := completion run; counterAfter := counterAfter run;
         callsMade := submitted call pendingSells :: callsMade run |}
  end.

(** Invocations that overlap.  An invocation runs from where it is to its
    next await, or to its end. *)
Fixpoint advance {A} (task : Async A) (pendingSells : gmap string Z)
    : Async A * gmap string Z :=
  match task with
  | Update f rest => advance rest (f pendingSells)
  | _ => (task, pendingSells)
  end.

(** An invocation of [handleSellSignal] with where it is. *)
Record Invocation : Type := {
  invokedToken : string;
  invokedAmount : Z;
  invocationState : Async bool
}.

(** What happens next: [handleSellSignal] is invoked, and runs to its
    first await; or the call that an invocation awaits resolves, and the
    invocation runs to its next await or to its end. *)
Inductive SellEvent : Type :=
  | Invoke (tokenAddress : string) (sellAmount : Z)
  | Resolve (index : nat) (calls : SellCalls).

Definition stepSell (state : gmap string Z * list Invocation)
    (e : SellEvent) : gmap string Z * list Invocation :=
  let '(pendingSells, invocations) := state in
  match e with
  | Invoke t a =>
      let '(task, pendingSells) :=
        advance (handleSellSignal t (Some a)) pendingSells in
      (pendingSells,
       invocations
         ++ [{| invokedToken := t; invokedAmount := a;
                invocationState := task |}])
  | Resolve index calls =>
      match invocations !! index with
      | Some invocation =>
          match invocationState invocation with
          | Await call resume =>
              let '(task, pendingSells) :=
                advance (resume (answer calls call)) pendingSells in
              (pendingSells,
               <[index := {| invokedToken := invokedToken invocation;
                             invokedAmount := invokedAmount invocation;
                             invocationState := task |}]> invocations)
          | _ => state
          end
      | None => state
      end
  end.

Definition runSells (state : gmap string Z * list Invocation)
    (schedule : list SellEvent) : gmap string Z * list Invocation :=
  fold_left stepSell schedule state.

End PendingSells.

(** * Further operations of the service *)

(** ** Sorting *)

Section Sorting.
Context {N : Type} `{JsNumber N} {A : Type}.
Local Open Scope js_scope.

(** [Array.prototype.sort(compare)]: a stable sort, in which [a] comes
    before [b] when [compare(a, b)] is negative.  The elements are taken
    in order, each put before the first element that it must precede. *)
Fixpoint insertSorted (compare : A -> A -> N) (x : A) (sorted : list A)
    : list A :=
  match sorted with
  | [] => [x]
  | y :: rest =>
      if compare x y <? lit 0 then x :: y :: rest
      else y :: insertSorted compare x rest
  end.

Definition sortWith (compare : A -> A -> N) (items : list A) : list A :=
  fold_left (fun sorted x => insertSorted compare x sorted) items [].

End Sorting.

(** ** Scoring *)

Inductive VolumeTrend : Type :=
  | trendIncreasing
  | trendDecreasing
  | trendStable.

Record VolumeProfile : Type := {
  trend : VolumeTrend;
  unusualActivity : bool
}.

(** [TokenSignal["technicalSignals"]] with all its fields. *)
Record TokenTechnicals (N : Type) : Type := {
  technicalRsi : N;
  technicalMacd : MACD N;
  volumeProfile : option VolumeProfile;
  technicalVolatility : N
}.

Arguments technicalRsi {N} _.
Arguments technicalMacd {N} _.
Arguments volumeProfile {N} _.
Arguments technicalVolatility {N} _.

Record SocialMetrics (N : Type) : Type := {
  mentionCount : N;
  sentiment : N;
  influencerMentions : N
}.

Arguments mentionCount {N} _.
Arguments sentiment {N} _.
Arguments influencerMentions {N} _.

(** A [TokenSignal] as the feeds hand it to [scoreTokenSignals]
    ([cmcMetrics] is read by no function of the service). *)
Record FeedSignal (N : Type) : Type := {
  feedAddress : string;
  feedSymbol : string;
  feedMarketCap : N;
  feedVolume24h : N;
  feedPrice : N;
  feedLiquidity : N;
  feedScore : N;
  reasons : list string;
  technicalSignals : option (TokenTechnicals N);
  socialMetrics : option (SocialMetrics N)
}.

Arguments feedAddress {N} _.
Arguments feedSymbol {N} _.
Arguments feedMarketCap {N} _.
Arguments feedVolume24h {N} _.
Arguments feedPrice {N} _.
Arguments feedLiquidity {N} _.
Arguments feedScore {N} _.
Arguments reasons {N} _.
Arguments technicalSignals {N} _.
Arguments socialMetrics {N} _.

Section SignalScorer.
Context {N : Type} `{JsNumber N}.
Local Open Scope js_scope.

(** [scoreTechnicalSignals]; [None] is a missing record. *)
Definition scoreTechnicalSignals (signals : option (TokenTechnicals N)) : N :=
  match signals with
  | None => lit 0
  | Some signals =>
      let score := lit 0 in
      let score :=
        if technicalRsi signals <? lit 30 then score + lit 10
        else if technicalRsi signals >? lit 70 then score - lit 5
        else score + lit 5 in
      let score :=
        if (macd (technicalMacd signals) >? lit 0)
           && (macd (technicalMacd signals) >? signal (technicalMacd signals))
        then score + lit 10
        else if (macd (technicalMacd signals) <? lit 0)
                && (Math_abs (macd (technicalMacd signals))
                    >? Math_abs (signal (technicalMacd signals)))
        then score - lit 5
        else score in
      let score :=
        match volumeProfile signals with
        | Some profile =>
            match trend profile with
            | trendIncreasing =>
                if negb (unusualActivity profile) then score + lit 10
                else score
            | _ => score
            end
        | None => score
        end in
      if technicalVolatility signals <? lit 0.2 then score + lit 10
      else if technicalVolatility signals >? lit 0.5 then score - lit 5
      else score
  end.

(** The five-step ladder shared by the social and market scores:
    [if (x > a) 10 else if (x > b) 8 ...], added to [score]. *)
Definition ladderAbove (score x a b c d e : N) : N :=
  if x >? a then score + lit 10
  else if x >? b then score + lit 8
  else if x >? c then score + lit 6
  else if x >? d then score + lit 4
  else if x >? e then score + lit 2
  else score.

Definition ladderBelow (score x a b c d e : N) : N :=
  if x <? a then score + lit 10
  else if x <? b then score + lit 8
  else if x <? c then score + lit 6
  else if x <? d then score + lit 4
  else if x <? e then score + lit 2
  else score.

(** [scoreSocialMetrics]. *)
Definition scoreSocialMetrics (metrics : option (SocialMetrics N)) : N :=
  match metrics with
  | None => lit 0
  | Some metrics =>
      let score := lit 0 in
      let score :=
        ladderAbove score (mentionCount metrics)
          (lit 1000) (lit 500) (lit 200) (lit 100) (lit 50) in
      let score :=
        ladderAbove score (sentiment metrics)
          (lit 0.8) (lit 0.6) (lit 0.4) (lit 0.2) (lit 0) in
      ladderAbove score (influencerMentions metrics)
        (lit 10) (lit 5) (lit 3) (lit 1) (lit 0)
  end.

(** [scoreMarketMetrics]: a lower market cap scores higher. *)
Definition scoreMarketMetrics (marketCap volume24h liquidity : N) : N :=
  let score := lit 0 in
  let score :=
    ladderBelow score marketCap
      (lit 100000) (lit 500000) (lit 1000000) (lit 5000000) (lit 10000000) in
  let score :=
    ladderAbove score volume24h
      (lit 1000000) (lit 500000) (lit 100000) (lit 50000) (lit 10000) in
  ladderAbove score liquidity
    (lit 500000) (lit 100000) (lit 50000) (lit 10000) (lit 5000).

Definition withScore (score : N) (token : FeedSignal N) : FeedSignal N :=
  {| feedAddress := feedAddress token;
     feedSymbol := feedSymbol token;
     feedMarketCap := feedMarketCap token;
     feedVolume24h := feedVolume24h token;
     feedPrice := feedPrice token;
     feedLiquidity := feedLiquidity token;
     feedScore := score;
     reasons := reasons token;
     technicalSignals := technicalSignals token;
     socialMetrics := socialMetrics token |}.

(** The first loop of [scoreTokenSignals]: a [Map] keeps its keys in the
    order of their first insertion; a signal for a known address adds its
    reasons and its score to the entry and nothing else. *)
Fixpoint mergeSignal (incoming : FeedSignal N) (tokenMap : list (FeedSignal N))
    : list (FeedSignal N) :=
  match tokenMap with
  | [] => [incoming]
  | existing :: rest =>
      if String.eqb (feedAddress existing) (feedAddress incoming) then
        {| feedAddress := feedAddress existing;
           feedSymbol := feedSymbol existing;
           feedMarketCap := feedMarketCap existing;
           feedVolume24h := feedVolume24h existing;
           feedPrice := feedPrice existing;
           feedLiquidity := feedLiquidity existing;
           feedScore := feedScore existing + feedScore incoming;
           reasons := reasons existing ++ reasons incoming;
           technicalSignals := technicalSignals existing;
           socialMetrics := socialMetrics existing |}
        :: rest
      else existing :: mergeSignal incoming rest
  end.

Definition groupSignals (signals : list (FeedSignal N)) : list (FeedSignal N) :=
  fold_left (fun tokenMap incoming => mergeSignal incoming tokenMap) signals [].

(** The score that the second step gives a token. *)
Definition tokenScore (token : FeedSignal N) : N :=
  let score := lit 0 in
  let score :=
    match technicalSignals token with
    | Some signals => score + scoreTechnicalSignals (Some signals)
    | None => score
    end in
  let score :=
    match socialMetrics token with
    | Some metrics => score + scoreSocialMetrics (Some metrics)
    | None => score
    end in
  score
  + scoreMarketMetrics (feedMarketCap token) (feedVolume24h token)
      (feedLiquidity token).

Definition meetsMinimum (token : FeedSignal N) : bool :=
  (feedScore token >=? lit 60)
  && (feedLiquidity token >=? lit 50000)
  && (feedVolume24h token >=? lit 100000).

(** [scoreTokenSignals]. *)
Definition scoreTokenSignals (signals : list (FeedSignal N))
    : list (FeedSignal N) :=
  let scoredTokens :=
    map (fun token => withScore (tokenScore token) token)
        (groupSignals signals) in
  sortWith (fun a b => feedScore b - feedScore a)
           (List.filter meetsMinimum scoredTokens).

End SignalScorer.

(** ** Signal feeds *)

(** What [getTokenMarketData] returns, with all its fields. *)
Record TokenMarketData (N : Type) : Type := {
  dataPrice : N;
  dataMarketCap : N;
  dataLiquidity : N;
  dataVolume24h : N;
  dataPriceHistory : list N;
  dataVolumeHistory : list N
}.

Arguments dataPrice {N} _.
Arguments dataMarketCap {N} _.
Arguments dataLiquidity {N} _.
Arguments dataVolume24h {N} _.
Arguments dataPriceHistory {N} _.
Arguments dataVolumeHistory {N} _.

(** What [analyzeVolumeProfile] returns. *)
Record VolumeAnalysis (N : Type) : Type := {
  analysisTrend : VolumeTrend;
  analysisUnusualActivity : bool;
  confidence : N
}.

Arguments analysisTrend {N} _.
Arguments analysisUnusualActivity {N} _.
Arguments confidence {N} _.

(** The entries of the cached arrays [birdeye_trending_tokens],
    [twitter_parsed_signals] and [cmc_trending_tokens], as far as the feeds
    read them. *)
Record TrendingToken : Type := {
  trendingAddress : string;
  trendingSymbol : string
}.

Record TwitterSignal (N : Type) : Type := {
  tweetAddress : string;
  tweetSymbol : string;
  tweetMarketCap : N;
  tweetVolume24h : N;
  tweetPrice : N;
  tweetLiquidity : N;
  tweetMentionCount : N;
  tweetSentiment : N;
  tweetInfluencerMentions : N
}.

Arguments tweetAddress {N} _.
Arguments tweetSymbol {N} _.
Arguments tweetMarketCap {N} _.
Arguments tweetVolume24h {N} _.
Arguments tweetPrice {N} _.
Arguments tweetLiquidity {N} _.
Arguments tweetMentionCount {N} _.
Arguments tweetSentiment {N} _.
Arguments tweetInfluencerMentions {N} _.

Record CmcToken (N : Type) : Type := {
  cmcAddress : string;
  cmcSymbol : string;
  cmcMarketCap : N;
  cmcVolume24h : N;
  cmcPrice : N;
  cmcLiquidity : N;
  cmcRank : N
}.

Arguments cmcAddress {N} _.
Arguments cmcSymbol {N} _.
Arguments cmcMarketCap {N} _.
Arguments cmcVolume24h {N} _.
Arguments cmcPrice {N} _.
Arguments cmcLiquidity {N} _.
Arguments cmcRank {N} _.

Section SignalFeeds.
Context {N : Type} `{JsNumber N}.
Local Open Scope js_scope.

(** [Math.sqrt], and the text of a number in a template literal, taken as
    given. *)
Variable Math_sqrt : N -> N.
Variable numberText : N -> string.

(** The market data of a token, as the awaited [getTokenMarketData]
    returns it (the call catches its own errors). *)
Variable getTokenMarketData : string -> TokenMarketData N.

(** [analyzeVolumeProfile]; [x ** 2] is written [x * x]. *)
Definition analyzeVolumeProfile (volumes : list N) : VolumeAnalysis N :=
  if (length volumes <? 2)%nat then
    {| analysisTrend := trendStable; analysisUnusualActivity := false;
       confidence := lit 0 |}
  else
    let volumeMA :=
      fold_left (fun sum vol => sum + vol) volumes (lit 0)
      / of_nat (length volumes) in
    let recentVolume := at_index volumes (length volumes - 1) in
    let volumeChange := ((recentVolume - volumeMA) / volumeMA) * lit 100 in
    let volumeStdDev :=
      Math_sqrt
        (fold_left (fun sum vol => sum + (vol - volumeMA) * (vol - volumeMA))
                   volumes (lit 0)
         / of_nat (length volumes)) in
    let unusualActivity :=
      Math_abs (recentVolume - volumeMA) >? volumeStdDev * lit 2 in
    let trend :=
      if volumeChange >? lit 20 then trendIncreasing
      else if volumeChange <? lit (-20) then trendDecreasing
      else trendStable in
    let confidence := Math_min (lit 100) (Math_abs volumeChange) in
    {| analysisTrend := trend; analysisUnusualActivity := unusualActivity;
       confidence := confidence |}.

(** [calculateTechnicalSignals] with all the fields of its result; the
    monitor reads the first two only. *)
Definition calculateAllTechnicalSignals (marketData : TokenMarketData N)
    : TokenTechnicals N :=
  match dataPriceHistory marketData with
  | [] =>
      {| technicalRsi := lit 50;
         technicalMacd :=
           {| macd := lit 0; signal := lit 0; histogram := lit 0 |};
         volumeProfile :=
           Some {| trend := trendStable; unusualActivity := false |};
         technicalVolatility := lit 0 |}
  | _ =>
      let rsi := calculateRSI (dataPriceHistory marketData) 14 in
      let macdResult := calculateMACD (dataPriceHistory marketData) in
      let volumeProfile :=
        analyzeVolumeProfile (dataVolumeHistory marketData) in
      let volatility :=
        calculateVolatility Math_sqrt (dataPriceHistory marketData) in
      {| technicalRsi := rsi;
         technicalMacd :=
           {| macd := macd macdResult; signal := signal macdResult;
              histogram := histogram macdResult |};
         volumeProfile :=
           Some {| trend := analysisTrend volumeProfile;
                   unusualActivity :=
                     analysisUnusualActivity volumeProfile |};
         technicalVolatility := volatility |}
  end.

(** [getBirdeyeSignals], given what the cache lookup returned ([None] for
    a missing entry, [Threw] for a lookup that throws). *)
Definition getBirdeyeSignals
    (cached : Fetched (option (list TrendingToken))) : list (FeedSignal N) :=
  match cached with
  | Threw => []
  | Got cached =>
      let trendingTokens := default [] cached in
      map (fun token =>
             let marketData := getTokenMarketData (trendingAddress token) in
             {| feedAddress := trendingAddress token;
                feedSymbol := trendingSymbol token;
                feedMarketCap := dataMarketCap marketData;
                feedVolume24h := dataVolume24h marketData;
                feedPrice := dataPrice marketData;
                feedLiquidity := dataLiquidity marketData;
                feedScore := lit 0;
                reasons :=
                  [("Trending on Birdeye with "
                    ++ numberText (dataVolume24h marketData)
                    ++ "$ 24h volume")%string];
                technicalSignals :=
                  Some (calculateAllTechnicalSignals marketData);
                socialMetrics := None |})
          trendingTokens
  end.

(** [getTwitterSignals]. *)
Definition getTwitterSignals
    (cached : Fetched (option (list (TwitterSignal N))))
    : list (FeedSignal N) :=
  match cached with
  | Threw => []
  | Got cached =>
      let twitterSignals := default [] cached in
      map (fun signal =>
             {| feedAddress := tweetAddress signal;
                feedSymbol := tweetSymbol signal;
                feedMarketCap := tweetMarketCap signal;
                feedVolume24h := tweetVolume24h signal;
                feedPrice := tweetPrice signal;
                feedLiquidity := tweetLiquidity signal;
                feedScore := lit 0;
                reasons :=
                  [("High social activity: "
                    ++ numberText (tweetMentionCount signal)
                    ++ " mentions")%string];
                technicalSignals := None;
                socialMetrics :=
                  Some {| mentionCount := tweetMentionCount signal;
                          sentiment := tweetSentiment signal;
                          influencerMentions :=
                            tweetInfluencerMentions signal |} |})
          twitterSignals
  end.

(** [getCMCSignals]. *)
Definition getCMCSignals (cached : Fetched (option (list (CmcToken N))))
    : list (FeedSignal N) :=
  match cached with
  | Threw => []
  | Got cached =>
      let cmcTokens := default [] cached in
      map (fun token =>
             {| feedAddress := cmcAddress token;
                feedSymbol := cmcSymbol token;
                feedMarketCap := cmcMarketCap token;
                feedVolume24h := cmcVolume24h token;
                feedPrice := cmcPrice token;
                feedLiquidity := cmcLiquidity token;
                feedScore := lit 0;
                reasons :=
                  [("Trending on CMC: " ++ numberText (cmcRank token)
                    ++ " rank")%string];
                technicalSignals := None;
                socialMetrics := None |})
          cmcTokens
  end.

(** The signals that [getTokenRecommendation] scores: the three feeds, in
    this order. *)
Definition feedSignals (birdeye : Fetched (option (list TrendingToken)))
    (twitter : Fetched (option (list (TwitterSignal N))))
    (cmc : Fetched (option (list (CmcToken N)))) : list (FeedSignal N) :=
  getBirdeyeSignals birdeye ++ getTwitterSignals twitter ++ getCMCSignals cmc.

End SignalFeeds.

(** ** The whole configuration and its validation *)

Record Intervals (N : Type) : Type := {
  priceCheck : N;
  walletSync : N;
  performanceMonitor : N
}.

Record Thresholds (N : Type) : Type := {
  minLiquidity : N;
  minVolume : N;
  minScore : N
}.

Arguments priceCheck {N} _.
Arguments walletSync {N} _.
Arguments performanceMonitor {N} _.
Arguments minLiquidity {N} _.
Arguments minVolume {N} _.
Arguments minScore {N} _.

(** [this.tradingConfig] with its four groups; the last two are the
    [TradingConfig] above. *)
Record ServiceConfig (N : Type) : Type := {
  intervals : Intervals N;
  thresholds : Thresholds N;
  limits : TradingConfig N
}.

Arguments intervals {N} _.
Arguments thresholds {N} _.
Arguments limits {N} _.

Section ConfigurationValidator.
Context {N : Type} `{JsNumber N}.
Local Open Scope js_scope.

Definition validateIntervals (intervals : Intervals N) : Intervals N :=
  let priceCheck :=
    if priceCheck intervals <? lit 10000 then lit 10000
    else priceCheck intervals in
  let walletSync :=
    if walletSync intervals <? lit 60000 then lit 60000
    else walletSync intervals in
  {| priceCheck := priceCheck; walletSync := walletSync;
     performanceMonitor := performanceMonitor intervals |}.

Definition validateThresholds (thresholds : Thresholds N) : Thresholds N :=
  let minLiquidity :=
    if minLiquidity thresholds <=? lit 0 then lit 10000
    else minLiquidity thresholds in
  let minVolume :=
    if minVolume thresholds <=? lit 0 then lit 5000
    else minVolume thresholds in
  {| minLiquidity := minLiquidity; minVolume := minVolume;
     minScore := minScore thresholds |}.

Definition validateRiskLimits (riskLimits : RiskLimits N) : RiskLimits N :=
  let maxPositionSize :=
    if (maxPositionSize riskLimits <=? lit 0)
       || (maxPositionSize riskLimits >? lit 0.5)
    then lit 0.1 else maxPositionSize riskLimits in
  let maxDrawdown :=
    if (maxDrawdown riskLimits <=? lit 0)
       || (maxDrawdown riskLimits >? lit 0.5)
    then lit 0.2 else maxDrawdown riskLimits in
  let stopLossPercentage :=
    if (stopLossPercentage riskLimits <=? lit 0)
       || (stopLossPercentage riskLimits >? lit 50)
    then lit 10 else stopLossPercentage riskLimits in
  let takeProfitPercentage :=
    if takeProfitPercentage riskLimits <=? lit 0 then lit 20
    else takeProfitPercentage riskLimits in
  {| maxPositionSize := maxPositionSize; maxDrawdown := maxDrawdown;
     stopLossPercentage := stopLossPercentage;
     takeProfitPercentage := takeProfitPercentage |}.

(** [validateConfiguration]: the configuration afterwards.  The three
    groups are validated in this order and independently of each other;
    the slippage settings are not read. *)
Definition validateConfiguration (config : ServiceConfig N) : ServiceConfig N :=
  {| intervals := validateIntervals (intervals config);
     thresholds := validateThresholds (thresholds config);
     limits :=
       {| riskLimits := validateRiskLimits (riskLimits (limits config));
          slippageSettings := slippageSettings (limits config) |} |}.

End ConfigurationValidator.

(** ** Risk reduction *)

(** A stored trade, as far as the service reads it back. *)
Record Trade (N : Type) : Type := {
  buy_price : N;
  buy_amount : N
}.

Arguments buy_price {N} _.
Arguments buy_amount {N} _.

(** An element of [positionPerformance]. *)
Record PositionPerformance (N : Type) : Type := {
  performanceToken : string;
  performanceAmount : N;
  performanceValue : N;
  performanceOf : N
}.

Arguments performanceToken {N} _.
Arguments performanceAmount {N} _.
Arguments performanceValue {N} _.
Arguments performanceOf {N} _.

(** A call [createSellSignal(token, amount.toString(), reason)] of the risk
    reduction: the amount is a number, passed as its text. *)
Record RiskSale (N : Type) : Type := {
  saleToken : string;
  saleAmount : N;
  saleReason : string
}.

Arguments saleToken {N} _.
Arguments saleAmount {N} _.
Arguments saleReason {N} _.

Section RiskReducer.
Context {N : Type} `{JsNumber N}.
Local Open Scope js_scope.

Variable tradingConfig : TradingConfig N.

(** The awaited [getTradesForToken] and [getTokenMarketData]; both catch
    their own errors. *)
Variable getTradesForToken : string -> list (Trade N).
Variable getTokenMarketData : string -> TokenMarketData N.

(** The body of the first loop of [reduceRisk] for one entry of
    [portfolio.positions]; [None] is [continue]. *)
Definition positionPerformance (entry : string * Position N)
    : option (PositionPerformance N) :=
  let '(tokenAddress, position) := entry in
  let trades := getTradesForToken tokenAddress in
  match trades with
  | [] => None
  | _ =>
      let avgPurchasePrice :=
        fold_left (fun sum trade => sum + buy_price trade * buy_amount trade)
                  trades (lit 0)
        / fold_left (fun sum trade => sum + buy_amount trade) trades (lit 0) in
      let marketData := getTokenMarketData tokenAddress in
      let performance :=
        if dataPrice marketData >? lit 0 then
          (dataPrice marketData - avgPurchasePrice) / avgPurchasePrice
        else lit (-1) in
      Some {| performanceToken := tokenAddress;
              performanceAmount := amount position;
              performanceValue := value position;
              performanceOf := performance |}
  end.

(** The second loop: sell until the remaining drawdown is at most 80% of
    the maximum. *)
Fixpoint sellWorst (totalValue drawdown : N)
    (positions : list (PositionPerformance N)) (remainingDrawdown : N)
    : list (RiskSale N) :=
  match positions with
  | [] => []
  | position :: rest =>
      if remainingDrawdown
         <=? maxDrawdown (riskLimits tradingConfig) * lit 0.8
      then []
      else
        {| saleToken := performanceToken position;
           saleAmount := performanceAmount position;
           saleReason := "Risk reduction - drawdown exceeded" |}
        :: sellWorst totalValue drawdown rest
             (remainingDrawdown
              - (performanceValue position / totalValue) * drawdown)
  end.

(** [reduceRisk]: the calls of [createSellSignal] that it makes, in order.
    [entries] is [Object.entries(portfolio.positions)], in the order of the
    object's keys. *)
Definition reduceRisk (entries : list (string * Position N))
    (portfolio : PortfolioStatus N) : list (RiskSale N) :=
  let positionPerformance := omap positionPerformance entries in
  let sorted :=
    sortWith (fun a b => performanceOf a - performanceOf b)
             positionPerformance in
  sellWorst (totalValue portfolio) (drawdown portfolio) sorted
            (drawdown portfolio).

(** The risk step of [monitorPerformance]: the sells that a run creates. *)
Definition monitorPerformanceSales (entries : list (string * Position N))
    (portfolio : PortfolioStatus N) : list (RiskSale N) :=
  if drawdown portfolio >? maxDrawdown (riskLimits tradingConfig) then
    reduceRisk entries portfolio
  else [].

End RiskReducer.

(** ** Slippage recalibration *)

(** A stored [slippage_impact] record, as far as the recalibration reads
    it.  [timestamp] is an ISO string in the source; strings of that format
    compare as the instants they denote, which are kept here in
    milliseconds. *)
Record SlippageRecord (N : Type) : Type := {
  recordTimestamp : Z;
  recordLiquidity : N;
  recordVolume24h : N;
  actualSlippageBps : N;
  slippageBpsUsed : N
}.

Arguments recordTimestamp {N} _.
Arguments recordLiquidity {N} _.
Arguments recordVolume24h {N} _.
Arguments actualSlippageBps {N} _.
Arguments slippageBpsUsed {N} _.

Section SlippageOptimizer.
Context {N : Type} `{JsNumber N}.
Local Open Scope js_scope.

(** [Math.floor(length * fraction)] as an index, taken as given. *)
Variable floorIndex : nat -> N -> nat.

(** [calculateAverageSlippageEfficiency]. *)
Definition calculateAverageSlippageEfficiency
    (records : list (SlippageRecord N)) : N :=
  match records with
  | [] => lit 0
  | _ =>
      let efficiencies :=
        map (fun record => actualSlippageBps record / slippageBpsUsed record)
            records in
      let sortedEfficiencies := sortWith (fun a b => a - b) efficiencies in
      let q1Index := floorIndex (length sortedEfficiencies) (lit 0.25) in
      let q3Index := floorIndex (length sortedEfficiencies) (lit 0.75) in
      let q1 := at_index sortedEfficiencies q1Index in
      let q3 := at_index sortedEfficiencies q3Index in
      let iqr := q3 - q1 in
      let lowerBound := q1 - lit 1.5 * iqr in
      let upperBound := q3 + lit 1.5 * iqr in
      let filteredEfficiencies :=
        List.filter (fun e => (e >=? lowerBound) && (e <=? upperBound))
                    efficiencies in
      fold_left (fun sum val => sum + val) filteredEfficiencies (lit 0)
      / of_nat (length filteredEfficiencies)
  end.

(** One multiplier of the recalibration: lowered by a tenth when the
    efficiency is above 0.9, raised by a tenth when it is below 0.7. *)
Definition adjustMultiplier (efficiency multiplier : N) : N :=
  if efficiency >? lit 0.9 then Math_max (lit 0.5) (multiplier * lit 0.9)
  else if efficiency <? lit 0.7 then Math_min (lit 2.0) (multiplier * lit 1.1)
  else multiplier.

(** [maybeOptimizeSlippageParameters], given the clock, the cached time of
    the last run and the records found under the cached keys: the slippage
    settings and the cached time afterwards. *)
Definition maybeOptimizeSlippageParameters (now : Z)
    (lastOptimizationTime : option Z) (allRecords : list (SlippageRecord N))
    (settings : SlippageSettings N) : SlippageSettings N * option Z :=
  if match lastOptimizationTime with
     | Some last => negb (last =? 0)%Z && (now - last <? 24 * 60 * 60 * 1000)%Z
     | None => false
     end
  then (settings, lastOptimizationTime)
  else
    let cutoffTime := (now - 7 * 24 * 60 * 60 * 1000)%Z in
    if (length allRecords <? 10)%nat then (settings, lastOptimizationTime)
    else
      let recentRecords :=
        List.filter (fun data => (cutoffTime <=? recordTimestamp data)%Z)
                    allRecords in
      if (length recentRecords <? 10)%nat then
        (settings, lastOptimizationTime)
      else
        let low :=
          List.filter (fun data => recordLiquidity data <? lit 10000)
                      recentRecords in
        let liquidityMultiplier :=
          if (5 <=? length low)%nat then
            adjustMultiplier (calculateAverageSlippageEfficiency low)
                             (liquidityMultiplier settings)
          else liquidityMultiplier settings in
        let highVolumeRecords :=
          List.filter
            (fun data =>
               recordVolume24h data / recordLiquidity data >? lit 0.3)
            recentRecords in
        let volumeMultiplier :=
          if (5 <=? length highVolumeRecords)%nat then
            adjustMultiplier
              (calculateAverageSlippageEfficiency highVolumeRecords)
              (volumeMultiplier settings)
          else volumeMultiplier settings in
        ({| baseSlippage := baseSlippage settings;
            maxSlippage := maxSlippage settings;
            liquidityMultiplier := liquidityMultiplier;
            volumeMultiplier := volumeMultiplier |},
         Some now).

End SlippageOptimizer.

(** ** Sell tasks *)

(** The text of an amount in a task, by what the two conversions of the
    code make of it: a text that [BigInt] accepts (and of which [Number]
    is the same integer), any other text with its [Number] (NaN for a text
    that is no number), or no text ([undefined], [null] and the empty
    string are falsy). *)
Inductive AmountText (N : Type) : Type :=
  | integerText (z : Z)
  | otherText (number : N)
  | absentText.

Arguments integerText {N} z.
Arguments otherText {N} number.
Arguments absentText {N}.

(** The fields of [options.signal] that [executeSellTask] reads. *)
Record SellTaskSignal (N : Type) : Type := {
  signalToken : string;
  signalAmount : AmountText N;
  signalBalance : AmountText N
}.

Arguments signalToken {N} _.
Arguments signalAmount {N} _.
Arguments signalBalance {N} _.

Section SellTasks.
Context {N : Type} `{JsNumber N}.
Local Open Scope js_scope.

Definition hasText (text : AmountText N) : bool :=
  match text with
  | absentText => false
  | _ => true
  end.

(** [Number(text)] for a text that is there. *)
Definition Number_of (text : AmountText N) : N :=
  match text with
  | integerText z => of_Z z
  | otherText number => number
  | absentText => lit 0
  end.

(** [BigInt(text)]; [None] when it throws. *)
Definition BigInt_of (text : AmountText N) : option Z :=
  match text with
  | integerText z => Some z
  | _ => None
  end.

(** [executeSellTask]; the value is [success] of the object returned.
    The slippage tracking after a successful sell catches its own errors
    and does not touch the counter. *)
Definition executeSellTask (signal : option (SellTaskSignal N))
    : Async bool :=
  try_catch
    (match signal with
     | None => ret false
     | Some signal =>
         if negb (hasText (signalAmount signal))
            || (Number_of (signalAmount signal) <=? lit 0)
         then ret false
         else if hasText (signalBalance signal)
                 && (Number_of (signalAmount signal)
                     >? Number_of (signalBalance signal))
         then ret false
         else
           handleSellSignal (signalToken signal)
             (BigInt_of (signalAmount signal))
     end)
    (ret false).

End SellTasks.

(** ** Trade performance records *)

(** A stored trade-performance record and an entry of
    [trade_performance_index], as far as [getLatestTradePerformance] reads
    them; [entryTime] is [new Date(entry.buy_timeStamp).getTime()]. *)
Record PerformanceRecord : Type := {
  performanceId : string;
  isSimulation : bool
}.

Record IndexEntry (N : Type) : Type := {
  entryId : string;
  entryToken : string;
  entryRecommender : string;
  entryTime : N
}.

Arguments entryId {N} _.
Arguments entryToken {N} _.
Arguments entryRecommender {N} _.
Arguments entryTime {N} _.

Section TradePerformance.
Context {N : Type} `{JsNumber N}.
Local Open Scope js_scope.

(** [getLatestTradePerformance], given what its cache lookups return:
    [cached] is the awaited entry under [tokenAddress:recommenderId]
    ([None] for a missing entry), [performanceIndex] the index and
    [fullRecordOf] the lookup of a full record by its key.  The result is
    the value returned (or the exception rethrown) and the record written
    under the cache key, if any.

    The guard [if (getCache(cacheKey))] tests the promise that the call
    returns, not its value: a promise is an object and therefore truthy, so
    the body of the guard always runs and reads [cached.isSimulation],
    which throws when [cached] is [null] or [undefined]. *)
Definition getLatestTradePerformance (tokenAddress recommenderId : string)
    (simulation : bool) (cached : Fetched (option PerformanceRecord))
    (performanceIndex : Fetched (option (list (IndexEntry N))))
    (fullRecordOf : string -> Fetched (option PerformanceRecord))
    : Fetched (option PerformanceRecord) * option PerformanceRecord :=
  match cached with
  | Threw => (Threw, None)
  | Got None => (Threw, None)
  | Got (Some cached) =>
      if Bool.eqb (isSimulation cached) simulation then
        (Got (Some cached), None)
      else
        match performanceIndex with
        | Threw => (Threw, None)
        | Got performanceIndex =>
            let filtered :=
              sortWith (fun a b => entryTime b - entryTime a)
                (List.filter
                   (fun entry =>
                      String.eqb (entryToken entry) tokenAddress
                      && String.eqb (entryRecommender entry) recommenderId)
                   (default [] performanceIndex)) in
            match filtered with
            | latestEntry :: _ =>
                match fullRecordOf
                        ("trade_performance:" ++ entryId latestEntry)%string
                with
                | Threw => (Threw, None)
                | Got (Some fullRecord) =>
                    (Got (Some fullRecord), Some fullRecord)
                | Got None => (Got None, None)
                end
            | [] => (Got None, None)
            end
        end
  end.

(** The call of [getLatestTradePerformance] in [monitorToken], whose value
    is not read. *)
Definition performanceCall
    (result : Fetched (option PerformanceRecord) * option PerformanceRecord)
    : Fetched unit :=
  match fst result with
  | Got _ => Got tt
  | Threw => Threw
  end.

End TradePerformance.

(** ** Token statistics *)

(** The record stored under [token_stats:<tokenAddress>] and the figures of
    a trade that [updateTokenStatistics] receives. *)
Record TokenStats (N : Type) : Type := {
  trades : N;
  total_profit_usd : N;
  average_profit_percent : N;
  rapid_dumps : N
}.

Arguments trades {N} _.
Arguments total_profit_usd {N} _.
Arguments average_profit_percent {N} _.
Arguments rapid_dumps {N} _.

Record TradeOutcome (N : Type) : Type := {
  profit_usd : N;
  profit_percent : N;
  rapidDump : bool
}.

Arguments profit_usd {N} _.
Arguments profit_percent {N} _.
Arguments rapidDump {N} _.

Section TokenStatistics.
Context {N : Type} `{JsNumber N}.
Local Open Scope js_scope.

(** [updateTokenStatistics]: the entry that it stores, given the entry
    that it finds ([None] for a missing one). *)
Definition updateTokenStatistics (cached : option (TokenStats N))
    (data : TradeOutcome N) : TokenStats N :=
  let stats :=
    default {| trades := lit 0; total_profit_usd := lit 0;
               average_profit_percent := lit 0; rapid_dumps := lit 0 |}
            cached in
  let trades := trades stats + lit 1 in
  let total_profit_usd := total_profit_usd stats + profit_usd data in
  let average_profit_percent :=
    (average_profit_percent stats * (trades - lit 1) + profit_percent data)
    / trades in
  let rapid_dumps :=
    if rapidDump data then rapid_dumps stats + lit 1
    else rapid_dumps stats in
  {| trades := trades; total_profit_usd := total_profit_usd;
     average_profit_percent := average_profit_percent;
     rapid_dumps := rapid_dumps |}.

End TokenStatistics.

(** ** The service's own cache *)

(** [CacheEntry] and [CacheManager]: the map of the entries, with the
    clock readings of [Date.now()] as arguments. *)
Record CacheEntry (V : Type) : Type := {
  entryValue : V;
  entryTimestamp : Z;
  expiry : Z
}.

Arguments entryValue {V} _.
Arguments entryTimestamp {V} _.
Arguments expiry {V} _.

Module CacheManager.

Definition defaultTTL : Z := 60000.

(** [get]: the value returned ([None] for [null]) and the map afterwards;
    an entry past its expiry is deleted when it is read. *)
Definition get {V : Type} (now : Z) (key : string)
    (cache : gmap string (CacheEntry V)) : option V * gmap string (CacheEntry V) :=
  match cache !! key with
  | None => (None, cache)
  | Some entry =>
      if (expiry entry <? now)%Z then (None, delete key cache)
      else (Some (entryValue entry), cache)
  end.

(** [set]; [ttl] is [None] when the argument is left out. *)
Definition set {V : Type} (now : Z) (key : string) (value : V)
    (ttl : option Z) (cache : gmap string (CacheEntry V))
    : gmap string (CacheEntry V) :=
  <[key := {| entryValue := value; entryTimestamp := now;
              expiry := (now + default defaultTTL ttl)%Z |}]> cache.

End CacheManager.

(** ** Performance snapshots *)

(** [storePerformanceSnapshot]: the index stored under
    [performance_snapshot_index], given the cached one ([None] for a
    missing entry) and the timestamp of the snapshot. *)
Definition storePerformanceSnapshot (timestamp : string)
    (cached : option (list string)) : list string :=
  let snapshotIndex := default [] cached ++ [timestamp] in
  if (100 <? length snapshotIndex)%nat then tail snapshotIndex
  else snapshotIndex.

(** ** Retries *)

(** How [retryWithExponentialBackoff] ends: with the value of an attempt,
    with the error of the last attempt rethrown, or with the error
    [Retry failed] thrown after the loop. *)
Inductive RetryResult (A : Type) : Type :=
  | Succeeded (value : A)
  | Rethrown (attempt : nat)
  | RetryFailed.

Arguments Succeeded {A} value.
Arguments Rethrown {A} attempt.
Arguments RetryFailed {A}.

Section Retry.
Context {A : Type}.

(** What the operation does at each of its calls, counted from 0. *)
Variable operation : nat -> Fetched A.

(** The loop of [retryWithExponentialBackoff] from attempt [i] on, with
    [remaining] iterations to go: the result and the delays waited,
    in milliseconds and in order. *)
Fixpoint retryFrom (maxRetries : nat) (baseDelay : Z) (remaining i : nat)
    (waited : list Z) : RetryResult A * list Z :=
  match remaining with
  | O => (RetryFailed, waited)
  | S remaining =>
      match operation i with
      | Got value => (Succeeded value, waited)
      | Threw =>
          if (i =? maxRetries - 1)%nat then (Rethrown i, waited)
          else
            let delay := (baseDelay * 2 ^ Z.of_nat i)%Z in
            retryFrom maxRetries baseDelay remaining (S i) (waited ++ [delay])
      end
  end.

(** [retryWithExponentialBackoff] for a whole number of retries. *)
Definition retryWithExponentialBackoff (maxRetries : nat) (baseDelay : Z)
    : RetryResult A * list Z :=
  retryFrom maxRetries baseDelay maxRetries 0 [].

End Retry.

(** * Vocabulary of the properties *)

(** ** Statements in exact arithmetic *)

Section ExactVocabulary.
Local Open Scope Q_scope.

(** Following the spec's words: the simple average of a window, and the
    EMA recurrence [ema' = alpha * price + (1 - alpha) * ema] run from a
    seed over the remaining prices. *)
Definition simpleAverage (window : list Q) : Q :=
  fold_right Qplus 0 window / inject_Z (Z.of_nat (length window)).

Fixpoint emaRecurrence (alpha ema : Q) (rest : list Q) : Q :=
  match rest with
  | [] => ema
  | price :: rest => emaRecurrence alpha (alpha * price + (1 - alpha) * ema) rest
  end.

(** No price is below the one before it. *)
Fixpoint nondecreasing (prices : list Q) : bool :=
  match prices with
  | a :: (b :: _) as rest => Qle_bool a b && nondecreasing rest
  | _ => true
  end.

(** [Math.floor] on exact numbers. *)
Definition floorQ (q : Q) : Q := inject_Z (Qfloor q).

(** The stop-loss and take-profit prices of an entry price. *)
Definition stopLossOf (cfg : TradingConfig Q) (entry : Q) : Q :=
  entry * (1 - stopLossPercentage (riskLimits cfg) / 100).

Definition takeProfitOf (cfg : TradingConfig Q) (entry : Q) : Q :=
  entry * (1 + takeProfitPercentage (riskLimits cfg) / 100).

(** An optional level of the task is absent or is the level that
    [startDegenProcess] stored, computed by the same formula. *)
Definition absent_or (level : Q) (option_level : option Q) : Prop :=
  match option_level with
  | None => True
  | Some stored => stored == level
  end.

End ExactVocabulary.

(** The record with its highest price replaced. *)
Definition withHighest {N : Type} (highest : N) (record : TrailingStop N)
    : TrailingStop N :=
  {| highestPrice := highest;
     activationPrice := activationPrice record;
     trailingStopPercentage := trailingStopPercentage record;
     trailingAmount := trailingAmount record;
     createdAt := createdAt record |}.

(** The two records that a triggered circuit-breaker check stores. *)
Definition breakerRecord {N : Type} (reason : string) (now : Z)
    (priceChangePercent volatility : N) : CircuitBreaker N :=
  {| triggered := true;
     breakerReason := reason;
     breakerTimestamp := now;
     detailPriceChangePercent := priceChangePercent;
     detailVolatility := volatility |}.

Definition pauseRecord (now : Z) : TradingPaused :=
  {| paused := true;
     pausedReason := "Circuit breaker triggered";
     pausedTimestamp := now;
     expiryTime := now + 3600000 |}.

(** ** The counter with invocations in flight *)

Section CounterVocabulary.
Local Open Scope Z_scope.

(** The counter between invocations: every entry is above zero (the
    [finally] block deletes an entry that is zero or less). *)
Definition positiveEntries (pendingSells : gmap string Z) : Prop :=
  map_Forall (fun _ v => 0 < v) pendingSells.

(** The calls that one invocation of [handleSellSignal] makes, given what
    they do: the slippage and the quote; the wallet when the quote
    returned; the sell when there is a wallet. *)
Definition callsOf (tokenAddress : string) (sellAmount : Z)
    (calls : SellCalls) : list AnyCall :=
  [anyCall (slippageCall tokenAddress sellAmount);
   anyCall (quoteCall tokenAddress sellAmount)]
  ++ match getQuote calls with
     | Got _ =>
         anyCall walletCall
         :: match getWallet calls with
            | Got (Some _) => [anyCall (sellCall tokenAddress sellAmount)]
            | _ => []
            end
     | Threw => []
     end.

(** What the invocation reports: success when the quote returned, there
    is a wallet, and [wallet.sell] returned success with a signature. *)
Definition sold (calls : SellCalls) : bool :=
  match getQuote calls, getWallet calls, walletSell calls with
  | Got _, Got (Some _), Got result =>
      success result && bool_decide (signature result <> None)
  | _, _, _ => false
  end.

(** An invocation that waits at an await. *)
Definition suspended {A} (task : Async A) : bool :=
  match task with
  | Await _ _ => true
  | _ => false
  end.

(** The amount that an invocation holds in the counter of a token: its
    own amount while it waits at an await of a sell of that token. *)
Definition heldBy (tokenAddress : string) (invocation : Invocation) : Z :=
  if suspended (invocationState invocation)
     && bool_decide (invokedToken invocation = tokenAddress)
  then invokedAmount invocation
  else 0.

(** The amount in flight for a token. *)
Fixpoint inFlightAmount (tokenAddress : string)
    (invocations : list Invocation) : Z :=
  match invocations with
  | [] => 0
  | invocation :: rest =>
      heldBy tokenAddress invocation + inFlightAmount tokenAddress rest
  end.

(** A task that has recorded a pending sell and not yet released it:
    whatever the awaited calls do, its one remaining update of the counter
    is the release of that amount, and with it the task ends. *)
Fixpoint holding (tokenAddress : string) (sellAmount : Z) {A}
    (task : Async A) : Prop :=
  match task with
  | Finished _ => False
  | Update f (Finished _) =>
      forall pendingSells,
        f pendingSells = releasePendingSell tokenAddress sellAmount pendingSells
  | Update _ _ => False
  | Await _ resume => forall result, holding tokenAddress sellAmount (resume result)
  end.

Definition eventAmount (e : SellEvent) : Z :=
  match e with
  | Invoke _ a => a
  | Resolve _ _ => 0
  end.

(** What holds of the counter [m] and the invocations, from a counter
    [m0] with no invocation: the counter of a token is the one of [m0]
    plus the amounts in flight, no amount is negative, an invocation at
    an await holds its amount, and an entry that is not above zero
    belongs to a token in flight. *)
Record Balanced (m0 m : gmap string Z) (invocations : list Invocation)
    : Prop := {
  balanced_sum :
    forall t, pendingOf m t = pendingOf m0 t + inFlightAmount t invocations;
  balanced_amounts :
    Forall (fun invocation =>
              0 <= invokedAmount invocation
              /\ (suspended (invocationState invocation) = true ->
                  holding (invokedToken invocation)
                    (invokedAmount invocation)
                    (invocationState invocation)))
      invocations;
  balanced_entries :
    forall t v, m !! t = Some v ->
      0 < v
      \/ exists invocation,
           invocation ∈ invocations
           /\ suspended (invocationState invocation) = true
           /\ invokedToken invocation = t
}.

End CounterVocabulary.

(** ** Configurations and inputs of the examples *)

(** The configuration that the service starts with. *)
Definition defaultConfig {N : Type} `{JsNumber N} : TradingConfig N :=
  {| riskLimits :=
       {| maxPositionSize := lit 0.2;
          maxDrawdown := lit 0.1;
          stopLossPercentage := lit 0.05;
          takeProfitPercentage := lit 0.2 |};
     slippageSettings :=
       {| baseSlippage := lit 0.5;
          maxSlippage := lit 1.0;
          liquidityMultiplier := lit 1.0;
          volumeMultiplier := lit 1.0 |} |}.

(** The examples of the spec: a stop loss of 5% and a take profit of 20%
    on an entry price of 100, for a position of 1000 units of token [T]. *)
Definition exampleConfig {N : Type} `{JsNumber N} : TradingConfig N :=
  {| riskLimits :=
       {| maxPositionSize := lit 0.2;
          maxDrawdown := lit 0.1;
          stopLossPercentage := lit 5;
          takeProfitPercentage := lit 20 |};
     slippageSettings := slippageSettings defaultConfig |}.

Definition exampleOptions {N : Type} `{JsNumber N} : MonitorOptions N :=
  {| tokenAddress := "T";
     initialPrice := Some (lit 100);
     stopLossPrice := None;
     takeProfitPrice := None |}.

Definition tickAt {N : Type} (current : N) : Tick N :=
  {| currentBalance := Got (Some 1000%Z);
     marketData := {| price := current; priceHistory := [] |};
     performance := Got tt;
     now := 0 |}.

Definition emptyRuntime {N : Type} : Runtime N :=
  {| trailing_stop := ∅;
     circuit_breaker := None;
     trading_paused := None;
     tasks := [];
     sellSignals := [] |}.

(** The trailing stop of the spec's example: anchored at 121 with a
    trailing percentage of 5, for 500 units of token [T]. *)
Definition anchoredRecord {N : Type} `{JsNumber N} : TrailingStop N :=
  {| highestPrice := lit 121;
     activationPrice := lit 121;
     trailingStopPercentage := lit 5;
     trailingAmount := 500;
     createdAt := 0 |}.

Definition anchoredRuntime {N : Type} `{JsNumber N} : Runtime N :=
  setTrailingStopCache "T" anchoredRecord emptyRuntime.

(** The stop price that the code computes for the anchored record. *)
Definition anchoredStopPrice {N : Type} `{JsNumber N} : N :=
  (lit 121 * (lit 1 - lit 5 / lit 100))%js.

(** Fifteen rising prices, and fifteen equal ones. *)
Definition risingPrices : list Z := map Z.of_nat (seq 1 15).
Definition flatPrices : list Z := repeat 5%Z 15.

(** A token in a pool of liquidity 1, scored 80. *)
Definition thinToken {N : Type} `{JsNumber N} : TokenSignal N :=
  {| score := lit 80; liquidity := lit 1; volatility := None |}.

(** A reference asset that stood at 100 for 24 samples. *)
Definition flatHistory : list float := repeat 100%float 24.

(** ** Scored tokens *)

(** The fields of a grouped token other than its reasons and its score are
    those of a signal. *)
Definition sameMetrics {N : Type} (token signal : FeedSignal N) : Prop :=
  feedAddress token = feedAddress signal
  /\ feedSymbol token = feedSymbol signal
  /\ feedMarketCap token = feedMarketCap signal
  /\ feedVolume24h token = feedVolume24h signal
  /\ feedPrice token = feedPrice signal
  /\ feedLiquidity token = feedLiquidity signal
  /\ technicalSignals token = technicalSignals signal
  /\ socialMetrics token = socialMetrics signal.

(** The first signal of a list for an address. *)
Definition firstSignalFor {N : Type} (address : string)
    (signals : list (FeedSignal N)) : option (FeedSignal N) :=
  List.find (fun s => String.eqb (feedAddress s) address) signals.

(** Technical signals at their worst and at their best. *)
Definition worstTechnicals : TokenTechnicals Q :=
  {| technicalRsi := 80%Q;
     technicalMacd :=
       {| macd := (-2)%Q; signal := (-1)%Q; histogram := (-1)%Q |};
     volumeProfile := None;
     technicalVolatility := 0.9%Q |}.

Definition bestTechnicals : TokenTechnicals Q :=
  {| technicalRsi := 20%Q;
     technicalMacd := {| macd := 2%Q; signal := 1%Q; histogram := 1%Q |};
     volumeProfile :=
       Some {| trend := trendIncreasing; unusualActivity := false |};
     technicalVolatility := 0.1%Q |}.


(** Two signals for one address: the Birdeye one comes first, the Twitter
    one second, as [getTokenRecommendation] concatenates the feeds. *)
Definition birdeyeExample : FeedSignal Q :=
  {| feedAddress := "TokenA";
     feedSymbol := "TKA";
     feedMarketCap := 90000%Q;
     feedVolume24h := 2000000%Q;
     feedPrice := 1%Q;
     feedLiquidity := 600000%Q;
     feedScore := 0%Q;
     reasons := ["Trending on Birdeye"%string];
     technicalSignals := Some bestTechnicals;
     socialMetrics := None |}.

Definition twitterExample : FeedSignal Q :=
  {| feedAddress := "TokenA";
     feedSymbol := "TKA";
     feedMarketCap := 20000000%Q;
     feedVolume24h := 5%Q;
     feedPrice := 2%Q;
     feedLiquidity := 7%Q;
     feedScore := 0%Q;
     reasons := ["High social activity"%string];
     technicalSignals := None;
     socialMetrics :=
       Some {| mentionCount := 2000%Q; sentiment := 0.9%Q;
               influencerMentions := 20%Q |} |}.

(** The token that the two signals are ranked as. *)
Definition rankedExample : FeedSignal Q :=
  {| feedAddress := "TokenA";
     feedSymbol := "TKA";
     feedMarketCap := 90000%Q;
     feedVolume24h := 2000000%Q;
     feedPrice := 1%Q;
     feedLiquidity := 600000%Q;
     feedScore := 70%Q;
     reasons := ["Trending on Birdeye"%string; "High social activity"%string];
     technicalSignals := Some bestTechnicals;
     socialMetrics := None |}.

(** ** Momentum *)

(** Prices that rose from 100 to 118 and fell back to 110: 27 samples. *)
Definition fadingPrices : list Z :=
  map Z.of_nat (seq 100 19) ++ [117; 116; 115; 114; 113; 112; 111; 110]%Z.

(** A tick on the position of the examples while its price fades: in
    profit at 110, between the stop loss (95) and the take profit (120). *)
Definition fadingTick : Tick float :=
  {| currentBalance := Got (Some 1000%Z);
     marketData :=
       {| price := 110%float; priceHistory := map float_of_Z fadingPrices |};
     performance := Got tt;
     now := 0 |}.

(** ** Feeds *)

(** A token that Twitter reports with the best social and market figures,
    and the feeds in which it is the only entry. *)
Definition bestTweet : TwitterSignal Q :=
  {| tweetAddress := "TokenB";
     tweetSymbol := "TKB";
     tweetMarketCap := 90000%Q;
     tweetVolume24h := 2000000%Q;
     tweetPrice := 1%Q;
     tweetLiquidity := 600000%Q;
     tweetMentionCount := 2000%Q;
     tweetSentiment := 0.9%Q;
     tweetInfluencerMentions := 20%Q |}.

Definition noMarketData : TokenMarketData Q :=
  {| dataPrice := 0%Q; dataMarketCap := 0%Q; dataLiquidity := 0%Q;
     dataVolume24h := 0%Q; dataPriceHistory := [];
     dataVolumeHistory := [] |}.

Definition tweetFeed : list (FeedSignal Q) :=
  feedSignals (fun x => x) (fun _ => ""%string) (fun _ => noMarketData)
    (Got None) (Got (Some [bestTweet])) Threw.

(** ** Valid configurations *)

(** The ranges that [validateConfiguration] enforces. *)
Definition validConfiguration (config : ServiceConfig Q) : Prop :=
  (10000 <= priceCheck (intervals config)
   /\ 60000 <= walletSync (intervals config)
   /\ 0 < minLiquidity (thresholds config)
   /\ 0 < minVolume (thresholds config)
   /\ 0 < maxPositionSize (riskLimits (limits config)) <= 0.5
   /\ 0 < maxDrawdown (riskLimits (limits config)) <= 0.5
   /\ 0 < stopLossPercentage (riskLimits (limits config)) <= 50
   /\ 0 < takeProfitPercentage (riskLimits (limits config)))%Q.

(** The configuration that the service starts with. *)
Definition initialConfiguration {N : Type} `{JsNumber N} : ServiceConfig N :=
  {| intervals :=
       {| priceCheck := lit 60000; walletSync := lit 600000;
          performanceMonitor := lit 3600000 |};
     thresholds :=
       {| minLiquidity := lit 50000; minVolume := lit 100000;
          minScore := lit 60 |};
     limits := defaultConfig |}.

(** A binary64 configuration whose maximal drawdown is NaN. *)
Definition nanConfiguration : ServiceConfig float :=
  {| intervals := intervals initialConfiguration;
     thresholds := thresholds initialConfiguration;
     limits :=
       {| riskLimits :=
            {| maxPositionSize := lit 0.2;
               maxDrawdown := PrimFloat.nan;
               stopLossPercentage := lit 0.05;
               takeProfitPercentage := lit 0.2 |};
          slippageSettings := slippageSettings defaultConfig |} |}.

(** ** Risk reduction *)

(** The sell that the risk reduction creates for a position, and the
    drawdown that it counts as remaining after a list of sells. *)
Definition saleOf {N : Type} (position : PositionPerformance N) : RiskSale N :=
  {| saleToken := performanceToken position;
     saleAmount := performanceAmount position;
     saleReason := "Risk reduction - drawdown exceeded" |}.

Definition remainingAfter (totalValue drawdown : Q)
    (sold : list (PositionPerformance Q)) : Q :=
  fold_left
    (fun remaining position =>
       remaining - (performanceValue position / totalValue) * drawdown)%Q
    sold drawdown.

(** Two positions, one of them without a recorded trade, in a portfolio
    that has lost 40% of its high-water mark. *)
Definition tradesExample (tokenAddress : string) : list (Trade Q) :=
  if String.eqb tokenAddress "TokenA" then
    [{| buy_price := 2%Q; buy_amount := 100%Q |}]
  else [].

Definition marketExample (tokenAddress : string) : TokenMarketData Q :=
  {| dataPrice := 1%Q; dataMarketCap := 0%Q; dataLiquidity := 0%Q;
     dataVolume24h := 0%Q; dataPriceHistory := [];
     dataVolumeHistory := [] |}.

Definition entriesExample : list (string * Position Q) :=
  [("TokenA"%string, {| amount := 100%Q; value := 100%Q |});
   ("TokenC"%string, {| amount := 50%Q; value := 50%Q |})].

Definition portfolioExample : PortfolioStatus Q :=
  {| totalValue := 300%Q;
     positions := list_to_map entriesExample;
     solBalance := 150%Q;
     drawdown := 0.4%Q |}.

(** ** Runs of [calculateDrawdown] *)

(** Successive calls of [calculateDrawdown] on the same cache entry: the
    entry afterwards and the drawdowns returned, oldest first. *)
Definition drawdownRun {N : Type} `{JsNumber N} (portfolio_hwm : option N)
    (totals : list N) : option N * list N :=
  fold_left
    (fun (state : option N * list N) total =>
       let '(entry, drawdowns) := state in
       let '(entry, drawdown) := calculateDrawdown entry total in
       (entry, drawdowns ++ [drawdown]))
    totals (portfolio_hwm, []).

(** ** Slippage recalibration *)

(** [Math.floor(n * q)] as an index, in exact arithmetic. *)
Definition floorIndexQ (n : nat) (q : Q) : nat :=
  Z.to_nat (Qfloor (inject_Z (Z.of_nat n) * q)).

(** What the recalibration relies on: both quartile indices are within the
    array and the first is not after the third. *)
Definition quartileIndices (floorIndex : nat -> Q -> nat) : Prop :=
  forall n, (0 < n)%nat ->
    (floorIndex n 0.25%Q <= floorIndex n 0.75%Q)%nat
    /\ (floorIndex n 0.75%Q < n)%nat.

(** The efficiencies that [calculateAverageSlippageEfficiency] averages. *)
Definition efficienciesOf (records : list (SlippageRecord Q)) : list Q :=
  map (fun record => actualSlippageBps record / slippageBpsUsed record)%Q
      records.

(** Multipliers within the limits of the recalibration. *)
Definition multipliersWithin (settings : SlippageSettings Q) : Prop :=
  (0.5 <= liquidityMultiplier settings <= 2
   /\ 0.5 <= volumeMultiplier settings <= 2)%Q.

(** Successive runs of [maybeOptimizeSlippageParameters], each with its
    clock and the records it finds. *)
Definition recalibrations (floorIndex : nat -> Q -> nat)
    (runs : list (Z * list (SlippageRecord Q)))
    (state : SlippageSettings Q * option Z) : SlippageSettings Q * option Z :=
  fold_left
    (fun state run =>
       maybeOptimizeSlippageParameters floorIndex (fst run) (snd state)
         (snd run) (fst state))
    runs state.

(** Ten records of trades in a thin pool that used all the slippage they
    were allowed. *)
Definition spentRecord : SlippageRecord Q :=
  {| recordTimestamp := 1000; recordLiquidity := 5000%Q;
     recordVolume24h := 100%Q; actualSlippageBps := 50%Q;
     slippageBpsUsed := 50%Q |}.

Definition spentRecords : list (SlippageRecord Q) := repeat spentRecord 10.

(** ** Sell tasks *)

(** A task to sell 500 of 1000 units of token [T], and calls that all
    succeed. *)
Definition sellTaskExample : SellTaskSignal Q :=
  {| signalToken := "T";
     signalAmount := integerText 500;
     signalBalance := integerText 1000 |}.

Definition callsExample : SellCalls :=
  {| getQuote := Got tt;
     getWallet := Got (Some tt);
     walletSell :=
       Got {| success := true; signature := Some "5xSig"%string |} |}.

(** Calls of which the quote throws, and two sells of 5 and 7 of token [T]
    that overlap: both are invoked before either goes on, the second fails
    at its quote and the first is sold. *)
Definition failingCalls : SellCalls :=
  {| getQuote := Threw;
     getWallet := Got (Some tt);
     walletSell := Threw |}.

Definition overlappingSells : list SellEvent :=
  [Invoke "T" 5; Invoke "T" 7;
   Resolve 0 callsExample; Resolve 1 callsExample;
   Resolve 0 callsExample; Resolve 1 failingCalls;
   Resolve 0 callsExample; Resolve 0 callsExample].

(** A text of which [Number] is the very number: a number given as such,
    or an integer of magnitude at most 2^53, beyond which binary64 rounds. *)
Definition exactNumber {N : Type} (text : AmountText N) : Prop :=
  match text with
  | integerText z => (Z.abs z <= 2 ^ 53)%Z
  | _ => True
  end.

(** A sell of 2^53 + 1 units against a stated balance of 2^53. *)
Definition roundedTaskExample : SellTaskSignal float :=
  {| signalToken := "T";
     signalAmount := integerText 9007199254740993;
     signalBalance := integerText 9007199254740992 |}.

(** ** Runs of the trailing-stop monitor *)

(** Successive ticks of the [MONITOR_TRAILING_STOP] task of a token. *)
Definition trailingRun {N : Type} `{JsNumber N} (token : string)
    (ticks : list (Tick N)) (rt : Runtime N) : Runtime N :=
  fold_left (fun rt tick => monitorTrailingStop token tick rt) ticks rt.

(** The sell that a trailing stop creates when it triggers. *)
Definition trailingSale {N : Type} (token : string) (record : TrailingStop N)
    : SellSignal :=
  {| sellToken := token; sellAmount := trailingAmount record;
     sellReason := "Trailing stop triggered" |}.

(** What ticks of the trailing-stop monitor of [token] can make of a
    runtime: everything but the record of the token and the sell signals
    is as before; without a record nothing changes; with one, either no
    sell is created and the record is gone or has its highest price
    raised, or the one sell of the tracked amount is created and the
    record is gone. *)
Definition trailingOutcome (token : string) (rt after : Runtime Q) : Prop :=
  (forall other, other <> token ->
     trailing_stop after !! other = trailing_stop rt !! other)
  /\ tasks after = tasks rt
  /\ circuit_breaker after = circuit_breaker rt
  /\ trading_paused after = trading_paused rt
  /\ match trailing_stop rt !! token with
     | None =>
         sellSignals after = sellSignals rt
         /\ trailing_stop after !! token = None
     | Some record =>
         (sellSignals after = sellSignals rt
          /\ (trailing_stop after !! token = None
              \/ exists highest,
                   trailing_stop after !! token
                   = Some (withHighest highest record)
                   /\ (highestPrice record <= highest)%Q))
         \/ (sellSignals after = sellSignals rt ++ [trailingSale token record]
             /\ trailing_stop after !! token = None)
     end.

(** The amount that a list of sell signals asks to sell. *)
Definition soldAmount (signals : list SellSignal) : Z :=
  fold_right (fun signal total => (sellAmount signal + total)%Z) 0%Z signals.

(** The sell that a take-profit tick creates for a balance. *)
Definition takeProfitSale (token : string) (balance : Z) : SellSignal :=
  {| sellToken := token; sellAmount := Z.quot balance 2;
     sellReason := "Take profit - selling half position" |}.

(** ** Token statistics *)

(** The entry after the trades of a token were recorded one after the
    other, starting without an entry. *)
Definition statisticsAfter (outcomes : list (TradeOutcome Q))
    : option (TokenStats Q) :=
  fold_left (fun cached data => Some (updateTokenStatistics cached data))
            outcomes None.

Definition sumOf (values : list Q) : Q := fold_right Qplus 0%Q values.

Definition countOf (n : nat) : Q := inject_Z (Z.of_nat n).

(** ** Snapshots and retries *)

(** Successive snapshots, oldest first. *)
Definition snapshotRun (timestamps : list string) (cached : option (list string))
    : option (list string) :=
  fold_left
    (fun cached timestamp => Some (storePerformanceSnapshot timestamp cached))
    timestamps cached.

(** The delays before attempts [1 .. k] and their sum. *)
Definition backoffDelays (baseDelay : Z) (k : nat) : list Z :=
  map (fun i => (baseDelay * 2 ^ Z.of_nat i)%Z) (seq 0 k).

Definition totalDelay (delays : list Z) : Z := fold_right Z.add 0%Z delays.

(** ** The ranked token that is sized *)

(** The fields of the best token that [calculateOptimalBuyAmount] reads
    when [getTokenRecommendation] passes it: [token.score],
    [token.liquidity] and [token.technicalSignals?.volatility]. *)
Definition sizerToken {N : Type} (token : FeedSignal N) : TokenSignal N :=
  {| score := feedScore token;
     liquidity := feedLiquidity token;
     volatility := option_map technicalVolatility (technicalSignals token) |}.

(** ** The performance lookup of a monitoring tick *)







(** * Properties *)

(** ** Exact arithmetic: the tests of the code as propositions *)

Section ExactTests.
Local Open Scope Q_scope.

Lemma nleb_Q (a b : Q) : nleb a b = true <-> a <= b.
Proof. apply Qle_bool_iff. Qed.

Lemma nleb_Q_false (a b : Q) : nleb a b = false <-> b < a.
Proof.
  cbn. split; intros Hab.
  - apply Qnot_le_lt. intros Hle. apply Qle_bool_iff in Hle. congruence.
  - destruct (Qle_bool a b) eqn:E; [|reflexivity].
    apply Qle_bool_iff in E. lra.
Qed.

Lemma nltb_Q (a b : Q) : nltb a b = true <-> a < b.
Proof.
  cbn. rewrite negb_true_iff. apply (nleb_Q_false b a).
Qed.

Lemma nltb_Q_false (a b : Q) : nltb a b = false <-> b <= a.
Proof.
  cbn. rewrite negb_false_iff. apply Qle_bool_iff.
Qed.

Lemma truthy_Q (a : Q) : truthy a = true <-> ~ a == 0.
Proof.
  cbn. rewrite negb_true_iff. split.
  - intros E Ha. apply Qeq_bool_iff in Ha. congruence.
  - intros Ha. destruct (Qeq_bool a 0) eqn:E; [|reflexivity].
    apply Qeq_bool_iff in E. contradiction.
Qed.

Lemma Math_max_Q (a b : Q) : a <= Math_max a b /\ b <= Math_max a b
  /\ (Math_max a b = a \/ Math_max a b = b).
Proof.
  cbn. destruct (Qle_bool a b) eqn:E.
  - apply Qle_bool_iff in E. repeat split; [lra|lra|now right].
  - apply (nleb_Q_false a b) in E. repeat split; [lra|lra|now left].
Qed.

Lemma Math_min_Q (a b : Q) : Math_min a b <= a /\ Math_min a b <= b
  /\ (Math_min a b = a \/ Math_min a b = b).
Proof.
  cbn. destruct (Qle_bool a b) eqn:E.
  - apply Qle_bool_iff in E. repeat split; [lra|lra|now left].
  - apply (nleb_Q_false a b) in E. repeat split; [lra|lra|now right].
Qed.

End ExactTests.

(** Loops as folds: an invariant that every step keeps holds at the end. *)
Lemma fold_left_invariant {A B : Type} (P : A -> Prop) (R : B -> Prop)
    (f : A -> B -> A) (l : list B) (a : A) :
  (forall a b, P a -> R b -> P (f a b)) ->
  Forall R l -> P a -> P (fold_left f l a).
Proof.
  intros Hstep Hl. revert a.
  induction Hl as [|b l Hb _ IH]; intros a Ha; cbn; [exact Ha|].
  apply IH, Hstep; assumption.
Qed.

Lemma skipn_nth_cons {A : Type} (d : A) (l : list A) (k : nat) :
  (k < length l)%nat -> skipn k l = nth k l d :: skipn (S k) l.
Proof.
  revert k. induction l as [|x l IH]; intros k Hk; cbn in Hk; [lia|].
  destruct k as [|k]; [reflexivity|].
  cbn. apply IH. lia.
Qed.

(** A loop over the indices [k .. length - 1] that reads [prices[i]] is a
    fold over the elements from the [k]-th on. *)
Lemma fold_left_indices {N : Type} `{JsNumber N} (f : N -> N -> N)
    (prices : list N) (n k : nat) (a : N) :
  (n = length prices - k)%nat ->
  fold_left (fun acc i => f acc (at_index prices i)) (seq k n) a
  = fold_left f (skipn k prices) a.
Proof.
  revert k a. induction n as [|n IH]; intros k a Hn.
  - rewrite skipn_all2 by lia. reflexivity.
  - rewrite (skipn_nth_cons (lit 0) prices k) by lia.
    cbn. apply IH. lia.
Qed.

(** ** [calculateEMA] *)

Section EMA.
Local Open Scope Q_scope.

Lemma sum_fold_left (l : list Q) (a : Q) :
  fold_left (fun sum price => (sum + price)%js) l a == a + fold_right Qplus 0 l.
Proof.
  revert a. induction l as [|x l IH]; intros a; cbn.
  - lra.
  - rewrite IH. cbn. lra.
Qed.

Lemma ema_fold_recurrence (alpha : Q) (l : list Q) (e e' : Q) :
  e == e' ->
  fold_left (fun ema price => ((price - ema) * alpha + ema)%js) l e
  == emaRecurrence alpha e' l.
Proof.
  revert e e'. induction l as [|x l IH]; intros e e' He; cbn.
  - exact He.
  - apply IH. rewrite He. ring.
Qed.

(** C9, as stated, fails on a series shorter than the period: the code
    returns the last element, which is not the average of the series.
    For [[1; 3]] and period 3 the result is 3 (in exact and in binary64
    arithmetic) and the average is 2. *)
Lemma calculateEMA_short_is_not_average :
  (length [1; 3] < 3)%nat
  /\ calculateEMA [1; 3] 3 = 3
  /\ simpleAverage [1; 3] == 2
  /\ ~ calculateEMA [1; 3] 3 == simpleAverage [1; 3]
  /\ calculateEMA [1%float; 3%float] 3 = 3%float.
Proof.
  split; [cbn; lia|]. split; [reflexivity|]. split; [reflexivity|]. split.
  - intros E. vm_compute in E. discriminate.
  - vm_compute. reflexivity.
Qed.

(** C9, amended: on a non-empty series shorter than the period
    [calculateEMA] returns the last element of the series; otherwise, for
    a period of at least 1, it equals the EMA recurrence with multiplier
    [2 / (period + 1)] seeded with the simple average of the first
    [period] elements and run over the remaining ones. *)
Theorem calculateEMA_spec (prices : list Q) (period : nat) :
  prices <> [] ->
  (0 < period)%nat ->
  ((length prices < period)%nat ->
     last prices = Some (calculateEMA prices period))
  /\ ((period <= length prices)%nat ->
        calculateEMA prices period
        == emaRecurrence (2 / (inject_Z (Z.of_nat period) + 1))
             (simpleAverage (firstn period prices))
             (skipn period prices)).
Proof.
  intros Hne Hperiod. split; intros Hlen; unfold calculateEMA.
  - destruct (Nat.ltb_spec (length prices) period) as [_|]; [|lia].
    unfold at_index. rewrite nth_lookup, last_lookup.
    replace (Init.Nat.pred (length prices)) with (length prices - 1)%nat
      by lia.
    destruct (prices !! (length prices - 1)%nat) eqn:E; [reflexivity|].
    apply lookup_ge_None in E. destruct prices; [contradiction|].
    cbn in E. lia.
  - destruct (Nat.ltb_spec (length prices) period) as [|_]; [lia|].
    rewrite (fold_left_indices
               (fun ema price => ((price - ema) * _ + ema)%js)
               prices _ period) by reflexivity.
    apply ema_fold_recurrence.
    unfold simpleAverage. rewrite firstn_length_le by lia.
    rewrite sum_fold_left. cbn.
    apply Qdiv_comp; [ring|reflexivity].
Qed.

Lemma calculateEMA_spec_witness :
  last [1; 3] = Some (calculateEMA [1; 3] 3)
  /\ calculateEMA [1; 3; 5; 8] 2
     == emaRecurrence (2 / (inject_Z (Z.of_nat 2) + 1))
          (simpleAverage (firstn 2 [1; 3; 5; 8])) (skipn 2 [1; 3; 5; 8]).
Proof.
  split.
  - apply (calculateEMA_spec [1; 3] 3); [discriminate|lia|cbn; lia].
  - apply (calculateEMA_spec [1; 3; 5; 8] 2); [discriminate|lia|cbn; lia].
Defined.

End EMA.

(** ** [calculateRSI] *)

Section RSI.
Local Open Scope Q_scope.

Lemma nondecreasing_at_index (prices : list Q) (i : nat) :
  nondecreasing prices = true ->
  (S i < length prices)%nat ->
  at_index prices i <= at_index prices (S i).
Proof.
  revert i. induction prices as [|a prices IH]; intros i Hmono Hi.
  - cbn in Hi. lia.
  - destruct prices as [|b prices]; [cbn in Hi; lia|].
    cbn [nondecreasing] in Hmono. apply andb_true_iff in Hmono.
    destruct Hmono as [Hab Hrest]. destruct i as [|i].
    + apply Qle_bool_iff in Hab. exact Hab.
    + apply (IH i Hrest). cbn in Hi |- *. lia.
Qed.

Lemma change_nonnegative (prices : list Q) (i : nat) :
  nondecreasing prices = true ->
  (1 <= i < length prices)%nat ->
  (at_index prices i - at_index prices (i - 1) >=? lit 0)%js = true.
Proof.
  intros Hmono Hi. apply nleb_Q. cbn.
  pose proof (nondecreasing_at_index prices (i - 1) Hmono) as Hle.
  replace (S (i - 1)) with i in Hle by lia.
  specialize (Hle ltac:(lia)). lra.
Qed.

Lemma indices_in_range (start len bound : nat) :
  (1 <= start)%nat -> (start + len <= bound)%nat ->
  Forall (fun i => (1 <= i < bound)%nat) (seq start len).
Proof.
  intros Hstart Hbound. apply Forall_forall. intros i Hi.
  apply elem_of_seq in Hi. lia.
Qed.

Lemma rsiInitial_no_losses (prices : list Q) (period : nat) :
  nondecreasing prices = true ->
  (period + 1 <= length prices)%nat ->
  snd (rsiInitial prices period) == 0.
Proof.
  intros Hmono Hlen. unfold rsiInitial.
  apply (fold_left_invariant (fun acc : Q * Q => snd acc == 0)
           (fun i => (1 <= i < length prices)%nat)).
  - intros [gains losses] i Hacc Hi.
    rewrite (change_nonnegative prices i Hmono Hi). exact Hacc.
  - apply indices_in_range; lia.
  - reflexivity.
Qed.

Lemma rsiAverages_no_losses (prices : list Q) (period : nat) :
  nondecreasing prices = true ->
  (period + 1 <= length prices)%nat ->
  snd (rsiAverages prices period) == 0.
Proof.
  intros Hmono Hlen. unfold rsiAverages.
  pose proof (rsiInitial_no_losses prices period Hmono Hlen) as Hinit.
  destruct (rsiInitial prices period) as [gains losses]. cbn in Hinit.
  apply (fold_left_invariant (fun acc : Q * Q => snd acc == 0)
           (fun i => (1 <= i < length prices)%nat)).
  - intros [avgGain avgLoss] i Hacc Hi.
    rewrite (change_nonnegative prices i Hmono Hi). cbn in Hacc |- *.
    unfold Qdiv. rewrite Hacc. ring.
  - apply indices_in_range; lia.
  - cbn. unfold Qdiv. rewrite Hinit. ring.
Qed.

(** C10: for every non-decreasing series of at least [period + 1] prices
    the length guard is passed and the divisor [avgLoss] of the final,
    unguarded division [avgGain / avgLoss] is zero.  In binary64 the
    quotient is then an infinity or NaN: on fifteen rising prices the
    result is 100, and on fifteen equal prices it is NaN, which is not a
    value of [0, 100]. *)
Theorem calculateRSI_zero_divisor (prices : list Q) (period : nat) :
  (0 < period)%nat ->
  (period + 1 <= length prices)%nat ->
  nondecreasing prices = true ->
  (snd (rsiAverages prices period) == 0
   /\ calculateRSI prices period
      = (lit 100
         - lit 100
           / (lit 1
              + fst (rsiAverages prices period)
                / snd (rsiAverages prices period)))%js)
  /\ calculateRSI (map float_of_Z risingPrices) 14 = 100%float
  /\ float_is_nan (calculateRSI (map float_of_Z flatPrices) 14) = true
  /\ (lit 0 <=? calculateRSI (map float_of_Z flatPrices) 14)%js = false
  /\ (calculateRSI (map float_of_Z flatPrices) 14 <=? lit 100)%js = false.
Proof.
  intros Hperiod Hlen Hmono. split; [split|].
  - apply rsiAverages_no_losses; assumption.
  - unfold calculateRSI.
    destruct (Nat.ltb_spec (length prices) (period + 1)) as [|_]; [lia|].
    destruct (rsiAverages prices period) as [avgGain avgLoss]. reflexivity.
  - repeat split; vm_compute; reflexivity.
Qed.

Lemma calculateRSI_zero_divisor_witness :
  snd (rsiAverages (map inject_Z risingPrices) 14) == 0.
Proof.
  apply (calculateRSI_zero_divisor (map inject_Z risingPrices) 14);
    [lia|cbn; lia|reflexivity].
Defined.

End RSI.

(** ** [calculateOptimalBuyAmount] *)

Section RiskSizerProperties.
Local Open Scope Q_scope.

Lemma availableCapital_at_max_drawdown (cfg : TradingConfig Q)
    (walletBalance drawdown : Q) :
  0 < maxDrawdown (riskLimits cfg) ->
  0 <= walletBalance ->
  maxDrawdown (riskLimits cfg) <= drawdown ->
  availableCapital cfg walletBalance drawdown <= 0.
Proof.
  intros Hmax Hwallet Hdrawdown. unfold availableCapital. cbn.
  assert (Hratio : 1 <= drawdown / maxDrawdown (riskLimits cfg)).
  { apply Qle_shift_div_l; [exact Hmax|lra]. }
  nra.
Qed.

(** The floor is applied after the cap: for a token whose pool is so thin
    that 2% of its liquidity is below the minimum trade size (a token that
    the ranking never returns) the floor wins.  With a wallet of 10, no
    drawdown and liquidity 1 the available capital is positive and the
    result is 0.05, above 0.02, in exact and in binary64 arithmetic. *)
Lemma calculateOptimalBuyAmount_above_liquidity_cap :
  0 < availableCapital defaultConfig 10 0
  /\ calculateOptimalBuyAmount defaultConfig (Got 10) 0 thinToken neutral
     == 0.05
  /\ maxLiquidityImpact thinToken == 0.02
  /\ ~ calculateOptimalBuyAmount defaultConfig (Got 10) 0 thinToken neutral
       <= maxLiquidityImpact thinToken
  /\ calculateOptimalBuyAmount defaultConfig (Got 10%float) 0%float thinToken
       neutral
     = float_lit 0.05
  /\ (calculateOptimalBuyAmount defaultConfig (Got 10%float) 0%float thinToken
        neutral
      <=? maxLiquidityImpact thinToken)%js = false.
Proof.
  split; [vm_compute; reflexivity|]. split; [reflexivity|].
  split; [reflexivity|]. split.
  - intros Hle. vm_compute in Hle. apply Hle. reflexivity.
  - split; vm_compute; reflexivity.
Qed.

(** The result for any token: with a positive [maxDrawdown], it is
    exactly 0 whenever the available capital is at most 0, which is the
    case when a wallet balance that is not negative meets a drawdown of at
    least [maxDrawdown]; whenever the available capital is positive the
    result is at least [minTradeSize] and at most the larger of
    [minTradeSize] and [liquidity * 0.02]: within
    [[minTradeSize, liquidity * 0.02]] when that interval is not empty,
    and [minTradeSize] otherwise; for every score, volatility and market
    condition. *)
Theorem calculateOptimalBuyAmount_bounds (cfg : TradingConfig Q)
    (walletBalance drawdown : Q) (token : TokenSignal Q)
    (marketCondition : MarketCondition) :
  0 < maxDrawdown (riskLimits cfg) ->
  let result :=
    calculateOptimalBuyAmount cfg (Got walletBalance) drawdown token
      marketCondition in
  (availableCapital cfg walletBalance drawdown <= 0 -> result = 0)
  /\ (0 <= walletBalance -> maxDrawdown (riskLimits cfg) <= drawdown ->
      result = 0)
  /\ (0 < availableCapital cfg walletBalance drawdown ->
      minTradeSize <= result
      /\ (minTradeSize <= maxLiquidityImpact token ->
          result <= maxLiquidityImpact token)
      /\ (maxLiquidityImpact token < minTradeSize -> result = minTradeSize)).
Proof.
  intros Hmax result.
  assert (Hzero : availableCapital cfg walletBalance drawdown <= 0 ->
                  result = 0).
  { intros Hcap. unfold result, calculateOptimalBuyAmount.
    apply nleb_Q in Hcap. cbn [lit Q_number] in Hcap |- *.
    rewrite Hcap. reflexivity. }
  split; [exact Hzero|]. split.
  - intros Hwallet Hdrawdown. apply Hzero.
    apply availableCapital_at_max_drawdown; assumption.
  - intros Hcap. unfold result, calculateOptimalBuyAmount.
    apply (nleb_Q_false (availableCapital cfg walletBalance drawdown) 0)
      in Hcap.
    cbn [lit Q_number] in Hcap |- *. rewrite Hcap.
    match goal with
    | |- context [Math_min ?raw (maxLiquidityImpact token)] =>
        set (rawPositionSize := raw)
    end.
    destruct (Math_min_Q rawPositionSize (maxLiquidityImpact token))
      as (_ & Hcapped & _).
    destruct (Math_max_Q minTradeSize
                (Math_min rawPositionSize (maxLiquidityImpact token)))
      as (Hfloor & _ & [Hmax1 | Hmax2]).
    + rewrite Hmax1. split; [lra|]. split; [tauto|reflexivity].
    + rewrite Hmax2 in Hfloor |- *. split; [lra|]. split; [lra|].
      intros Hcap'. exfalso. lra.
Qed.

Lemma calculateOptimalBuyAmount_bounds_witness :
  calculateOptimalBuyAmount defaultConfig (Got 10) (1 # 5) thinToken bearish
  = 0
  /\ minTradeSize
     <= calculateOptimalBuyAmount defaultConfig (Got 10) 0
          {| score := 80; liquidity := 100000; volatility := Some 0.3 |}
          bearish
     <= maxLiquidityImpact
          {| score := 80; liquidity := 100000; volatility := Some 0.3 |}.
Proof.
  split.
  - apply (calculateOptimalBuyAmount_bounds defaultConfig 10 (1 # 5) thinToken
             bearish); vm_compute; [reflexivity|discriminate|discriminate].
  - assert (Hmax : 0 < maxDrawdown (riskLimits (defaultConfig (N:=Q))))
      by (vm_compute; reflexivity).
    destruct (calculateOptimalBuyAmount_bounds defaultConfig 10 0
                {| score := 80; liquidity := 100000; volatility := Some 0.3 |}
                bearish Hmax)
      as (_ & _ & Hbounds).
    destruct Hbounds as (Hfloor & Hcap & _); [vm_compute; reflexivity|].
    split; [exact Hfloor|]. apply Hcap. vm_compute. discriminate.
Defined.

End RiskSizerProperties.

(** ** Drawdown and the high-water mark *)

Section PortfolioProperties.
Local Open Scope Q_scope.

(** [calculateDrawdown] clamps and keeps the mark: with a positive stored
    mark the drawdown it returns is not negative, and the entry it leaves
    is the larger of the stored mark and the total value. *)
Lemma calculateDrawdown_clamped (hwm total : Q) :
  0 < hwm ->
  0 <= snd (calculateDrawdown (Some hwm) total)
  /\ (hwm < total ->
      calculateDrawdown (Some hwm) total = (Some total, 0))
  /\ (total <= hwm ->
      fst (calculateDrawdown (Some hwm) total) = Some hwm).
Proof.
  intros Hpos. unfold calculateDrawdown.
  assert (Htruthy : truthy hwm = true) by (apply truthy_Q; lra).
  rewrite Htruthy. destruct (nltb hwm total) eqn:Hcmp.
  - apply nltb_Q in Hcmp. cbn. split; [lra|]. split; [reflexivity|].
    intros Hle. lra.
  - apply nltb_Q_false in Hcmp. cbn [fst snd lit Q_number].
    split; [|split; [intros Hlt; lra|reflexivity]].
    cbn. apply Qle_shift_div_l; lra.
Qed.

(** C7 fails on the code: [getPortfolioStatus], which produces every
    [PortfolioStatus], divides the difference to the cached mark without
    clamping, and has no statement that writes the mark.  With a cached
    mark of 100 and a total value of 150 the drawdown field is -1/2, in
    exact and in binary64 arithmetic; and with no cached mark a total
    value of 150 followed by one of 100 reports a drawdown of 0 both
    times, where a mark raised to 150 would give 1/3. *)
Theorem getPortfolioStatus_drawdown_negative :
  totalValue (getPortfolioStatus (Got 150) [] (Some 100)) = 150
  /\ drawdown (getPortfolioStatus (Got 150) [] (Some 100)) == - (1 # 2)
  /\ drawdown (getPortfolioStatus (Got 150%float) [] (Some 100%float))
     = (-0.5)%float
  /\ drawdown (getPortfolioStatus (Got 150) [] None) = 0
  /\ drawdown (getPortfolioStatus (Got 100) [] None) = 0
  /\ calculateDrawdown (Some 100) 150 = (Some 150, 0)
  /\ snd (calculateDrawdown (Some 150) 100) == 1 # 3.
Proof.
  repeat split; vm_compute; reflexivity.
Qed.

End PortfolioProperties.

(** ** [calculateDynamicSlippage] *)

Section SlippageProperties.
Local Open Scope Q_scope.

(** C5: when the configured base slippage and liquidity multiplier are
    not negative, half the base slippage does not exceed the maximum (as
    in the configuration the service starts with and in every one the
    recalibration leaves), the power [x ** 1.5] of a positive [x] is not
    negative and the special adjustment, if any, is not negative, then
    for every market data, trade amount and direction the slippage
    before the conversion lies within
    [[baseSlippage * 0.5, maxSlippage]], and the value returned is the
    floor of 100 times that slippage. *)
Theorem calculateDynamicSlippage_bounds (Math_pow : Q -> Q -> Q)
    (cfg : TradingConfig Q) (tokenData : TokenPrice Q) (tradeAmount : Q)
    (isSell : bool) (special : option Q) :
  0 <= baseSlippage (slippageSettings cfg) ->
  0 <= liquidityMultiplier (slippageSettings cfg) ->
  baseSlippage (slippageSettings cfg) * 0.5
  <= maxSlippage (slippageSettings cfg) ->
  (forall x, 0.1 < x -> 0 <= Math_pow x 1.5) ->
  (forall adjustment, special = Some adjustment -> 0 <= adjustment) ->
  (baseSlippage (slippageSettings cfg) * 0.5
   <= finalSlippage Math_pow cfg tokenData tradeAmount isSell special
   <= maxSlippage (slippageSettings cfg))
  /\ calculateDynamicSlippage Math_pow floorQ cfg (Got tokenData) tradeAmount
       isSell special
     = inject_Z
         (Qfloor
            (finalSlippage Math_pow cfg tokenData tradeAmount isSell special
             * 100)).
Proof.
  intros Hbase Hmult Hmax Hpow Hspecial. split; [|reflexivity].
  unfold finalSlippage.
  set (settings := slippageSettings cfg) in *.
  set (lp := liquidityPercentage tokenData tradeAmount isSell).
  set (ratio := volumeToMcapRatio tokenData).
  set (s1 := if (lp >? lit 0.1)%js then _ else baseSlippage settings).
  assert (H1 : baseSlippage settings <= s1).
  { unfold s1. destruct (nltb (lit 0.1) lp) eqn:Hlp; [|lra].
    apply nltb_Q in Hlp. specialize (Hpow lp Hlp).
    cbn [nadd nmul lit Q_number].
    assert (0 <= Math_pow lp 1.5 * liquidityMultiplier settings)
      by (apply Qmult_le_0_compat; assumption).
    lra. }
  set (s2 := if (ratio >? lit 0.05)%js then _ else s1).
  assert (H2 : baseSlippage settings * 0.5 <= s2).
  { unfold s2. destruct (nltb (lit 0.05) ratio); [|lra].
    match goal with
    | |- _ <= Math_max ?a ?b => destruct (Math_max_Q a b) as (_ & Hb & _)
    end.
    exact Hb. }
  set (s3 := match special with Some adj => (s2 + adj)%js | None => s2 end).
  assert (H3 : baseSlippage settings * 0.5 <= s3).
  { unfold s3. destruct special as [adj|]; [|exact H2].
    specialize (Hspecial adj eq_refl). cbn [nadd Q_number]. lra. }
  destruct (Math_min_Q s3 (maxSlippage settings)) as (_ & Hcap & [E | E]);
    rewrite E in *; lra.
Qed.

Lemma calculateDynamicSlippage_bounds_witness :
  baseSlippage (slippageSettings defaultConfig) * 0.5
  <= finalSlippage (fun x _ => x) defaultConfig
       {| tokenPrice := 2; marketCap := 1000000; tokenLiquidity := 50000;
          volume24h := 200000 |} 100 true (Some 3)
  <= maxSlippage (slippageSettings defaultConfig).
Proof.
  apply (calculateDynamicSlippage_bounds (fun x _ => x) defaultConfig
           {| tokenPrice := 2; marketCap := 1000000;
              tokenLiquidity := 50000; volume24h := 200000 |}
           100 true (Some 3)).
  - vm_compute. discriminate.
  - vm_compute. discriminate.
  - vm_compute. discriminate.
  - intros x Hx. lra.
  - intros adjustment E. injection E as <-. vm_compute. discriminate.
Defined.

End SlippageProperties.

(** ** [monitorToken] *)

Section PositionMonitorProperties.
Local Open Scope Q_scope.

Variable cfg : TradingConfig Q.

Lemma stopLossLevel_known (options : MonitorOptions Q) (entry : Q) :
  initialPrice options = Some entry ->
  ~ entry == 0 ->
  absent_or (stopLossOf cfg entry) (stopLossPrice options) ->
  exists level,
    stopLossLevel cfg options = Some level /\ level == stopLossOf cfg entry.
Proof.
  intros Hentry Hknown Hstored. unfold stopLossLevel.
  apply truthy_Q in Hknown. rewrite Hentry, Hknown.
  destruct (stopLossPrice options) as [stored|]; cbn [truthy_opt].
  - destruct (truthy stored); [exists stored; split; [reflexivity|exact Hstored]|].
    eexists. split; reflexivity.
  - eexists. split; reflexivity.
Qed.

Lemma takeProfitLevel_known (options : MonitorOptions Q) (entry : Q) :
  initialPrice options = Some entry ->
  ~ entry == 0 ->
  absent_or (takeProfitOf cfg entry) (takeProfitPrice options) ->
  exists level,
    takeProfitLevel cfg options = Some level /\ level == takeProfitOf cfg entry.
Proof.
  intros Hentry Hknown Hstored. unfold takeProfitLevel.
  apply truthy_Q in Hknown. rewrite Hentry, Hknown.
  destruct (takeProfitPrice options) as [stored|]; cbn [truthy_opt].
  - destruct (truthy stored); [exists stored; split; [reflexivity|exact Hstored]|].
    eexists. split; reflexivity.
  - eexists. split; reflexivity.
Qed.

(** The stop loss where the performance lookup returns, in exact
    arithmetic: on a tick of an open position (a balance above zero, a
    price above zero) with a known entry price,
    whose task carries no stop-loss level or the one computed from the
    entry price, a price at or below
    [entryPrice * (1 - stopLossPercentage / 100)] makes [monitorToken]
    create one sell signal, for the whole balance, with the reason
    "Stop loss triggered", change nothing else and return at once. *)
Theorem monitorToken_stop_loss (options : MonitorOptions Q) (tick : Tick Q)
    (rt : Runtime Q) (balance : Z) (entry : Q) :
  currentBalance tick = Got (Some balance) ->
  (0 < balance)%Z ->
  performance tick = Got tt ->
  initialPrice options = Some entry ->
  ~ entry == 0 ->
  absent_or (stopLossOf cfg entry) (stopLossPrice options) ->
  0 < price (marketData tick) ->
  price (marketData tick) <= stopLossOf cfg entry ->
  monitorToken cfg options tick rt
  = (createSellSignal (tokenAddress options) balance "Stop loss triggered" rt,
     NoResult)
  /\ sellSignals (fst (monitorToken cfg options tick rt))
     = sellSignals rt
       ++ [{| sellToken := tokenAddress options; sellAmount := balance;
              sellReason := "Stop loss triggered" |}]
  /\ trailing_stop (fst (monitorToken cfg options tick rt)) = trailing_stop rt
  /\ tasks (fst (monitorToken cfg options tick rt)) = tasks rt.
Proof.
  intros Hbalance Hopen Hperf Hentry Hknown Hstored Hprice Hstop.
  assert (E : monitorToken cfg options tick rt
              = (createSellSignal (tokenAddress options) balance
                   "Stop loss triggered" rt, NoResult)).
  { unfold monitorToken. rewrite Hbalance, Hperf.
    destruct (Z.leb_spec balance 0) as [|_]; [lia|].
    assert (Htruthy : truthy (price (marketData tick)) = true)
      by (apply truthy_Q; lra).
    rewrite Htruthy. cbn [negb].
    destruct (stopLossLevel_known options entry Hentry Hknown Hstored)
      as (level & -> & Hlevel).
    assert (Hl : truthy level = true) by (apply truthy_Q; lra).
    assert (Hle : nleb (price (marketData tick)) level = true)
      by (apply nleb_Q; lra).
    rewrite Hl, Hle. reflexivity. }
  rewrite E. repeat split.
Qed.

(** The take profit where the performance lookup returns, in exact
    arithmetic: on such a tick, with a positive entry price and a positive
    [takeProfitPercentage] (as [validateConfiguration] leaves it), where
    the stop-loss condition does not hold and the task carries no
    take-profit level or the one computed from the entry price, a price
    at or above
    [entryPrice * (1 + takeProfitPercentage / 100)] makes [monitorToken]
    create one sell signal for half the balance (the [bigint] quotient by
    2), store a trailing-stop record for the same half with the current
    price as highest and activation price and a trailing percentage of 5,
    create its monitoring task, and return at once. *)
Theorem monitorToken_take_profit (options : MonitorOptions Q) (tick : Tick Q)
    (rt : Runtime Q) (balance : Z) (entry : Q) :
  currentBalance tick = Got (Some balance) ->
  (0 < balance)%Z ->
  performance tick = Got tt ->
  initialPrice options = Some entry ->
  0 < entry ->
  0 < takeProfitPercentage (riskLimits cfg) ->
  absent_or (stopLossOf cfg entry) (stopLossPrice options) ->
  absent_or (takeProfitOf cfg entry) (takeProfitPrice options) ->
  0 < price (marketData tick) ->
  stopLossOf cfg entry < price (marketData tick) ->
  takeProfitOf cfg entry <= price (marketData tick) ->
  let half := Z.quot balance 2 in
  let after := monitorToken cfg options tick rt in
  (2 * half <= balance < 2 * half + 2)%Z
  /\ snd after = NoResult
  /\ sellSignals (fst after)
     = sellSignals rt
       ++ [{| sellToken := tokenAddress options; sellAmount := half;
              sellReason := "Take profit - selling half position" |}]
  /\ trailing_stop (fst after)
     = <[tokenAddress options :=
           {| highestPrice := price (marketData tick);
              activationPrice := price (marketData tick);
              trailingStopPercentage := 5;
              trailingAmount := half;
              createdAt := now tick |}]> (trailing_stop rt)
  /\ tasks (fst after)
     = tasks rt ++ [("MONITOR_TRAILING_STOP"%string, tokenAddress options)].
Proof.
  intros Hbalance Hopen Hperf Hentry Hpositive Hpercent Hstop Htake Hprice
    Hnostop Hprofit half after.
  assert (Hknown : ~ entry == 0) by lra.
  assert (Htarget0 : 0 < takeProfitOf cfg entry).
  { unfold takeProfitOf.
    assert (0 < takeProfitPercentage (riskLimits cfg) / 100)
      by (apply Qlt_shift_div_l; lra).
    nra. }
  split.
  { unfold half. pose proof (Z.quot_rem' balance 2) as Hdiv.
    pose proof (Z.rem_bound_pos balance 2 ltac:(lia) ltac:(lia)). lia. }
  assert (E : after
              = (setTrailingStop (tokenAddress options)
                   (price (marketData tick)) half (now tick)
                   (createSellSignal (tokenAddress options) half
                      "Take profit - selling half position" rt),
                 NoResult)).
  { unfold after, monitorToken. rewrite Hbalance, Hperf.
    destruct (Z.leb_spec balance 0) as [|_]; [lia|].
    assert (Htruthy : truthy (price (marketData tick)) = true)
      by (apply truthy_Q; lra).
    rewrite Htruthy. cbn [negb].
    destruct (stopLossLevel_known options entry Hentry Hknown Hstop)
      as (level & -> & Hlevel).
    assert (Hgt : nleb (price (marketData tick)) level = false)
      by (apply nleb_Q_false; lra).
    rewrite Hgt, andb_false_r.
    destruct (takeProfitLevel_known options entry Hentry Hknown Htake)
      as (target & -> & Htarget).
    assert (Ht : truthy target = true) by (apply truthy_Q; lra).
    assert (Hge : nleb target (price (marketData tick)) = true)
      by (apply nleb_Q; lra).
    rewrite Ht, Hge. reflexivity. }
  rewrite E. repeat split.
Qed.

End PositionMonitorProperties.

Lemma monitorToken_stop_loss_witness :
  sellSignals
    (fst (monitorToken exampleConfig exampleOptions (tickAt 94%Q) emptyRuntime))
  = [{| sellToken := "T"; sellAmount := 1000;
        sellReason := "Stop loss triggered" |}]
  /\ trailing_stop
       (fst (monitorToken exampleConfig exampleOptions (tickAt 94%Q)
               emptyRuntime))
     = ∅
  /\ tasks
       (fst (monitorToken exampleConfig exampleOptions (tickAt 94%Q)
               emptyRuntime))
     = [].
Proof.
  apply (monitorToken_stop_loss exampleConfig exampleOptions (tickAt 94%Q)
           emptyRuntime 1000 100%Q).
  - reflexivity.
  - lia.
  - reflexivity.
  - reflexivity.
  - vm_compute. discriminate.
  - exact I.
  - vm_compute. reflexivity.
  - vm_compute. discriminate.
Defined.

Lemma monitorToken_take_profit_witness :
  sellSignals
    (fst (monitorToken exampleConfig exampleOptions (tickAt 121%Q)
            emptyRuntime))
  = [{| sellToken := "T"; sellAmount := 500;
        sellReason := "Take profit - selling half position" |}]
  /\ trailing_stop
       (fst (monitorToken exampleConfig exampleOptions (tickAt 121%Q)
               emptyRuntime))
     = <["T"%string :=
           {| highestPrice := 121%Q; activationPrice := 121%Q;
              trailingStopPercentage := 5%Q; trailingAmount := 500;
              createdAt := 0 |}]> ∅
  /\ tasks
       (fst (monitorToken exampleConfig exampleOptions (tickAt 121%Q)
               emptyRuntime))
     = [("MONITOR_TRAILING_STOP"%string, "T"%string)].
Proof.
  apply (monitorToken_take_profit exampleConfig exampleOptions (tickAt 121%Q)
           emptyRuntime 1000 100%Q).
  - reflexivity.
  - lia.
  - reflexivity.
  - reflexivity.
  - vm_compute. reflexivity.
  - vm_compute. reflexivity.
  - exact I.
  - exact I.
  - vm_compute. reflexivity.
  - vm_compute. reflexivity.
  - vm_compute. discriminate.
Defined.

(** The same two ticks in binary64. *)
Example monitorToken_stop_loss_binary64 :
  monitorToken exampleConfig exampleOptions (tickAt 94%float) emptyRuntime
  = (createSellSignal "T" 1000 "Stop loss triggered" emptyRuntime, NoResult).
Proof. vm_compute. reflexivity. Qed.

Example monitorToken_take_profit_binary64 :
  monitorToken exampleConfig exampleOptions (tickAt 121%float) emptyRuntime
  = (setTrailingStop "T" 121%float 500 0
       (createSellSignal "T" 500 "Take profit - selling half position"
          emptyRuntime),
     NoResult).
Proof. vm_compute. reflexivity. Qed.

(** ** [monitorTrailingStop] *)

Section TrailingStopProperties.
Context {N : Type} `{JsNumber N}.
Local Open Scope js_scope.

Lemma withHighest_same (record : TrailingStop N) :
  withHighest (highestPrice record) record = record.
Proof. destruct record. reflexivity. Qed.

(** The trailing-stop tick, in whatever arithmetic: with a stored record,
    a balance above zero and a price that is available (truthy), the
    highest price becomes the larger of the stored one and the current
    price, the stop price is [highest * (1 - percentage / 100)], and the
    tick sells the tracked amount and deletes the record exactly when the
    test [price <= stopPrice] of the code succeeds; otherwise it sells
    nothing and keeps the record with the highest price raised. *)
Lemma monitorTrailingStop_decision (token : string) (tick : Tick N)
    (rt : Runtime N) (record : TrailingStop N) (balance : Z) :
  trailing_stop rt !! token = Some record ->
  currentBalance tick = Got (Some balance) ->
  (0 < balance)%Z ->
  truthy (price (marketData tick)) = true ->
  let current := price (marketData tick) in
  let highest :=
    if current >? highestPrice record then current
    else highestPrice record in
  let stopPrice :=
    highest * (lit 1 - trailingStopPercentage record / lit 100) in
  let after := monitorTrailingStop token tick rt in
  ((current <=? stopPrice) = true ->
     sellSignals after
     = sellSignals rt
       ++ [{| sellToken := token; sellAmount := trailingAmount record;
              sellReason := "Trailing stop triggered" |}]
     /\ trailing_stop after !! token = None)
  /\ ((current <=? stopPrice) = false ->
        sellSignals after = sellSignals rt
        /\ trailing_stop after !! token = Some (withHighest highest record)).
Proof.
  intros Hrecord Hbalance Hopen Hprice current highest stopPrice after.
  unfold after, monitorTrailingStop.
  rewrite Hrecord, Hbalance.
  destruct (Z.leb_spec balance 0) as [|_]; [lia|].
  rewrite Hprice. cbn [negb].
  fold current. unfold stopPrice, highest.
  destruct (current >? highestPrice record) eqn:Hraise;
    cbn [highestPrice trailingStopPercentage trailingAmount].
  - split; intros Htest; rewrite Htest; cbn.
    + split; [reflexivity|]. apply lookup_delete_eq.
    + split; [reflexivity|]. apply lookup_insert_eq.
  - split; intros Htest; rewrite Htest; cbn.
    + split; [reflexivity|]. apply lookup_delete_eq.
    + split; [reflexivity|]. rewrite withHighest_same. exact Hrecord.
Qed.

End TrailingStopProperties.

(** C3, as stated, fails on the example of the spec: in binary64, the
    arithmetic of the code, [121 * (1 - 5 / 100)] is the double just below
    114.95 ([0x1.cbcccccccccccp+6], printed 114.94999999999999), so a tick
    at the price 114.95 is above the stop price: it sells nothing and the
    trailing-stop record stays. *)
Lemma monitorTrailingStop_114_95_no_exit :
  anchoredStopPrice = 0x1.cbcccccccccccp+6%float
  /\ (lit 114.95 <=? anchoredStopPrice)%js = false
  /\ (anchoredStopPrice <? float_lit 114.95)%js = true
  /\ sellSignals
       (monitorTrailingStop "T" (tickAt (float_lit 114.95)) anchoredRuntime)
     = []
  /\ trailing_stop
       (monitorTrailingStop "T" (tickAt (float_lit 114.95)) anchoredRuntime)
       !! "T"%string
     = Some anchoredRecord.
Proof.
  repeat split; vm_compute; reflexivity.
Qed.

(** C3, amended: on every trailing-stop tick with a stored record, a
    balance above zero and an available (non-zero) current price,
    [monitorTrailingStop] raises the highest price to the larger of the
    stored one and the current price, computes
    [stopPrice = highestPrice * (1 - trailingStopPercentage / 100)], and
    sells the tracked amount and deletes the record if and only if the
    current price is at most that stop price as the code's arithmetic
    evaluates it.  With the highest price 121 and a trailing percentage of 5
    the stop price computed in binary64 is the double just below 114.95: a
    tick at that computed price exits, and ticks at 114.95 and at 115 do
    not.  (In exact arithmetic the stop price is 114.95 itself and a tick
    there exits.) *)
Theorem monitorTrailingStop_spec {N : Type} `{JsNumber N} (token : string)
    (tick : Tick N) (rt : Runtime N) (record : TrailingStop N) (balance : Z) :
  trailing_stop rt !! token = Some record ->
  currentBalance tick = Got (Some balance) ->
  (0 < balance)%Z ->
  truthy (price (marketData tick)) = true ->
  let current := price (marketData tick) in
  let highest :=
    if (current >? highestPrice record)%js then current
    else highestPrice record in
  let stopPrice :=
    (highest * (lit 1 - trailingStopPercentage record / lit 100))%js in
  let after := monitorTrailingStop token tick rt in
  (((current <=? stopPrice)%js = true ->
      sellSignals after
      = sellSignals rt
        ++ [{| sellToken := token; sellAmount := trailingAmount record;
               sellReason := "Trailing stop triggered" |}]
      /\ trailing_stop after !! token = None)
   /\ ((current <=? stopPrice)%js = false ->
         sellSignals after = sellSignals rt
         /\ trailing_stop after !! token = Some (withHighest highest record)))
  /\ (sellSignals
        (monitorTrailingStop "T" (tickAt (anchoredStopPrice (N:=float)))
           anchoredRuntime)
      = [{| sellToken := "T"; sellAmount := 500;
            sellReason := "Trailing stop triggered" |}]
      /\ trailing_stop
           (monitorTrailingStop "T" (tickAt (anchoredStopPrice (N:=float)))
              anchoredRuntime)
         = ∅)
  /\ monitorTrailingStop "T" (tickAt (float_lit 114.95)) anchoredRuntime
     = anchoredRuntime
  /\ monitorTrailingStop "T" (tickAt (float_lit 115)) anchoredRuntime
     = anchoredRuntime
  /\ (anchoredStopPrice (N:=Q) == 114.95)%Q
  /\ sellSignals (monitorTrailingStop "T" (tickAt 114.95%Q) anchoredRuntime)
     = [{| sellToken := "T"; sellAmount := 500;
           sellReason := "Trailing stop triggered" |}].
Proof.
  intros Hrecord Hbalance Hopen Hprice current highest stopPrice after.
  split.
  - exact (monitorTrailingStop_decision token tick rt record balance
             Hrecord Hbalance Hopen Hprice).
  - repeat split; vm_compute; reflexivity.
Qed.

Lemma monitorTrailingStop_spec_witness :
  sellSignals (monitorTrailingStop "T" (tickAt (float_lit 115)) anchoredRuntime)
  = sellSignals (anchoredRuntime (N:=float))
  /\ trailing_stop
       (monitorTrailingStop "T" (tickAt (float_lit 115)) anchoredRuntime)
       !! "T"%string
     = Some (withHighest (float_lit 121) anchoredRecord).
Proof.
  assert (Hrecord : trailing_stop (anchoredRuntime (N:=float)) !! "T"%string
                    = Some anchoredRecord) by (vm_compute; reflexivity).
  assert (Hprice : truthy (price (marketData (tickAt (float_lit 115)))) = true)
    by (vm_compute; reflexivity).
  destruct (monitorTrailingStop_spec "T" (tickAt (float_lit 115))
              anchoredRuntime anchoredRecord 1000 Hrecord eq_refl
              ltac:(lia) Hprice) as [[_ Hkeep] _].
  apply Hkeep. vm_compute. reflexivity.
Defined.

(** ** [checkCircuitBreaker] *)

Section CircuitBreakerProperties.
Local Open Scope Q_scope.

Lemma circuitBreakerTriggered_Q (priceChangePercent volatility : Q) :
  circuitBreakerTriggered priceChangePercent volatility = true
  <-> 15 < Qabs priceChangePercent \/ 0.6 < volatility.
Proof.
  unfold circuitBreakerTriggered. rewrite orb_true_iff.
  rewrite (nltb_Q (lit 15) (Math_abs priceChangePercent)).
  rewrite (nltb_Q (lit 0.6) volatility). reflexivity.
Qed.

(** C6: with fewer than 24 samples [checkCircuitBreaker] changes nothing;
    otherwise, with the price change against the sample at index 6 and
    the volatility of the history, it stores the paused flag, expiring
    one hour (3600000 ms) later, and the breaker record if and only if
    the absolute price change exceeds 15 or the volatility exceeds 0.6,
    with the reason [extreme_price_movement] when the price change
    exceeds 15 and [high_volatility] otherwise; else it changes nothing.
    A change of 16 at volatility 0.3 triggers with
    [extreme_price_movement], a change of 10 at volatility 0.65 with
    [high_volatility], a change of 10 at volatility 0.3 does not trigger
    (in exact and in binary64 arithmetic); and a binary64 history of 24
    samples at 100 with the current price 116 triggers end to end. *)
Theorem checkCircuitBreaker_spec (Math_sqrt : Q -> Q) (solData : MarketData Q)
    (now : Z) (rt : Runtime Q) :
  let priceChangePercent := priceChangePercentOfHistory solData in
  let volatility := calculateVolatility Math_sqrt (priceHistory solData) in
  let after := checkCircuitBreaker Math_sqrt (Got solData) now rt in
  ((length (priceHistory solData) < 24)%nat -> after = rt)
  /\ ((24 <= length (priceHistory solData))%nat ->
      (15 < Qabs priceChangePercent ->
         trading_paused after = Some (pauseRecord now)
         /\ circuit_breaker after
            = Some (breakerRecord "extreme_price_movement" now
                      priceChangePercent volatility))
      /\ (Qabs priceChangePercent <= 15 -> 0.6 < volatility ->
            trading_paused after = Some (pauseRecord now)
            /\ circuit_breaker after
               = Some (breakerRecord "high_volatility" now
                         priceChangePercent volatility))
      /\ (Qabs priceChangePercent <= 15 -> volatility <= 0.6 ->
            after = rt))
  /\ (circuit_breaker (tripCircuitBreaker 16 0.3 now emptyRuntime)
      = Some (breakerRecord "extreme_price_movement" now 16 0.3)
      /\ circuit_breaker (tripCircuitBreaker 10 0.65 now emptyRuntime)
         = Some (breakerRecord "high_volatility" now 10 0.65)
      /\ tripCircuitBreaker 10 0.3 now emptyRuntime = emptyRuntime)
  /\ (circuit_breaker
        (tripCircuitBreaker (lit 16) (lit 0.3) now (emptyRuntime (N:=float)))
      = Some (breakerRecord "extreme_price_movement" now (lit 16) (lit 0.3))
      /\ circuit_breaker
           (tripCircuitBreaker (lit 10) (lit 0.65) now
              (emptyRuntime (N:=float)))
         = Some (breakerRecord "high_volatility" now (lit 10) (lit 0.65))
      /\ tripCircuitBreaker (lit 10) (lit 0.3) now (emptyRuntime (N:=float))
         = emptyRuntime)
  /\ checkCircuitBreaker PrimFloat.sqrt
       (Got {| price := 116%float; priceHistory := flatHistory |}) 0
       emptyRuntime
     = setCircuitBreaker
         (breakerRecord "extreme_price_movement" 0 16%float 0%float)
         (pauseRecord 0) emptyRuntime.
Proof.
  intros priceChangePercent volatility after.
  split; [|split; [|split; [|split]]].
  - intros Hshort. unfold after, checkCircuitBreaker.
    destruct (Nat.ltb_spec (length (priceHistory solData)) 24) as [_|];
      [reflexivity|lia].
  - intros Hlong. unfold after, checkCircuitBreaker.
    destruct (Nat.ltb_spec (length (priceHistory solData)) 24) as [|_];
      [lia|].
    fold priceChangePercent volatility. unfold tripCircuitBreaker.
    split; [|split].
    + intros Hmove.
      assert (Htrig : circuitBreakerTriggered priceChangePercent volatility
                      = true)
        by (apply circuitBreakerTriggered_Q; left; exact Hmove).
      rewrite Htrig. unfold circuitBreakerReason.
      assert (Hb : nltb (lit 15) (Math_abs priceChangePercent) = true)
        by (apply nltb_Q; exact Hmove).
      rewrite Hb. split; reflexivity.
    + intros Hcalm Hvol.
      assert (Htrig : circuitBreakerTriggered priceChangePercent volatility
                      = true)
        by (apply circuitBreakerTriggered_Q; right; exact Hvol).
      rewrite Htrig. unfold circuitBreakerReason.
      assert (Hb : nltb (lit 15) (Math_abs priceChangePercent) = false)
        by (apply nltb_Q_false; exact Hcalm).
      rewrite Hb. split; reflexivity.
    + intros Hcalm Hvol.
      destruct (circuitBreakerTriggered priceChangePercent volatility)
        eqn:Htrig; [|reflexivity].
      apply circuitBreakerTriggered_Q in Htrig. lra.
  - repeat split; vm_compute; reflexivity.
  - repeat split; vm_compute; reflexivity.
  - vm_compute. reflexivity.
Qed.

End CircuitBreakerProperties.

(** ** The pending-sells counter *)

Section PendingSellsProperties.
Local Open Scope Z_scope.

Lemma lookup_record (t t0 : string) (a : Z) (m : gmap string Z) :
  recordPendingSell t a m !! t0
  = if bool_decide (t = t0) then Some (pendingOf m t + a) else m !! t0.
Proof.
  unfold recordPendingSell. case_bool_decide as E.
  - subst. apply lookup_insert_eq.
  - apply lookup_insert_ne. exact E.
Qed.

Lemma lookup_release (t t0 : string) (a : Z) (m : gmap string Z) :
  releasePendingSell t a m !! t0
  = if bool_decide (t = t0) then
      if pendingOf m t - a <=? 0 then None else Some (pendingOf m t - a)
    else m !! t0.
Proof.
  unfold releasePendingSell.
  assert (Hnew : pendingOf (<[t := pendingOf m t - a]> m) t
                 = pendingOf m t - a).
  { unfold pendingOf at 1. rewrite lookup_insert_eq. reflexivity. }
  rewrite Hnew. case_bool_decide as E.
  - subst. destruct (pendingOf m t0 - a <=? 0).
    + apply lookup_delete_eq.
    + apply lookup_insert_eq.
  - destruct (pendingOf m t - a <=? 0).
    + rewrite lookup_delete_ne by exact E. apply lookup_insert_ne. exact E.
    + apply lookup_insert_ne. exact E.
Qed.

Lemma pendingOf_record (t t0 : string) (a : Z) (m : gmap string Z) :
  pendingOf (recordPendingSell t a m) t0
  = pendingOf m t0 + (if bool_decide (t = t0) then a else 0).
Proof.
  unfold pendingOf at 1. rewrite lookup_record.
  case_bool_decide as E; [subst; reflexivity|].
  unfold pendingOf. lia.
Qed.

Lemma pendingOf_release (t t0 : string) (a : Z) (m : gmap string Z) :
  0 <= pendingOf m t - a ->
  pendingOf (releasePendingSell t a m) t0
  = pendingOf m t0 - (if bool_decide (t = t0) then a else 0).
Proof.
  intros Hnonneg. unfold pendingOf at 1. rewrite lookup_release.
  case_bool_decide as E.
  - subst. destruct (Z.leb_spec (pendingOf m t0 - a) 0); cbn; lia.
  - unfold pendingOf. lia.
Qed.

Lemma pendingOf_positive (m : gmap string Z) (t : string) :
  positiveEntries m -> 0 <= pendingOf m t.
Proof.
  intros Hpos. unfold pendingOf.
  destruct (m !! t) as [v|] eqn:E; cbn; [|lia].
  pose proof (map_Forall_lookup_1 _ _ _ _ Hpos E). cbn in *. lia.
Qed.

(** Recording and then releasing the same amount restores the counter. *)
Lemma release_record (t : string) (a : Z) (m : gmap string Z) :
  0 <= a -> positiveEntries m ->
  releasePendingSell t a (recordPendingSell t a m) = m.
Proof.
  intros Ha Hpos. apply map_eq. intros t0.
  rewrite lookup_release, pendingOf_record, lookup_record.
  destruct (decide (t = t0)) as [->|E].
  2: { rewrite !(bool_decide_eq_false_2 (t = t0)) by exact E. reflexivity. }
  rewrite !bool_decide_eq_true_2 by reflexivity.
  replace (pendingOf m t0 + a - a) with (pendingOf m t0) by lia.
  unfold pendingOf. destruct (m !! t0) as [v|] eqn:Hv; cbn.
  - pose proof (map_Forall_lookup_1 _ _ _ _ Hpos Hv) as Hv'. cbn in Hv'.
    destruct (Z.leb_spec v 0); [lia|reflexivity].
  - reflexivity.
Qed.

(** One invocation with no other in between: every call is made with the
    pending sell recorded, the calls are those of [callsOf], the
    [finally] block runs whatever the calls do, and the invocation
    returns. *)
Lemma handleSellSignal_alone (t : string) (a : Z) (calls : SellCalls)
    (m : gmap string Z) :
  perform calls (handleSellSignal t (Some a)) m
  = {| completion := Returns (sold calls);
       counterAfter := releasePendingSell t a (recordPendingSell t a m);
       callsMade :=
         map (fun call => (call, recordPendingSell t a m))
           (callsOf t a calls) |}.
Proof.
  destruct calls as [quote wallet sell]. unfold callsOf, sold.
  cbn [getQuote getWallet walletSell].
  destruct quote as [[]|]; [|reflexivity].
  destruct wallet as [[[]|]|]; try reflexivity.
  destruct sell as [[[] [sig|]]|]; reflexivity.
Qed.

(** An invocation runs to its first await with the pending sell recorded,
    and from there it holds the amount. *)
Lemma handleSellSignal_invoked (t : string) (a : Z) (m : gmap string Z) :
  exists resume,
    advance (handleSellSignal t (Some a)) m
    = (Await (slippageCall t a) resume, recordPendingSell t a m)
    /\ holding t a (Await (slippageCall t a) resume).
Proof.
  eexists. split; [reflexivity|].
  cbn. intros [[]|]; cbn; [|reflexivity].
  intros [[]|]; cbn; [|reflexivity].
  intros [[[]|]|]; cbn; try reflexivity.
  intros [[result [sig|]]|]; cbn; reflexivity.
Qed.

(** A task that holds an amount runs on to an await, the counter as it
    was, or to its end, the amount released. *)
Lemma advance_holding {A} (t : string) (a : Z) (task : Async A)
    (m : gmap string Z) :
  holding t a task ->
  (suspended (fst (advance task m)) = true
   /\ holding t a (fst (advance task m))
   /\ snd (advance task m) = m)
  \/ (suspended (fst (advance task m)) = false
      /\ snd (advance task m) = releasePendingSell t a m).
Proof.
  destruct task as [c|f rest|B call resume]; cbn [holding].
  - contradiction.
  - destruct rest as [c| |]; try contradiction.
    intros Hrelease. right. cbn. split; [reflexivity|apply Hrelease].
  - intros Hholding. left. cbn. repeat split. exact Hholding.
Qed.

End PendingSellsProperties.

Section OverlappingSells.
Local Open Scope Z_scope.

Lemma inFlightAmount_app (t : string) (xs ys : list Invocation) :
  inFlightAmount t (xs ++ ys) = inFlightAmount t xs + inFlightAmount t ys.
Proof.
  induction xs as [|x xs IH]; cbn [app inFlightAmount]; [reflexivity|].
  rewrite IH. lia.
Qed.

Lemma inFlightAmount_insert (t : string) (invocations : list Invocation)
    (i : nat) (old new : Invocation) :
  invocations !! i = Some old ->
  inFlightAmount t (<[i := new]> invocations)
  = inFlightAmount t invocations - heldBy t old + heldBy t new.
Proof.
  revert i.
  induction invocations as [|x xs IH]; intros [|i] Hi; cbn in Hi;
    try discriminate.
  - injection Hi as ->. change (<[0%nat := new]> (old :: xs)) with (new :: xs).
    cbn [inFlightAmount]. lia.
  - change (<[S i := new]> (x :: xs)) with (x :: <[i := new]> xs).
    cbn [inFlightAmount]. rewrite (IH i Hi). lia.
Qed.

Lemma heldBy_nonnegative (t : string) (invocation : Invocation) :
  0 <= invokedAmount invocation -> 0 <= heldBy t invocation.
Proof. unfold heldBy. destruct (_ && _); lia. Qed.

Lemma inFlightAmount_nonnegative (t : string)
    (invocations : list Invocation) :
  Forall (fun invocation => 0 <= invokedAmount invocation) invocations ->
  0 <= inFlightAmount t invocations.
Proof.
  induction 1 as [|x xs Hx _ IH]; cbn [inFlightAmount]; [lia|].
  pose proof (heldBy_nonnegative t x Hx). lia.
Qed.

Lemma inFlightAmount_lower (t : string) (invocations : list Invocation)
    (i : nat) (invocation : Invocation) :
  Forall (fun invocation => 0 <= invokedAmount invocation) invocations ->
  invocations !! i = Some invocation ->
  heldBy t invocation <= inFlightAmount t invocations.
Proof.
  intros Hall. revert i.
  induction Hall as [|x xs Hx Hxs IH]; intros [|i] Hi; cbn in Hi;
    try discriminate; cbn [inFlightAmount].
  - injection Hi as ->.
    pose proof (inFlightAmount_nonnegative t xs Hxs). lia.
  - pose proof (IH i Hi). pose proof (heldBy_nonnegative t x Hx). lia.
Qed.

Lemma inFlightAmount_idle (t : string) (invocations : list Invocation) :
  Forall (fun invocation => suspended (invocationState invocation) = false)
    invocations ->
  inFlightAmount t invocations = 0.
Proof.
  induction 1 as [|x xs Hx _ IH]; cbn [inFlightAmount]; [reflexivity|].
  unfold heldBy. rewrite Hx, IH. reflexivity.
Qed.

Lemma Balanced_amounts_nonnegative (m0 m : gmap string Z)
    (invocations : list Invocation) :
  Balanced m0 m invocations ->
  Forall (fun invocation => 0 <= invokedAmount invocation) invocations.
Proof.
  intros [_ Hall _]. eapply Forall_impl; [exact Hall|].
  intros invocation [Hnonneg _]. exact Hnonneg.
Qed.

Lemma Balanced_initial (m0 : gmap string Z) :
  positiveEntries m0 -> Balanced m0 m0 [].
Proof.
  intros Hpos. split.
  - intros t. cbn. lia.
  - constructor.
  - intros t v Hv. left. exact (map_Forall_lookup_1 _ _ _ _ Hpos Hv).
Qed.

(** What the resolution of an awaited call does to the counter. *)
Lemma stepSell_resolve (m : gmap string Z) (invocations : list Invocation)
    (i : nat) (calls : SellCalls) (invocation : Invocation) :
  invocations !! i = Some invocation ->
  suspended (invocationState invocation) = true ->
  holding (invokedToken invocation) (invokedAmount invocation)
    (invocationState invocation) ->
  exists task,
    stepSell (m, invocations) (Resolve i calls)
    = (if suspended task then m
       else releasePendingSell (invokedToken invocation)
              (invokedAmount invocation) m,
       <[i := {| invokedToken := invokedToken invocation;
                 invokedAmount := invokedAmount invocation;
                 invocationState := task |}]> invocations)
    /\ (suspended task = true ->
        holding (invokedToken invocation) (invokedAmount invocation) task).
Proof.
  intros Hi Hsuspended Hholding. cbn [stepSell]. rewrite Hi.
  destruct (invocationState invocation) as [c|f rest|B call resume];
    try discriminate.
  cbn [holding] in Hholding. specialize (Hholding (answer calls call)).
  destruct (advance_holding (invokedToken invocation)
              (invokedAmount invocation) (resume (answer calls call)) m
              Hholding) as [(Hs & Hh & Hm)|(Hs & Hm)];
    destruct (advance (resume (answer calls call)) m) as [task m'];
    cbn [fst snd] in *; exists task; rewrite Hs; subst m';
    (split; [reflexivity|]).
  - intros _. exact Hh.
  - discriminate.
Qed.

Lemma stepSell_invoke (m : gmap string Z) (invocations : list Invocation)
    (t : string) (a : Z) :
  exists invocation,
    stepSell (m, invocations) (Invoke t a)
    = (recordPendingSell t a m, invocations ++ [invocation])
    /\ invokedToken invocation = t
    /\ invokedAmount invocation = a
    /\ suspended (invocationState invocation) = true
    /\ holding t a (invocationState invocation).
Proof.
  destruct (handleSellSignal_invoked t a m) as (resume & Hadvance & Hholding).
  exists {| invokedToken := t; invokedAmount := a;
            invocationState := Await (slippageCall t a) resume |}.
  cbn [stepSell]. rewrite Hadvance. repeat split. exact Hholding.
Qed.

Lemma Balanced_step (m0 m : gmap string Z) (invocations : list Invocation)
    (e : SellEvent) :
  positiveEntries m0 ->
  0 <= eventAmount e ->
  Balanced m0 m invocations ->
  Balanced m0 (fst (stepSell (m, invocations) e))
    (snd (stepSell (m, invocations) e)).
Proof.
  intros Hpos Hamount Hbal.
  pose proof (Balanced_amounts_nonnegative _ _ _ Hbal) as Hnonneg.
  destruct Hbal as [Hsum Hamounts Hentries].
  destruct e as [t a|i calls]; cbn [eventAmount] in Hamount.
  - destruct (stepSell_invoke m invocations t a)
      as (invocation & -> & Ht & Ha & Hs & Hh). cbn [fst snd]. split.
    + intros t0. rewrite pendingOf_record, Hsum, inFlightAmount_app.
      cbn. unfold heldBy. rewrite Hs, Ht, Ha. cbn [andb].
      destruct (bool_decide (t = t0)); lia.
    + apply Forall_app. split; [exact Hamounts|].
      constructor; [|constructor]. rewrite Ht, Ha.
      split; [exact Hamount|intros _; exact Hh].
    + intros t0 v. rewrite lookup_record. case_bool_decide as E.
      * intros _. right. exists invocation. rewrite elem_of_app.
        split; [right; apply list_elem_of_singleton; reflexivity|].
        split; [exact Hs|]. congruence.
      * intros Hv. destruct (Hentries t0 v Hv) as [Hv'|(inv & Hin & Hs' & Ht')];
          [left; exact Hv'|].
        right. exists inv. rewrite elem_of_app. auto.
  - destruct (invocations !! i) as [invocation|] eqn:Hi.
    2: { cbn [stepSell]. rewrite Hi. cbn [fst snd].
         split; assumption. }
    destruct (suspended (invocationState invocation)) eqn:Hsuspended.
    2: { cbn [stepSell]. rewrite Hi.
         destruct (invocationState invocation); try discriminate;
           cbn [fst snd]; split; assumption. }
    pose proof (proj1 (Forall_lookup _ _) Hamounts i invocation Hi)
      as [Ha Hholding].
    specialize (Hholding Hsuspended).
    destruct (stepSell_resolve m invocations i calls invocation Hi
                Hsuspended Hholding) as (task & -> & Htask).
    cbn [fst snd].
    set (t := invokedToken invocation) in *.
    set (a := invokedAmount invocation) in *.
    set (new := {| invokedToken := t; invokedAmount := a;
                   invocationState := task |}).
    assert (Hold : forall t0,
               heldBy t0 invocation = if bool_decide (t = t0) then a else 0).
    { intros t0. unfold heldBy. rewrite Hsuspended. reflexivity. }
    assert (Hnew : forall t0,
               heldBy t0 new
               = if suspended task
                 then if bool_decide (t = t0) then a else 0
                 else 0).
    { intros t0. unfold heldBy. cbn. destruct (suspended task); reflexivity. }
    assert (Hpool : Forall (fun invocation =>
                0 <= invokedAmount invocation
                /\ (suspended (invocationState invocation) = true ->
                    holding (invokedToken invocation)
                      (invokedAmount invocation)
                      (invocationState invocation)))
              (<[i := new]> invocations)).
    { apply Forall_insert; [exact Hamounts|].
      cbn. split; [exact Ha|exact Htask]. }
    destruct (suspended task) eqn:Hs.
    + split.
      * intros t0. rewrite Hsum.
        rewrite (inFlightAmount_insert t0 invocations i invocation new Hi).
        rewrite Hold, Hnew. lia.
      * exact Hpool.
      * intros t0 v Hv.
        destruct (Hentries t0 v Hv) as [Hv'|(inv & Hin & Hs' & Ht')];
          [left; exact Hv'|].
        right. apply list_elem_of_lookup in Hin. destruct Hin as [j Hj].
        destruct (decide (j = i)) as [->|Hne].
        -- exists new. split.
           ++ apply list_elem_of_lookup. exists i.
              apply list_lookup_insert_eq.
              apply lookup_lt_Some in Hi. exact Hi.
           ++ split; [exact Hs|]. rewrite Hi in Hj. injection Hj as <-.
              exact Ht'.
        -- exists inv. split; [|split; assumption].
           apply list_elem_of_lookup. exists j.
           rewrite list_lookup_insert_ne by congruence. exact Hj.
    + assert (Hleft : 0 <= pendingOf m t - a).
      { rewrite Hsum.
        pose proof (inFlightAmount_lower t invocations i invocation Hnonneg
                      Hi) as Hlower.
        rewrite Hold, bool_decide_eq_true_2 in Hlower by reflexivity.
        pose proof (pendingOf_positive m0 t Hpos). lia. }
      split.
      * intros t0. rewrite (pendingOf_release t t0 a m Hleft), Hsum.
        rewrite (inFlightAmount_insert t0 invocations i invocation new Hi).
        rewrite Hold, Hnew. lia.
      * exact Hpool.
      * intros t0 v. rewrite lookup_release. case_bool_decide as E.
        -- destruct (Z.leb_spec (pendingOf m t - a) 0);
             [intros Hnone; discriminate Hnone|].
           intros Hv. injection Hv as Hv. left. lia.
        -- intros Hv.
           destruct (Hentries t0 v Hv) as [Hv'|(inv & Hin & Hs' & Ht')];
             [left; exact Hv'|].
           right. apply list_elem_of_lookup in Hin. destruct Hin as [j Hj].
           exists inv. split; [|split; assumption].
           apply list_elem_of_lookup. exists j.
           rewrite list_lookup_insert_ne; [exact Hj|].
           intros <-. rewrite Hi in Hj. injection Hj as <-.
           apply E. exact Ht'.
Qed.

Lemma Balanced_run (m0 : gmap string Z) (schedule : list SellEvent) :
  positiveEntries m0 ->
  Forall (fun e => 0 <= eventAmount e) schedule ->
  forall m invocations,
    Balanced m0 m invocations ->
    Balanced m0 (fst (runSells (m, invocations) schedule))
      (snd (runSells (m, invocations) schedule)).
Proof.
  intros Hpos Hschedule.
  induction Hschedule as [|e schedule He _ IH]; intros m invocations Hbal.
  - exact Hbal.
  - unfold runSells. cbn [fold_left].
    pose proof (Balanced_step m0 m invocations e Hpos He Hbal) as Hstep.
    destruct (stepSell (m, invocations) e) as [m1 invocations1].
    apply (IH m1 invocations1 Hstep).
Qed.

Lemma Balanced_idle (m0 m : gmap string Z) (invocations : list Invocation) :
  positiveEntries m0 ->
  Balanced m0 m invocations ->
  Forall (fun invocation => suspended (invocationState invocation) = false)
    invocations ->
  m = m0.
Proof.
  intros Hpos [Hsum _ Hentries] Hidle. apply map_eq. intros t.
  specialize (Hsum t). rewrite (inFlightAmount_idle t invocations Hidle) in Hsum.
  unfold pendingOf in Hsum.
  destruct (m !! t) as [v|] eqn:Hv, (m0 !! t) as [v0|] eqn:Hv0; cbn in Hsum.
  - f_equal. lia.
  - destruct (Hentries t v Hv) as [Hpositive|(inv & Hin & Hs & _)]; [lia|].
    rewrite Forall_forall in Hidle. rewrite (Hidle inv Hin) in Hs.
    discriminate.
  - pose proof (map_Forall_lookup_1 _ _ _ _ Hpos Hv0) as Hv0'. cbn in Hv0'.
    lia.
  - reflexivity.
Qed.

End OverlappingSells.

(** C8: for a sell amount that is not negative (the only caller,
    [executeSellTask], rejects amounts of zero or less) and a counter whose
    entries are above zero.  An invocation of [handleSellSignal] with no
    other in between makes its calls, the sell among them when the quote
    returned and there is a wallet, with the amount added to the token's
    pending sells; whatever the calls do (return, fail or throw) it
    returns, and its [finally] block has subtracted the amount, so that
    the counter afterwards is exactly the counter before, an absent entry
    staying absent; an amount that [BigInt] rejects makes no call and
    leaves the counter alone.  When invocations overlap, after any
    sequence of their steps the counter of every token is the one before
    plus the amounts of the invocations that wait at an await, no entry
    is below zero, and once no invocation waits the counter is exactly
    the one before; from there an invocation adds its amount as it
    starts, before its first await, and the resolution of an awaited call
    leaves the counter as it is while the invocation goes on to another
    await, and subtracts the amount when the invocation ends. *)
Theorem handleSellSignal_pendingSells (t : string) (a : Z)
    (calls : SellCalls) (m0 : gmap string Z) (schedule : list SellEvent) :
  positiveEntries m0 ->
  (0 <= a)%Z ->
  Forall (fun e => (0 <= eventAmount e)%Z) schedule ->
  let alone := perform calls (handleSellSignal t (Some a)) m0 in
  let after := runSells (m0, []) schedule in
  (pendingOf (recordPendingSell t a m0) t = (pendingOf m0 t + a)%Z
   /\ callsMade alone
      = map (fun call => (call, recordPendingSell t a m0)) (callsOf t a calls)
   /\ completion alone = Returns (sold calls)
   /\ counterAfter alone = m0
   /\ perform calls (handleSellSignal t None) m0
      = {| completion := Returns false; counterAfter := m0;
           callsMade := [] |})
  /\ (forall t',
        (0 <= pendingOf (fst after) t')%Z
        /\ pendingOf (fst after) t'
           = (pendingOf m0 t' + inFlightAmount t' (snd after))%Z)
  /\ (forall t' v, fst after !! t' = Some v -> (0 <= v)%Z)
  /\ (Forall (fun invocation =>
                suspended (invocationState invocation) = false)
        (snd after) ->
      fst after = m0)
  /\ (forall t' a',
        exists invocation,
          stepSell after (Invoke t' a')
          = (recordPendingSell t' a' (fst after), snd after ++ [invocation])
          /\ invokedToken invocation = t'
          /\ invokedAmount invocation = a'
          /\ suspended (invocationState invocation) = true)
  /\ (forall i calls' invocation,
        snd after !! i = Some invocation ->
        suspended (invocationState invocation) = true ->
        exists task,
          stepSell after (Resolve i calls')
          = (if suspended task then fst after
             else releasePendingSell (invokedToken invocation)
                    (invokedAmount invocation) (fst after),
             <[i := {| invokedToken := invokedToken invocation;
                       invokedAmount := invokedAmount invocation;
                       invocationState := task |}]> (snd after))).
Proof.
  intros Hpos Ha Hschedule alone after.
  split; [|split; [|split; [|split; [|split]]]].
  - unfold alone. rewrite handleSellSignal_alone. cbn [callsMade completion
      counterAfter].
    split; [|split; [|split; [|split]]]; try reflexivity.
    + rewrite pendingOf_record, bool_decide_eq_true_2 by reflexivity.
      reflexivity.
    + apply release_record; assumption.
  - pose proof (Balanced_run m0 schedule Hpos Hschedule m0 []
                  (Balanced_initial m0 Hpos)) as Hbal.
    fold after in Hbal. intros t'.
    split; [|apply (balanced_sum _ _ _ Hbal)].
    rewrite (balanced_sum _ _ _ Hbal).
    pose proof (pendingOf_positive m0 t' Hpos).
    pose proof (inFlightAmount_nonnegative t' (snd after)
                  (Balanced_amounts_nonnegative _ _ _ Hbal)).
    lia.
  - pose proof (Balanced_run m0 schedule Hpos Hschedule m0 []
                  (Balanced_initial m0 Hpos)) as Hbal.
    fold after in Hbal. intros t' v Hv.
    destruct (balanced_entries _ _ _ Hbal t' v Hv)
      as [Hpositive|(invocation & Hin & Hs & Ht)]; [lia|].
    pose proof (balanced_sum _ _ _ Hbal t') as Hsum.
    unfold pendingOf at 1 in Hsum. rewrite Hv in Hsum. cbn in Hsum.
    pose proof (pendingOf_positive m0 t' Hpos).
    pose proof (inFlightAmount_nonnegative t' (snd after)
                  (Balanced_amounts_nonnegative _ _ _ Hbal)).
    lia.
  - pose proof (Balanced_run m0 schedule Hpos Hschedule m0 []
                  (Balanced_initial m0 Hpos)) as Hbal.
    fold after in Hbal. intros Hidle.
    exact (Balanced_idle m0 (fst after) (snd after) Hpos Hbal Hidle).
  - intros t' a'. destruct after as [m invocations].
    destruct (stepSell_invoke m invocations t' a')
      as (invocation & Hstep & Ht & Hamount & Hs & _).
    exists invocation. repeat split; assumption.
  - pose proof (Balanced_run m0 schedule Hpos Hschedule m0 []
                  (Balanced_initial m0 Hpos)) as Hbal.
    fold after in Hbal. intros i calls' invocation Hi Hs.
    pose proof (proj1 (Forall_lookup _ _) (balanced_amounts _ _ _ Hbal)
                  i invocation Hi) as [_ Hholding].
    destruct after as [m invocations]. cbn [fst snd] in *.
    destruct (stepSell_resolve m invocations i calls' invocation Hi Hs
                (Hholding Hs)) as (task & Hstep & _).
    exists task. exact Hstep.
Qed.

(** A sell of 5 whose [wallet.sell] throws, and the two overlapping sells
    of 5 and 7 of token [T], beside 3 pending of token [U]. *)
Lemma handleSellSignal_pendingSells_witness :
  counterAfter
    (perform
       {| getQuote := Got tt; getWallet := Got (Some tt);
          walletSell := Threw |}
       (handleSellSignal "T" (Some 5%Z)) {["U"%string := 3%Z]})
  = {["U"%string := 3%Z]}
  /\ fst (runSells ({["U"%string := 3%Z]}, []) overlappingSells)
     = {["U"%string := 3%Z]}.
Proof.
  assert (Hpos : positiveEntries {["U"%string := 3%Z]}).
  { apply map_Forall_singleton. lia. }
  assert (Hschedule : Forall (fun e => (0 <= eventAmount e)%Z)
                        overlappingSells).
  { repeat constructor; cbn; lia. }
  destruct (handleSellSignal_pendingSells "T" 5
              {| getQuote := Got tt; getWallet := Got (Some tt);
                 walletSell := Threw |}
              {["U"%string := 3%Z]} overlappingSells
              Hpos ltac:(lia) Hschedule)
    as ((_ & _ & _ & Hsame & _) & _ & _ & Hidle & _).
  split; [exact Hsame|].
  apply Hidle. vm_compute. repeat constructor.
Defined.

(** The counter of token [T] along the two overlapping sells: 5, 12, 12,
    12, 12, 5 once the second sell failed at its quote, 5 while the
    first is sold, and no entry at the end. *)
Example overlapping_sells_run :
  map (fun n =>
         fst (runSells ({["U"%string := 3%Z]}, [])
                (take n overlappingSells))
         !! "T"%string)
    (seq 1 8)
  = [Some 5; Some 12; Some 12; Some 12; Some 12; Some 5; Some 5; None]%Z
  /\ fst (runSells ({["U"%string := 3%Z]}, []) overlappingSells)
     = {["U"%string := 3%Z]}
  /\ map (fun invocation => suspended (invocationState invocation))
       (snd (runSells ({["U"%string := 3%Z]}, []) overlappingSells))
     = [false; false].
Proof. vm_compute. repeat split. Qed.

(** * Further properties *)

(** ** Sorting *)

Section SortingProperties.
Context {A : Type}.
Local Open Scope Q_scope.

Variable compare : A -> A -> Q.
Variable key : A -> Q.

(** The comparator orders by a key: it is negative exactly when the first
    key is the smaller one. *)
Hypothesis compare_key :
  forall a b, (compare a b <? lit 0)%js = true <-> key a < key b.

Lemma insertSorted_Permutation (x : A) (sorted : list A) :
  Permutation (x :: sorted) (insertSorted compare x sorted).
Proof.
  induction sorted as [|y rest IH]; cbn [insertSorted]; [reflexivity|].
  destruct (compare x y <? lit 0)%js; [reflexivity|].
  rewrite perm_swap. apply perm_skip, IH.
Qed.

Lemma sortWith_Permutation_acc (items sorted : list A) :
  Permutation (sorted ++ items)
    (fold_left (fun sorted x => insertSorted compare x sorted) items sorted).
Proof.
  revert sorted. induction items as [|x items IH]; intros sorted;
    cbn [fold_left].
  - rewrite app_nil_r. reflexivity.
  - rewrite <- IH, <- insertSorted_Permutation.
    symmetry. apply Permutation_middle.
Qed.

Lemma sortWith_Permutation (items : list A) :
  Permutation items (sortWith compare items).
Proof. exact (sortWith_Permutation_acc items []). Qed.

Lemma insertSorted_sorted (x : A) (sorted : list A) :
  StronglySorted (fun a b => key a <= key b) sorted ->
  StronglySorted (fun a b => key a <= key b) (insertSorted compare x sorted).
Proof using compare_key.
  induction 1 as [|y rest Hrest IH Hy]; cbn [insertSorted].
  - repeat constructor.
  - destruct (compare x y <? lit 0)%js eqn:Hcmp.
    + apply compare_key in Hcmp. constructor.
      * constructor; assumption.
      * constructor; [lra|].
        rewrite Forall_forall in Hy |- *. intros z Hz.
        specialize (Hy z Hz). lra.
    + assert (Hge : key y <= key x).
      { destruct (Qlt_le_dec (key x) (key y)) as [Hlt|Hle]; [|exact Hle].
        apply compare_key in Hlt. congruence. }
      constructor; [exact IH|].
      rewrite Forall_forall in Hy |- *. intros z Hz.
      rewrite <- (insertSorted_Permutation x rest) in Hz.
      apply elem_of_cons in Hz.
      destruct Hz as [->|Hz]; [exact Hge|apply Hy, Hz].
Qed.

Lemma sortWith_sorted (items : list A) :
  StronglySorted (fun a b => key a <= key b) (sortWith compare items).
Proof using compare_key.
  unfold sortWith.
  apply (fold_left_invariant
           (StronglySorted (fun a b => key a <= key b)) (fun _ => True)).
  - intros sorted x Hsorted _. apply insertSorted_sorted, Hsorted.
  - apply Forall_forall. intros; exact I.
  - constructor.
Qed.

End SortingProperties.

(** ** Scores *)

Section ScoreProperties.
Local Open Scope Q_scope.

Lemma ladderAbove_bounds (score x a b c d e : Q) :
  score <= ladderAbove score x a b c d e <= score + 10.
Proof.
  unfold ladderAbove.
  repeat match goal with
         | |- context [if ?t then _ else _] => destruct t
         end; cbn; lra.
Qed.

Lemma ladderBelow_bounds (score x a b c d e : Q) :
  score <= ladderBelow score x a b c d e <= score + 10.
Proof.
  unfold ladderBelow.
  repeat match goal with
         | |- context [if ?t then _ else _] => destruct t
         end; cbn; lra.
Qed.

Lemma scoreTechnicalSignals_bounds (signals : option (TokenTechnicals Q)) :
  -15 <= scoreTechnicalSignals signals <= 40.
Proof.
  destruct signals as [signals|]; [|cbn; lra].
  unfold scoreTechnicalSignals.
  repeat match goal with
         | |- context [if ?t then _ else _] => destruct t
         | |- context [match volumeProfile signals with _ => _ end] =>
             destruct (volumeProfile signals) as [[[] ?]|]
         end; cbn; lra.
Qed.

Lemma scoreSocialMetrics_bounds (metrics : option (SocialMetrics Q)) :
  0 <= scoreSocialMetrics metrics <= 30.
Proof.
  destruct metrics as [metrics|]; [|cbn; lra].
  unfold scoreSocialMetrics.
  pose proof (ladderAbove_bounds (lit 0) (mentionCount metrics)
                (lit 1000) (lit 500) (lit 200) (lit 100) (lit 50)) as H1.
  set (s1 := ladderAbove (lit 0) (mentionCount metrics) _ _ _ _ _) in *.
  pose proof (ladderAbove_bounds s1 (sentiment metrics)
                (lit 0.8) (lit 0.6) (lit 0.4) (lit 0.2) (lit 0)) as H2.
  set (s2 := ladderAbove s1 (sentiment metrics) _ _ _ _ _) in *.
  pose proof (ladderAbove_bounds s2 (influencerMentions metrics)
                (lit 10) (lit 5) (lit 3) (lit 1) (lit 0)) as H3.
  cbn [lit Q_number] in *. lra.
Qed.

Lemma scoreMarketMetrics_bounds (marketCap volume24h liquidity : Q) :
  0 <= scoreMarketMetrics marketCap volume24h liquidity <= 30.
Proof.
  unfold scoreMarketMetrics.
  pose proof (ladderBelow_bounds (lit 0) marketCap (lit 100000) (lit 500000)
                (lit 1000000) (lit 5000000) (lit 10000000)) as H1.
  set (s1 := ladderBelow (lit 0) marketCap _ _ _ _ _) in *.
  pose proof (ladderAbove_bounds s1 volume24h (lit 1000000) (lit 500000)
                (lit 100000) (lit 50000) (lit 10000)) as H2.
  set (s2 := ladderAbove s1 volume24h _ _ _ _ _) in *.
  pose proof (ladderAbove_bounds s2 liquidity (lit 500000) (lit 100000)
                (lit 50000) (lit 10000) (lit 5000)) as H3.
  cbn [lit Q_number] in *. lra.
Qed.

Lemma tokenScore_bounds (token : FeedSignal Q) :
  -15 <= tokenScore token <= 100.
Proof.
  unfold tokenScore.
  pose proof (scoreMarketMetrics_bounds (feedMarketCap token)
                (feedVolume24h token) (feedLiquidity token)) as Hmarket.
  destruct (technicalSignals token) as [technical|],
    (socialMetrics token) as [social|].
  - pose proof (scoreTechnicalSignals_bounds (Some technical)).
    pose proof (scoreSocialMetrics_bounds (Some social)).
    cbn [nadd lit Q_number] in *. lra.
  - pose proof (scoreTechnicalSignals_bounds (Some technical)).
    cbn [nadd lit Q_number] in *. lra.
  - pose proof (scoreSocialMetrics_bounds (Some social)).
    cbn [nadd lit Q_number] in *. lra.
  - cbn [nadd lit Q_number] in *. lra.
Qed.

(** X1: in exact arithmetic the technical score lies within [-15, 40] and
    both ends are reached (the source's comment says 0 to 40), the social
    and the market score lie within [0, 30], and the score that
    [scoreTokenSignals] gives a token lies within [-15, 100]. *)
Theorem score_ranges (signals : option (TokenTechnicals Q))
    (metrics : option (SocialMetrics Q)) (marketCap volume24h liquidity : Q)
    (token : FeedSignal Q) :
  -15 <= scoreTechnicalSignals signals <= 40
  /\ 0 <= scoreSocialMetrics metrics <= 30
  /\ 0 <= scoreMarketMetrics marketCap volume24h liquidity <= 30
  /\ -15 <= tokenScore token <= 100
  /\ scoreTechnicalSignals (Some worstTechnicals) == -15
  /\ scoreTechnicalSignals (Some bestTechnicals) == 40.
Proof.
  split; [apply scoreTechnicalSignals_bounds|].
  split; [apply scoreSocialMetrics_bounds|].
  split; [apply scoreMarketMetrics_bounds|].
  split; [apply tokenScore_bounds|].
  split; vm_compute; reflexivity.
Qed.

End ScoreProperties.

(** ** [scoreTokenSignals] *)

Section ScoredTokensProperties.
Local Open Scope Q_scope.

Lemma groupSignals_snoc {N : Type} `{JsNumber N} (signals : list (FeedSignal N))
    (incoming : FeedSignal N) :
  groupSignals (signals ++ [incoming])
  = mergeSignal incoming (groupSignals signals).
Proof. unfold groupSignals. rewrite fold_left_app. reflexivity. Qed.

Lemma mergeSignal_addresses {N : Type} `{JsNumber N} (incoming : FeedSignal N)
    (tokenMap : list (FeedSignal N)) :
  map feedAddress (mergeSignal incoming tokenMap)
  = if bool_decide (feedAddress incoming ∈ map feedAddress tokenMap) then
      map feedAddress tokenMap
    else map feedAddress tokenMap ++ [feedAddress incoming].
Proof.
  induction tokenMap as [|existing rest IH]; cbn [mergeSignal map].
  - rewrite bool_decide_eq_false_2 by apply not_elem_of_nil. reflexivity.
  - destruct (String.eqb_spec (feedAddress existing) (feedAddress incoming))
      as [E|E].
    + rewrite bool_decide_eq_true_2 by (rewrite E; apply list_elem_of_here).
      reflexivity.
    + cbn [map]. rewrite IH. case_bool_decide as Hin.
      * rewrite bool_decide_eq_true_2 by (apply list_elem_of_further, Hin).
        reflexivity.
      * rewrite bool_decide_eq_false_2; [reflexivity|].
        intros Hin'. apply elem_of_cons in Hin'.
        destruct Hin' as [Heq|Hin']; [congruence|contradiction].
Qed.

Lemma groupSignals_NoDup {N : Type} `{JsNumber N} (signals : list (FeedSignal N)) :
  NoDup (map feedAddress (groupSignals signals)).
Proof.
  induction signals as [|incoming signals IH] using rev_ind.
  - constructor.
  - rewrite groupSignals_snoc, mergeSignal_addresses.
    case_bool_decide as Hin; [exact IH|].
    apply NoDup_app. split; [exact IH|]. split.
    + intros a Ha Hb. apply list_elem_of_singleton in Hb. subst.
      contradiction.
    + apply NoDup_singleton.
Qed.

Lemma firstSignalFor_snoc {N : Type} (address : string)
    (signals : list (FeedSignal N)) (incoming : FeedSignal N) :
  firstSignalFor address (signals ++ [incoming])
  = match firstSignalFor address signals with
    | Some s => Some s
    | None =>
        if String.eqb (feedAddress incoming) address then Some incoming
        else None
    end.
Proof.
  unfold firstSignalFor. induction signals as [|s signals IH]; cbn.
  - reflexivity.
  - destruct (String.eqb (feedAddress s) address); [reflexivity|exact IH].
Qed.

Lemma firstSignalFor_None {N : Type} (address : string)
    (signals : list (FeedSignal N)) :
  firstSignalFor address signals = None ->
  address ∉ map feedAddress signals.
Proof.
  unfold firstSignalFor. induction signals as [|s signals IH]; cbn.
  - intros _. apply not_elem_of_nil.
  - destruct (String.eqb_spec (feedAddress s) address) as [E|E];
      [discriminate|].
    intros Hnone Hin. apply elem_of_cons in Hin.
    destruct Hin as [Heq|Hin]; [congruence|exact (IH Hnone Hin)].
Qed.

(** What the grouping keeps: every grouped token carries the metrics of the
    first signal for its address, and every address of a signal is
    grouped. *)
Lemma groupSignals_first {N : Type} `{JsNumber N} (signals : list (FeedSignal N)) :
  (forall token, token ∈ groupSignals signals ->
     exists first,
       firstSignalFor (feedAddress token) signals = Some first
       /\ sameMetrics token first)
  /\ (forall s, s ∈ signals ->
        feedAddress s ∈ map feedAddress (groupSignals signals)).
Proof.
  induction signals as [|incoming signals [IHfirst IHall]] using rev_ind.
  - split; intros x Hx; apply elem_of_nil in Hx; contradiction.
  - rewrite groupSignals_snoc.
    assert (Hmerge : forall tokenMap token,
               token ∈ mergeSignal incoming tokenMap ->
               (exists existing, existing ∈ tokenMap
                                 /\ sameMetrics token existing)
               \/ (token = incoming
                   /\ feedAddress incoming ∉ map feedAddress tokenMap)).
    { induction tokenMap as [|existing rest IH]; intros token Hin;
        cbn [mergeSignal] in Hin.
      - apply list_elem_of_singleton in Hin. right. split; [exact Hin|].
        apply not_elem_of_nil.
      - destruct (String.eqb_spec (feedAddress existing) (feedAddress incoming))
          as [E|E].
        + apply elem_of_cons in Hin. destruct Hin as [->|Hin].
          * left. exists existing. split; [apply list_elem_of_here|].
            repeat split.
          * left. exists token. split; [apply list_elem_of_further, Hin|].
            repeat split.
        + apply elem_of_cons in Hin. destruct Hin as [->|Hin].
          * left. exists existing. split; [apply list_elem_of_here|].
            repeat split.
          * destruct (IH token Hin) as [(e & He & Hsame)|[-> Hnew]].
            -- left. exists e. split; [apply list_elem_of_further, He|].
               exact Hsame.
            -- right. split; [reflexivity|]. cbn [map]. intros Hin'.
               apply elem_of_cons in Hin'.
               destruct Hin' as [Heq|Hin']; [congruence|contradiction]. }
    split.
    + intros token Hin. rewrite firstSignalFor_snoc.
      destruct (Hmerge _ _ Hin) as [(existing & He & Hsame)|[-> Hnew]].
      * destruct (IHfirst existing He) as (first & Hfirst & Hsame').
        assert (Haddr : feedAddress token = feedAddress existing)
          by apply Hsame.
        rewrite Haddr, Hfirst. exists first. split; [reflexivity|].
        unfold sameMetrics in *. intuition congruence.
      * destruct (firstSignalFor (feedAddress incoming) signals) as [s|] eqn:Hs.
        -- exfalso. apply Hnew.
           assert (Hin' : s ∈ signals).
           { unfold firstSignalFor in Hs. apply find_some in Hs.
             apply list_elem_of_In, Hs. }
           assert (Haddr : feedAddress s = feedAddress incoming).
           { unfold firstSignalFor in Hs. apply find_some in Hs.
             apply String.eqb_eq, Hs. }
           rewrite <- Haddr. apply IHall, Hin'.
        -- rewrite String.eqb_refl. exists incoming.
           split; [reflexivity|]. repeat split.
    + intros s Hs. rewrite mergeSignal_addresses.
      apply elem_of_app in Hs. destruct Hs as [Hs|Hs].
      * case_bool_decide; [apply IHall, Hs|].
        apply elem_of_app. left. apply IHall, Hs.
      * apply list_elem_of_singleton in Hs. subst.
        case_bool_decide as Hin; [exact Hin|].
        apply elem_of_app. right. apply list_elem_of_here.
Qed.

End ScoredTokensProperties.

Section RankingProperties.
Local Open Scope Q_scope.

Lemma Permutation_elem_of {A : Type} (l k : list A) (x : A) :
  Permutation l k -> x ∈ k -> x ∈ l.
Proof.
  intros Hperm Hin. apply list_elem_of_In.
  apply (Permutation_in x (Permutation_sym Hperm)).
  apply list_elem_of_In, Hin.
Qed.

Lemma scoreTokenSignals_elem (signals : list (FeedSignal Q))
    (token : FeedSignal Q) :
  token ∈ scoreTokenSignals signals ->
  exists grouped,
    grouped ∈ groupSignals signals
    /\ token = withScore (tokenScore grouped) grouped
    /\ meetsMinimum token = true.
Proof.
  unfold scoreTokenSignals. intros Hin.
  apply (Permutation_elem_of _ _ _ (sortWith_Permutation _ _)) in Hin.
  apply list_elem_of_In, filter_In in Hin. destruct Hin as [Hin Hmin].
  apply in_map_iff in Hin. destruct Hin as (grouped & <- & Hin).
  exists grouped. split; [apply list_elem_of_In, Hin|]. split; [reflexivity|].
  exact Hmin.
Qed.

Lemma StronglySorted_weaken {A : Type} (R R' : A -> A -> Prop) (l : list A) :
  (forall a b, R a b -> R' a b) ->
  StronglySorted R l -> StronglySorted R' l.
Proof.
  intros Himpl. induction 1 as [|x l Hl IH Hx]; constructor; [exact IH|].
  revert Hx. apply List.Forall_impl. intros b. apply Himpl.
Qed.

Lemma filter_map_NoDup {A B : Type} (f : A -> B) (keep : A -> bool)
    (l : list A) :
  NoDup (map f l) -> NoDup (map f (List.filter keep l)).
Proof.
  induction l as [|x l IH]; cbn; intros Hnd; [constructor|].
  apply NoDup_cons in Hnd. destruct Hnd as [Hx Hnd].
  destruct (keep x); cbn; [|exact (IH Hnd)].
  apply NoDup_cons. split; [|exact (IH Hnd)].
  intros Hin. apply Hx.
  apply list_elem_of_In, in_map_iff in Hin.
  destruct Hin as (y & Hy & Hin). apply filter_In in Hin.
  apply list_elem_of_In, in_map_iff. exists y. tauto.
Qed.

(** X2: every token that [scoreTokenSignals] returns has a score of at
    least 60 and at most 100, which is the sum of its three partial scores
    and not the score of the feeds, a liquidity of at least 50000 and a
    24-hour volume of at least 100000; the tokens are returned by
    descending score and no address is returned twice. *)
Theorem scoreTokenSignals_ranked (signals : list (FeedSignal Q)) :
  (forall token, token ∈ scoreTokenSignals signals ->
     60 <= feedScore token <= 100
     /\ feedScore token = tokenScore token
     /\ 50000 <= feedLiquidity token
     /\ 100000 <= feedVolume24h token)
  /\ StronglySorted (fun a b => feedScore b <= feedScore a)
       (scoreTokenSignals signals)
  /\ NoDup (map feedAddress (scoreTokenSignals signals)).
Proof.
  split; [|split].
  - intros token Hin.
    destruct (scoreTokenSignals_elem _ _ Hin) as (grouped & _ & -> & Hmin).
    unfold meetsMinimum in Hmin.
    apply andb_prop in Hmin. destruct Hmin as [Hmin Hvolume].
    apply andb_prop in Hmin. destruct Hmin as [Hscore Hliquidity].
    apply nleb_Q in Hscore, Hliquidity, Hvolume.
    cbn [feedScore feedLiquidity feedVolume24h withScore] in *.
    pose proof (tokenScore_bounds grouped) as Hrange.
    change (lit 60) with 60 in Hscore.
    change (lit 50000) with 50000 in Hliquidity.
    change (lit 100000) with 100000 in Hvolume.
    repeat split; try lra.
  - unfold scoreTokenSignals.
    apply (StronglySorted_weaken
             (fun a b => - feedScore a <= - feedScore b)); [intros; lra|].
    apply (sortWith_sorted (fun a b : FeedSignal Q => (feedScore b - feedScore a)%js)
             (fun token => - feedScore token)).
    intros a b. rewrite nltb_Q. change (lit 0) with 0.
    cbn [nsub Q_number]. split; intros; lra.
  - unfold scoreTokenSignals.
    match goal with
    | |- NoDup (map _ (sortWith ?cmp ?items)) =>
        apply (NoDup_Permutation_proper _ _
                 (Permutation_map feedAddress (sortWith_Permutation cmp items)))
    end.
    apply filter_map_NoDup. rewrite map_map. cbn [feedAddress withScore].
    apply groupSignals_NoDup.
Qed.

End RankingProperties.

Section FirstSignalProperties.
Local Open Scope Q_scope.

Lemma tokenScore_sameMetrics (token first : FeedSignal Q) :
  sameMetrics token first -> tokenScore token = tokenScore first.
Proof.
  intros (_ & _ & Hcap & Hvolume & _ & Hliquidity & Htechnical & Hsocial).
  unfold tokenScore. rewrite Hcap, Hvolume, Hliquidity, Htechnical, Hsocial.
  reflexivity.
Qed.

(** X3: a token that [scoreTokenSignals] returns carries the market
    figures and the technical and social metrics of the first signal for
    its address, and its score is computed from that signal alone: what
    later signals for the address report is not read (only their reasons
    are kept), and a token whose first signal has neither technical nor
    social metrics is never returned. *)
Theorem scoreTokenSignals_first_signal (signals : list (FeedSignal Q))
    (token : FeedSignal Q) :
  token ∈ scoreTokenSignals signals ->
  exists first,
    firstSignalFor (feedAddress token) signals = Some first
    /\ sameMetrics token first
    /\ feedScore token = tokenScore first
    /\ ~ (technicalSignals first = None /\ socialMetrics first = None).
Proof.
  intros Hin.
  destruct (scoreTokenSignals_elem _ _ Hin) as (grouped & Hgrouped & -> & Hmin).
  destruct (groupSignals_first signals) as [Hfirst _].
  destruct (Hfirst grouped Hgrouped) as (first & Hfind & Hsame).
  exists first. cbn [feedAddress feedScore withScore].
  split; [exact Hfind|]. split; [exact Hsame|].
  split; [apply tokenScore_sameMetrics, Hsame|].
  intros [Htechnical Hsocial].
  unfold meetsMinimum in Hmin.
  apply andb_prop in Hmin. destruct Hmin as [Hmin _].
  apply andb_prop in Hmin. destruct Hmin as [Hscore _].
  apply nleb_Q in Hscore. cbn [feedScore withScore] in Hscore.
  rewrite (tokenScore_sameMetrics _ _ Hsame) in Hscore.
  unfold tokenScore in Hscore. rewrite Htechnical, Hsocial in Hscore.
  pose proof (scoreMarketMetrics_bounds (feedMarketCap first)
                (feedVolume24h first) (feedLiquidity first)) as Hmarket.
  cbn [nadd lit Q_number] in *. lra.
Qed.

Lemma scoreTokenSignals_first_signal_witness :
  rankedExample ∈ scoreTokenSignals [birdeyeExample; twitterExample]
  /\ exists first,
       firstSignalFor (feedAddress rankedExample)
         [birdeyeExample; twitterExample] = Some first
       /\ sameMetrics rankedExample first
       /\ feedScore rankedExample = tokenScore first
       /\ ~ (technicalSignals first = None /\ socialMetrics first = None).
Proof.
  assert (Hin : rankedExample
                ∈ scoreTokenSignals [birdeyeExample; twitterExample])
    by (vm_compute; apply list_elem_of_here).
  split; [exact Hin|].
  exact (scoreTokenSignals_first_signal _ _ Hin).
Defined.

End FirstSignalProperties.

(** ** The MACD signal line and the momentum exit *)

Section MomentumProperties.
Local Open Scope js_scope.

(** [x < x] is false for every binary64 number, NaN included. *)
Lemma float_ltb_irrefl (x : float) : (x <? x) = false.
Proof.
  change (PrimFloat.ltb x x = false). rewrite ltb_spec. unfold SFltb.
  destruct (Prim2SF x) as [s|s| |s m e]; cbn.
  - reflexivity.
  - destruct s; reflexivity.
  - reflexivity.
  - destruct s; rewrite Z.compare_refl, Pos.compare_refl; reflexivity.
Qed.

Lemma calculateMACD_signal {N : Type} `{JsNumber N} (prices : list N) :
  signal (calculateMACD prices) = macd (calculateMACD prices).
Proof.
  unfold calculateMACD. destruct (length prices <? 26)%nat; reflexivity.
Qed.

(** X4: the signal line that [calculateMACD] returns is the MACD line
    itself, for every price series and in whatever arithmetic: it is the
    EMA of a one-element array, which [calculateEMA] returns unchanged.
    In exact arithmetic the histogram is therefore always 0. *)
Theorem calculateMACD_signal_is_macd :
  (forall (N : Type) (number : JsNumber N) (prices : list N),
     signal (calculateMACD prices) = macd (calculateMACD prices))
  /\ (forall prices : list Q, (histogram (calculateMACD prices) == 0)%Q).
Proof.
  split.
  - intros N number prices. apply calculateMACD_signal.
  - intros prices. unfold calculateMACD.
    destruct (length prices <? 26)%nat; cbn [histogram]; [reflexivity|].
    match goal with
    | |- context [calculateEMA [?m] 9] => change (calculateEMA [m] 9) with m
    end.
    cbn [nsub Q_number]. lra.
Qed.

Lemma momentum_test {N : Type} `{JsNumber N} (marketData : MarketData N) :
  (forall x : N, (x <? x) = false) ->
  (histogram (macdSignals (calculateTechnicalSignals marketData)) <? lit 0)
  && (macd (macdSignals (calculateTechnicalSignals marketData))
      <? signal (macdSignals (calculateTechnicalSignals marketData)))
  = false.
Proof.
  intros Hstrict. unfold calculateTechnicalSignals.
  destruct (priceHistory marketData) as [|p prices];
    cbn [macdSignals histogram macd signal].
  - rewrite Hstrict. reflexivity.
  - rewrite calculateMACD_signal, Hstrict. apply andb_false_r.
Qed.

(** X5: [monitorToken] leaves the runtime as it is, or creates the
    stop-loss sell of the whole balance, or the take-profit sell of half of
    it with its trailing stop: the sell for negative momentum while in
    profit is never created, since its test [macd.value < macd.signal]
    compares a number with itself (the only assumption is that no number
    is below itself, which holds for binary64 numbers and in exact
    arithmetic). *)
Theorem monitorToken_no_momentum_sell {N : Type} `{JsNumber N}
    (cfg : TradingConfig N) (options : MonitorOptions N) (tick : Tick N)
    (rt : Runtime N) :
  (forall x : N, (x <? x) = false) ->
  fst (monitorToken cfg options tick rt) = rt
  \/ (exists balance,
        currentBalance tick = Got (Some balance)
        /\ fst (monitorToken cfg options tick rt)
           = createSellSignal (tokenAddress options) balance
               "Stop loss triggered" rt)
  \/ (exists balance,
        currentBalance tick = Got (Some balance)
        /\ fst (monitorToken cfg options tick rt)
           = setTrailingStop (tokenAddress options) (price (marketData tick))
               (Z.quot balance 2) (now tick)
               (createSellSignal (tokenAddress options) (Z.quot balance 2)
                  "Take profit - selling half position" rt)).
Proof.
  intros Hstrict. unfold monitorToken.
  destruct (currentBalance tick) as [[balance|]|]; [|now left|now left].
  destruct (balance <=? 0)%Z; [now left|].
  destruct (negb (truthy (price (marketData tick)))); [now left|].
  destruct (performance tick); [|now left].
  match goal with
  | |- context [if ?stop then _ else _] => destruct stop
  end.
  { right. left. exists balance. split; reflexivity. }
  match goal with
  | |- context [if ?take then _ else _] => destruct take
  end.
  { right. right. exists balance. split; reflexivity. }
  left. cbn [fst].
  rewrite <- andb_assoc, (momentum_test _ Hstrict), andb_false_r.
  reflexivity.
Qed.

Lemma monitorToken_no_momentum_sell_witness :
  fst (monitorToken exampleConfig exampleOptions fadingTick emptyRuntime)
  = emptyRuntime.
Proof.
  destruct (monitorToken_no_momentum_sell exampleConfig exampleOptions
              fadingTick emptyRuntime float_ltb_irrefl)
    as [Hsame|[(balance & _ & Hstop)|(balance & _ & Htake)]].
  - exact Hsame.
  - exfalso. revert Hstop. vm_compute. intros Hstop. discriminate Hstop.
  - exfalso. revert Htake. vm_compute. intros Htake. discriminate Htake.
Defined.

End MomentumProperties.

(** ** The feeds and the ranking *)

Section FeedProperties.
Local Open Scope Q_scope.

Variable Math_sqrt : Q -> Q.
Variable numberText : Q -> string.
Variable getTokenMarketData : string -> TokenMarketData Q.

Lemma nltb_Q_irrefl (x : Q) : (x <? x)%js = false.
Proof. apply nltb_Q_false. lra. Qed.

(** With a signal line equal to the MACD line, the MACD rule adds nothing
    to the technical score. *)
Lemma scoreTechnicalSignals_same_macd (signals : TokenTechnicals Q) :
  signal (technicalMacd signals) = macd (technicalMacd signals) ->
  scoreTechnicalSignals (Some signals) <= 30.
Proof.
  intros Hsame. unfold scoreTechnicalSignals. rewrite Hsame.
  rewrite !nltb_Q_irrefl, !andb_false_r.
  repeat match goal with
         | |- context [if ?t then _ else _] => destruct t
         | |- context [match volumeProfile signals with _ => _ end] =>
             destruct (volumeProfile signals) as [[[] ?]|]
         end; cbn; lra.
Qed.

Lemma calculateAllTechnicalSignals_macd (marketData : TokenMarketData Q) :
  signal (technicalMacd (calculateAllTechnicalSignals Math_sqrt marketData))
  = macd (technicalMacd (calculateAllTechnicalSignals Math_sqrt marketData)).
Proof.
  unfold calculateAllTechnicalSignals.
  destruct (dataPriceHistory marketData); cbn [technicalMacd signal macd];
    [reflexivity|apply calculateMACD_signal].
Qed.

Lemma firstSignalFor_elem {N : Type} (address : string)
    (signals : list (FeedSignal N)) (first : FeedSignal N) :
  firstSignalFor address signals = Some first -> first ∈ signals.
Proof.
  unfold firstSignalFor. intros Hfind. apply find_some in Hfind.
  apply list_elem_of_In, Hfind.
Qed.

Lemma feedSignals_score (birdeye : Fetched (option (list TrendingToken)))
    (twitter : Fetched (option (list (TwitterSignal Q))))
    (cmc : Fetched (option (list (CmcToken Q)))) (first : FeedSignal Q) :
  first ∈ feedSignals Math_sqrt numberText getTokenMarketData
            birdeye twitter cmc ->
  tokenScore first <= 60.
Proof.
  unfold feedSignals. intros Hin.
  pose proof (scoreMarketMetrics_bounds (feedMarketCap first)
                (feedVolume24h first) (feedLiquidity first)) as Hmarket.
  apply elem_of_app in Hin. destruct Hin as [Hin|Hin];
    [|apply elem_of_app in Hin; destruct Hin as [Hin|Hin]].
  - destruct birdeye as [cached|]; cbn [getBirdeyeSignals] in Hin;
      [|apply elem_of_nil in Hin; contradiction].
    apply list_elem_of_In, in_map_iff in Hin.
    destruct Hin as (token & <- & _).
    unfold tokenScore in *.
    cbn [technicalSignals socialMetrics feedMarketCap feedVolume24h
         feedLiquidity] in *.
    pose proof (scoreTechnicalSignals_same_macd _
                  (calculateAllTechnicalSignals_macd
                     (getTokenMarketData (trendingAddress token)))).
    cbn [nadd lit Q_number] in *. lra.
  - destruct twitter as [cached|]; cbn [getTwitterSignals] in Hin;
      [|apply elem_of_nil in Hin; contradiction].
    apply list_elem_of_In, in_map_iff in Hin.
    destruct Hin as (tweet & <- & _).
    unfold tokenScore in *.
    cbn [technicalSignals socialMetrics feedMarketCap feedVolume24h
         feedLiquidity] in *.
    match goal with
    | |- context [scoreSocialMetrics ?m] =>
        pose proof (scoreSocialMetrics_bounds m)
    end.
    cbn [nadd lit Q_number] in *. lra.
  - destruct cmc as [cached|]; cbn [getCMCSignals] in Hin;
      [|apply elem_of_nil in Hin; contradiction].
    apply list_elem_of_In, in_map_iff in Hin.
    destruct Hin as (token & <- & _).
    unfold tokenScore in *.
    cbn [technicalSignals socialMetrics feedMarketCap feedVolume24h
         feedLiquidity] in *.
    cbn [nadd lit Q_number] in *. lra.
Qed.

(** X6: whatever the three feeds hold, every token that
    [scoreTokenSignals] returns for them has a score of exactly 60, the
    minimum: a Birdeye signal has technical signals only, whose MACD rule
    never scores (the signal line is the MACD line), a Twitter signal has
    social metrics only, a CoinMarketCap signal has neither, and only the
    first signal for an address is scored.  A token is therefore returned
    only if every partial score that it can have is at its maximum. *)
Theorem feed_tokens_score_60
    (birdeye : Fetched (option (list TrendingToken)))
    (twitter : Fetched (option (list (TwitterSignal Q))))
    (cmc : Fetched (option (list (CmcToken Q)))) (token : FeedSignal Q) :
  token ∈ scoreTokenSignals
            (feedSignals Math_sqrt numberText getTokenMarketData
               birdeye twitter cmc) ->
  feedScore token == 60.
Proof.
  intros Hin.
  destruct (scoreTokenSignals_elem _ _ Hin) as (grouped & Hgrouped & -> & Hmin).
  match type of Hgrouped with
  | _ ∈ groupSignals ?signals =>
      destruct (groupSignals_first signals) as [Hfirst _]
  end.
  destruct (Hfirst grouped Hgrouped) as (first & Hfind & Hsame).
  apply firstSignalFor_elem, feedSignals_score in Hfind.
  unfold meetsMinimum in Hmin.
  apply andb_prop in Hmin. destruct Hmin as [Hmin _].
  apply andb_prop in Hmin. destruct Hmin as [Hscore _].
  apply nleb_Q in Hscore. cbn [feedScore withScore] in *.
  rewrite (tokenScore_sameMetrics _ _ Hsame) in *.
  cbn [lit Q_number] in *. lra.
Qed.

End FeedProperties.

Lemma feed_tokens_score_60_witness :
  exists token,
    token ∈ scoreTokenSignals tweetFeed /\ feedScore token == 60.
Proof.
  assert (Hin : hd birdeyeExample (scoreTokenSignals tweetFeed)
                ∈ scoreTokenSignals tweetFeed)
    by (vm_compute; apply list_elem_of_here).
  exists (hd birdeyeExample (scoreTokenSignals tweetFeed)).
  split; [exact Hin|].
  exact (feed_tokens_score_60 _ _ _ _ _ _ _ Hin).
Defined.

(** ** The range of [calculateRSI] *)

Section RSIRange.
Local Open Scope Q_scope.

Lemma nondecreasing_false (prices : list Q) :
  nondecreasing prices = false ->
  exists i, (1 <= i < length prices)%nat
            /\ at_index prices i < at_index prices (i - 1).
Proof.
  induction prices as [|a prices IH]; [discriminate|].
  destruct prices as [|b prices]; [discriminate|].
  cbn [nondecreasing]. intros Hmono. apply andb_false_iff in Hmono.
  destruct Hmono as [Hab|Hrest].
  - exists 1%nat. split; [cbn; lia|]. cbn.
    apply Qnot_le_lt. intros Hle. apply Qle_bool_iff in Hle. congruence.
  - destruct (IH Hrest) as (i & Hi & Hlt). exists (S i).
    split; [cbn in Hi |- *; lia|].
    replace (S i - 1)%nat with (S (i - 1)) by lia. exact Hlt.
Qed.

(** A loop whose steps keep both sums at or above zero and add to the
    second one at a decrease. *)
Lemma fold_left_losses (step : Q * Q -> nat -> Q * Q) (decrease : nat -> Prop)
    (indices : list nat) (acc : Q * Q) :
  (forall acc i, 0 <= fst acc -> 0 <= snd acc ->
                 0 <= fst (step acc i) /\ 0 <= snd (step acc i)) ->
  (forall acc i, 0 <= fst acc -> 0 < snd acc -> 0 < snd (step acc i)) ->
  (forall acc i, 0 <= fst acc -> 0 <= snd acc -> decrease i ->
                 0 < snd (step acc i)) ->
  0 <= fst acc -> 0 <= snd acc ->
  (0 <= fst (fold_left step indices acc)
   /\ 0 <= snd (fold_left step indices acc))
  /\ (0 < snd acc \/ (exists i, In i indices /\ decrease i) ->
      0 < snd (fold_left step indices acc)).
Proof.
  intros Hkeep Hpositive Hdecrease. revert acc.
  induction indices as [|i indices IH]; intros acc Hgain Hloss; cbn.
  - split; [split; assumption|].
    intros [Hpos|(i & [] & _)]. exact Hpos.
  - destruct (Hkeep acc i Hgain Hloss) as [Hgain' Hloss'].
    destruct (IH (step acc i) Hgain' Hloss') as [Hrange Hpos].
    split; [exact Hrange|].
    intros [Hacc|(j & [<-|Hj] & Hdec)]; apply Hpos.
    + left. apply Hpositive; assumption.
    + left. apply Hdecrease; assumption.
    + right. exists j. split; assumption.
Qed.

Lemma Qdiv_nonneg (a b : Q) : 0 <= a -> 0 < b -> 0 <= a / b.
Proof. intros Ha Hb. apply Qle_shift_div_l; [exact Hb|lra]. Qed.

Lemma Qdiv_positive (a b : Q) : 0 < a -> 0 < b -> 0 < a / b.
Proof. intros Ha Hb. apply Qlt_shift_div_l; [exact Hb|lra]. Qed.

Lemma of_nat_Q (n : nat) : of_nat (N := Q) n = inject_Z (Z.of_nat n).
Proof. reflexivity. Qed.

Lemma inject_Z_of_nat_ge (n m : nat) :
  (m <= n)%nat -> inject_Z (Z.of_nat m) <= inject_Z (Z.of_nat n).
Proof. intros Hle. rewrite <- Zle_Qle. lia. Qed.

Lemma rsiAverages_losses (prices : list Q) (period : nat) :
  (2 <= period)%nat ->
  (period + 1 <= length prices)%nat ->
  nondecreasing prices = false ->
  0 <= fst (rsiAverages prices period)
  /\ 0 < snd (rsiAverages prices period).
Proof.
  intros Hperiod Hlen Hmono.
  destruct (nondecreasing_false prices Hmono) as (k & Hk & Hdrop).
  pose proof (inject_Z_of_nat_ge period 2 Hperiod) as Hp.
  change (inject_Z (Z.of_nat 2)) with 2 in Hp.
  set (decrease := fun i => at_index prices i < at_index prices (i - 1)).
  unfold rsiAverages, rsiInitial.
  match goal with
  | |- context [fold_left ?step (seq 1 period) ?acc] =>
      destruct (fold_left_losses step decrease (seq 1 period) acc)
        as [[Hgains Hlosses] Hinitial]
  end.
  { intros [gains losses] i Hg Hl. cbn [fst snd] in *.
    destruct (_ >=? _)%js eqn:Hchange; cbn [fst snd nadd nsub Q_number].
    - apply nleb_Q in Hchange. cbn in Hchange. split; lra.
    - apply nleb_Q_false in Hchange. cbn in Hchange. split; lra. }
  { intros [gains losses] i Hg Hl. cbn [fst snd] in *.
    destruct (_ >=? _)%js eqn:Hchange; cbn [fst snd nadd nsub Q_number].
    - exact Hl.
    - apply nleb_Q_false in Hchange. cbn in Hchange. lra. }
  { intros [gains losses] i Hg Hl Hdec. unfold decrease in Hdec.
    cbn [fst snd] in *.
    destruct (_ >=? _)%js eqn:Hchange; cbn [fst snd nadd nsub Q_number].
    - apply nleb_Q in Hchange. cbn in Hchange. lra.
    - lra. }
  { cbn. lra. }
  { cbn. lra. }
  match type of Hgains with
  | 0 <= fst ?initial => destruct initial as [gains losses]
  end.
  cbn [fst snd] in Hgains, Hlosses, Hinitial.
  match goal with
  | |- context [fold_left ?step ?indices ?acc] =>
      destruct (fold_left_losses step decrease indices acc)
        as [[Hgain Hloss] Hfinal]
  end.
  { intros [avgGain avgLoss] i Hg Hl. cbn [fst snd] in *.
    rewrite of_nat_Q.
    destruct (_ >=? _)%js eqn:Hchange;
      cbn [fst snd nadd nsub nmul ndiv lit Q_number].
    - apply nleb_Q in Hchange. cbn in Hchange.
      split; apply Qdiv_nonneg; nra.
    - apply nleb_Q_false in Hchange. cbn in Hchange.
      split; apply Qdiv_nonneg; nra. }
  { intros [avgGain avgLoss] i Hg Hl. cbn [fst snd] in *.
    rewrite of_nat_Q.
    destruct (_ >=? _)%js eqn:Hchange;
      cbn [fst snd nadd nsub nmul ndiv lit Q_number].
    - apply Qdiv_positive; nra.
    - apply nleb_Q_false in Hchange. cbn in Hchange.
      apply Qdiv_positive; nra. }
  { intros [avgGain avgLoss] i Hg Hl Hdec. unfold decrease in Hdec.
    cbn [fst snd] in *. rewrite of_nat_Q.
    destruct (_ >=? _)%js eqn:Hchange;
      cbn [fst snd nadd nsub nmul ndiv lit Q_number].
    - apply nleb_Q in Hchange. cbn in Hchange. lra.
    - apply Qdiv_positive; nra. }
  { cbn [fst ndiv Q_number]. rewrite of_nat_Q. apply Qdiv_nonneg; lra. }
  { cbn [snd ndiv Q_number]. rewrite of_nat_Q. apply Qdiv_nonneg; lra. }
  split; [exact Hgain|]. apply Hfinal.
  destruct (Nat.le_gt_cases k period) as [Hfirst|Hlater].
  - left. cbn [snd ndiv Q_number]. rewrite of_nat_Q.
    apply Qdiv_positive; [|lra]. apply Hinitial. right.
    exists k. split; [apply in_seq; lia|exact Hdrop].
  - right. exists k. split; [apply in_seq; lia|exact Hdrop].
Qed.

(** X7: for a period of at least 2 and a series of at least [period + 1]
    prices that falls somewhere ([prices[i] < prices[i - 1]] for some
    [i]), the divisor [avgLoss] of [calculateRSI] is above zero and the
    result lies in [0, 100): together with the non-decreasing case, the
    relative strength index is a number of that range exactly when the
    series has a fall. *)
Theorem calculateRSI_range (prices : list Q) (period : nat) :
  (2 <= period)%nat ->
  (period + 1 <= length prices)%nat ->
  nondecreasing prices = false ->
  0 < snd (rsiAverages prices period)
  /\ 0 <= calculateRSI prices period < 100.
Proof.
  intros Hperiod Hlen Hmono.
  destruct (rsiAverages_losses prices period Hperiod Hlen Hmono)
    as [Hgain Hloss].
  split; [exact Hloss|].
  unfold calculateRSI.
  destruct (Nat.ltb_spec (length prices) (period + 1)) as [|_]; [lia|].
  destruct (rsiAverages prices period) as [avgGain avgLoss].
  cbn [fst snd] in Hgain, Hloss. cbn [nadd nsub ndiv lit Q_number].
  pose proof (Qdiv_nonneg avgGain avgLoss Hgain Hloss) as Hrs.
  set (rs := avgGain / avgLoss) in *.
  assert (Hquot : 0 < 100 / (1 + rs) <= 100).
  { split.
    - apply Qdiv_positive; lra.
    - apply Qle_shift_div_r; [lra|nra]. }
  lra.
Qed.

Lemma calculateRSI_range_witness :
  0 <= calculateRSI (map inject_Z fadingPrices) 14 < 100.
Proof.
  apply (calculateRSI_range (map inject_Z fadingPrices) 14);
    [lia|cbn; lia|reflexivity].
Defined.

End RSIRange.

(** ** [validateConfiguration] *)

Section ConfigurationProperties.
Local Open Scope Q_scope.

Ltac config_tests :=
  repeat match goal with
         | |- context [(?a <? ?b)%js] =>
             let E := fresh "E" in
             destruct (a <? b)%js eqn:E;
             [apply nltb_Q in E|apply nltb_Q_false in E]
         | |- context [(?a <=? ?b)%js] =>
             let E := fresh "E" in
             destruct (a <=? b)%js eqn:E;
             [apply nleb_Q in E|apply nleb_Q_false in E]
         end.

Lemma validateConfiguration_ranges (config : ServiceConfig Q) :
  validConfiguration (validateConfiguration config).
Proof.
  destruct config as [[check sync monitor] [liquidity volume score]
                        [[size drawdown stop profit] slippage]].
  unfold validConfiguration, validateConfiguration, validateIntervals,
    validateThresholds, validateRiskLimits.
  cbn [intervals thresholds limits riskLimits priceCheck walletSync
       minLiquidity minVolume maxPositionSize maxDrawdown stopLossPercentage
       takeProfitPercentage].
  config_tests; cbn [orb lit Q_number] in *; repeat split; lra.
Qed.

Lemma validateConfiguration_fixed (config : ServiceConfig Q) :
  validConfiguration config -> validateConfiguration config = config.
Proof.
  destruct config as [[check sync monitor] [liquidity volume score]
                        [[size drawdown stop profit] slippage]].
  unfold validConfiguration, validateConfiguration, validateIntervals,
    validateThresholds, validateRiskLimits.
  cbn [intervals thresholds limits riskLimits slippageSettings priceCheck
       walletSync performanceMonitor minLiquidity minVolume minScore
       maxPositionSize maxDrawdown stopLossPercentage takeProfitPercentage].
  intros (Hcheck & Hsync & Hliquidity & Hvolume & Hsize & Hdrawdown & Hstop
          & Hprofit).
  config_tests; cbn [orb lit Q_number] in *; try reflexivity; lra.
Qed.

(** X8: in exact arithmetic [validateConfiguration] always ends with a
    configuration within its ranges (price check at least 10000 ms, wallet
    sync at least 60000 ms, positive minimal liquidity and volume, maximal
    position size and maximal drawdown in (0, 0.5], stop loss in (0, 50],
    positive take profit), it leaves a configuration within the ranges
    exactly as it is, so that validating twice is validating once, and it
    never changes the slippage settings, the performance interval or the
    minimal score.  In binary64 a limit that is NaN passes every test and
    stays. *)
Theorem validateConfiguration_valid (config : ServiceConfig Q) :
  validConfiguration (validateConfiguration config)
  /\ (validConfiguration config -> validateConfiguration config = config)
  /\ validateConfiguration (validateConfiguration config)
     = validateConfiguration config
  /\ slippageSettings (limits (validateConfiguration config))
     = slippageSettings (limits config)
  /\ performanceMonitor (intervals (validateConfiguration config))
     = performanceMonitor (intervals config)
  /\ minScore (thresholds (validateConfiguration config))
     = minScore (thresholds config)
  /\ validateConfiguration nanConfiguration = nanConfiguration.
Proof.
  split; [apply validateConfiguration_ranges|].
  split; [apply validateConfiguration_fixed|].
  split; [apply validateConfiguration_fixed, validateConfiguration_ranges|].
  split; [reflexivity|]. split; [reflexivity|]. split; [reflexivity|].
  vm_compute. reflexivity.
Qed.

End ConfigurationProperties.

(** ** [reduceRisk] *)

Section RiskReductionProperties.
Local Open Scope Q_scope.

Variable cfg : TradingConfig Q.
Variable getTradesForToken : string -> list (Trade Q).
Variable getTokenMarketData : string -> TokenMarketData Q.

Lemma sellWorst_prefix (totalValue drawdown : Q)
    (positions : list (PositionPerformance Q)) (remaining : Q) :
  exists sold kept,
    positions = sold ++ kept
    /\ sellWorst cfg totalValue drawdown positions remaining = map saleOf sold
    /\ (kept <> [] ->
        fold_left
          (fun remaining position =>
             remaining - (performanceValue position / totalValue) * drawdown)
          sold remaining
        <= maxDrawdown (riskLimits cfg) * 0.8)
    /\ (sold <> [] -> maxDrawdown (riskLimits cfg) * 0.8 < remaining).
Proof.
  revert remaining.
  induction positions as [|position rest IH]; intros remaining.
  - exists [], []. repeat split; intros Hne; contradiction.
  - cbn [sellWorst]. destruct (_ <=? _)%js eqn:Hstop.
    + apply nleb_Q in Hstop. exists [], (position :: rest).
      repeat split; [intros _; exact Hstop|intros Hne; contradiction].
    + apply nleb_Q_false in Hstop.
      destruct (IH (remaining
                    - (performanceValue position / totalValue) * drawdown)%js)
        as (sold & kept & -> & Hsales & Hkept & _).
      exists (position :: sold), kept. split; [reflexivity|].
      split; [cbn [map]; rewrite Hsales; reflexivity|].
      split; [exact Hkept|intros _; exact Hstop].
Qed.

Lemma StronglySorted_app_le {A : Type} (key : A -> Q) (l k : list A) :
  StronglySorted (fun a b => key a <= key b) (l ++ k) ->
  forall a b, a ∈ l -> b ∈ k -> key a <= key b.
Proof.
  induction l as [|x l IH]; cbn; intros Hsorted a b Ha Hb.
  - apply elem_of_nil in Ha. contradiction.
  - apply StronglySorted_inv in Hsorted. destruct Hsorted as [Hrest Hx].
    apply elem_of_cons in Ha. destruct Ha as [->|Ha].
    + rewrite List.Forall_forall in Hx. apply Hx, in_or_app. right.
      apply list_elem_of_In, Hb.
    + apply (IH Hrest a b Ha Hb).
Qed.

Lemma positionPerformance_entry (entry : string * Position Q)
    (position : PositionPerformance Q) :
  positionPerformance getTradesForToken getTokenMarketData entry
  = Some position ->
  getTradesForToken (performanceToken position) <> []
  /\ entry = (performanceToken position,
              {| amount := performanceAmount position;
                 value := performanceValue position |}).
Proof.
  destruct entry as [tokenAddress [amount value]]. unfold positionPerformance.
  destruct (getTradesForToken tokenAddress) as [|trade trades] eqn:Htrades;
    [discriminate|].
  intros Hsome. injection Hsome as <-. cbn. rewrite Htrades.
  split; [discriminate|reflexivity].
Qed.

(** X9: [reduceRisk] sells worst first and whole positions.  The positions
    with a recorded trade split into those sold and those kept: a sell is
    created for each one sold, for its whole amount; no position sold
    performs better than one kept; positions without a recorded trade are
    never sold; nothing is sold unless the drawdown is above 80% of the
    maximum; and when a position is kept, the drawdown that the loop
    counts as remaining is at most 80% of the maximum. *)
Theorem reduceRisk_worst_first (entries : list (string * Position Q))
    (portfolio : PortfolioStatus Q) :
  exists sold kept,
    Permutation (sold ++ kept)
      (omap (positionPerformance getTradesForToken getTokenMarketData)
            entries)
    /\ reduceRisk cfg getTradesForToken getTokenMarketData entries portfolio
       = map saleOf sold
    /\ (forall s k, s ∈ sold -> k ∈ kept ->
                    performanceOf s <= performanceOf k)
    /\ (forall s, s ∈ sold ->
          getTradesForToken (performanceToken s) <> []
          /\ (performanceToken s,
              {| amount := performanceAmount s;
                 value := performanceValue s |}) ∈ entries)
    /\ (sold <> [] ->
        maxDrawdown (riskLimits cfg) * 0.8 < drawdown portfolio)
    /\ (kept <> [] ->
        remainingAfter (totalValue portfolio) (drawdown portfolio) sold
        <= maxDrawdown (riskLimits cfg) * 0.8).
Proof.
  unfold reduceRisk.
  set (tracked := omap _ entries).
  set (compare := fun a b : PositionPerformance Q =>
                    (performanceOf a - performanceOf b)%js).
  destruct (sellWorst_prefix (totalValue portfolio) (drawdown portfolio)
              (sortWith compare tracked) (drawdown portfolio))
    as (sold & kept & Hsplit & Hsales & Hkept & Hsold).
  assert (Hperm : Permutation (sold ++ kept) tracked).
  { rewrite <- Hsplit. symmetry. apply sortWith_Permutation. }
  exists sold, kept. split; [exact Hperm|]. split; [exact Hsales|].
  split; [|split; [|split; [exact Hsold|exact Hkept]]].
  - apply (StronglySorted_app_le performanceOf). rewrite <- Hsplit.
    apply (sortWith_sorted compare performanceOf).
    intros a b. unfold compare. rewrite nltb_Q. cbn [nsub lit Q_number].
    split; intros; lra.
  - intros s Hs.
    assert (Htracked : s ∈ tracked).
    { apply list_elem_of_In, (Permutation_in _ Hperm), in_or_app. left.
      apply list_elem_of_In, Hs. }
    unfold tracked in Htracked. apply list_elem_of_omap in Htracked.
    destruct Htracked as (entry & Hentry & Hposition).
    apply positionPerformance_entry in Hposition.
    destruct Hposition as [Htrades <-]. split; [exact Htrades|exact Hentry].
Qed.

(** X10: a portfolio status computed while no high-water mark is cached
    reports a drawdown of 0, so that (for a maximal drawdown that is not
    negative) neither [monitorPerformance] nor a direct call of
    [reduceRisk] sells anything, whatever the positions are worth. *)
Theorem no_mark_no_risk_reduction (wallet : Fetched Q)
    (monitoredTokens : list (Holding Q))
    (entries : list (string * Position Q)) :
  0 <= maxDrawdown (riskLimits cfg) ->
  drawdown (getPortfolioStatus wallet monitoredTokens None) == 0
  /\ monitorPerformanceSales cfg getTradesForToken getTokenMarketData entries
       (getPortfolioStatus wallet monitoredTokens None) = []
  /\ reduceRisk cfg getTradesForToken getTokenMarketData entries
       (getPortfolioStatus wallet monitoredTokens None) = [].
Proof.
  intros Hmax.
  assert (Hzero : drawdown (getPortfolioStatus wallet monitoredTokens None)
                  = 0).
  { unfold getPortfolioStatus. destruct wallet as [solBalance|];
      [|reflexivity].
    destruct (fold_left addHolding monitoredTokens (∅, solBalance))
      as [positions total].
    reflexivity. }
  split; [rewrite Hzero; reflexivity|].
  assert (Hnone : reduceRisk cfg getTradesForToken getTokenMarketData entries
                    (getPortfolioStatus wallet monitoredTokens None) = []).
  { unfold reduceRisk. rewrite Hzero.
    destruct (sortWith _ _) as [|position rest]; [reflexivity|].
    cbn [sellWorst].
    assert (Hstop : (0 <=? maxDrawdown (riskLimits cfg) * lit 0.8)%js = true)
      by (apply nleb_Q; cbn [nmul lit Q_number]; lra).
    rewrite Hstop. reflexivity. }
  split; [|exact Hnone].
  unfold monitorPerformanceSales. rewrite Hnone.
  destruct (_ >? _)%js; reflexivity.
Qed.

End RiskReductionProperties.

Lemma no_mark_no_risk_reduction_witness :
  reduceRisk defaultConfig tradesExample marketExample entriesExample
    (getPortfolioStatus (Got 150%Q) [] None) = [].
Proof.
  apply (no_mark_no_risk_reduction defaultConfig tradesExample marketExample
           (Got 150%Q) [] entriesExample).
  vm_compute. discriminate.
Defined.

(** With a drawdown of 40% the position with a recorded trade is sold and
    the one without is kept. *)
Example reduceRisk_example :
  reduceRisk defaultConfig tradesExample marketExample entriesExample
    portfolioExample
  = [{| saleToken := "TokenA"; saleAmount := 100%Q;
        saleReason := "Risk reduction - drawdown exceeded" |}].
Proof. vm_compute. reflexivity. Qed.

(** ** Runs of [calculateDrawdown] *)

Section DrawdownRuns.
Local Open Scope Q_scope.

Lemma drawdownRun_snoc (entry : option Q) (totals : list Q) (total : Q) :
  drawdownRun entry (totals ++ [total])
  = (fst (calculateDrawdown (fst (drawdownRun entry totals)) total),
     snd (drawdownRun entry totals)
     ++ [snd (calculateDrawdown (fst (drawdownRun entry totals)) total)]).
Proof.
  unfold drawdownRun. rewrite fold_left_app. cbn [fold_left].
  destruct (fold_left _ totals (entry, [])) as [entry' drawdowns].
  cbn [fst snd]. destruct (calculateDrawdown entry' total). reflexivity.
Qed.

(** X11: successive calls of [calculateDrawdown].  Starting without a
    cached mark, no call ever stores one, since the mark defaults to the
    current total, which is never above itself; every call then returns 0
    when the totals are not zero.  For a total of zero the quotient is
    [0 / 0], which is NaN in binary64.  Starting from a positive mark, the
    entry afterwards is the largest of the mark and the totals seen, and
    every drawdown returned is at least 0, and at most 1 when the totals
    are not negative. *)
Theorem calculateDrawdown_runs (totals : list Q) :
  (fst (drawdownRun None totals) = None
   /\ (Forall (fun total => ~ total == 0) totals ->
       Forall (fun drawdown => drawdown == 0)
         (snd (drawdownRun None totals)))
   /\ fst (calculateDrawdown None 0%float) = None
   /\ float_is_nan (snd (calculateDrawdown None 0%float)) = true)
  /\ (forall hwm, 0 < hwm ->
        exists mark,
          fst (drawdownRun (Some hwm) totals) = Some mark
          /\ hwm <= mark
          /\ Forall (fun total => total <= mark) totals
          /\ (mark = hwm \/ mark ∈ totals)
          /\ Forall (fun drawdown => 0 <= drawdown)
               (snd (drawdownRun (Some hwm) totals))
          /\ (Forall (fun total => 0 <= total) totals ->
              Forall (fun drawdown => drawdown <= 1)
                (snd (drawdownRun (Some hwm) totals)))).
Proof.
  split.
  - assert (Hrun : fst (drawdownRun None totals) = None
                   /\ (Forall (fun total => ~ total == 0) totals ->
                       Forall (fun drawdown => drawdown == 0)
                         (snd (drawdownRun None totals)))).
    { induction totals as [|total totals [IHentry IHzero]] using rev_ind.
      - split; [reflexivity|intros _; constructor].
      - rewrite drawdownRun_snoc, IHentry. unfold calculateDrawdown.
        rewrite nltb_Q_irrefl. cbn [fst snd]. split; [reflexivity|].
        intros Hnonzero. apply Forall_app in Hnonzero.
        destruct Hnonzero as [Hnonzero Htotal]. apply Forall_inv in Htotal.
        apply Forall_app. split; [exact (IHzero Hnonzero)|].
        constructor; [|constructor]. cbn [nsub ndiv Q_number]. field.
        exact Htotal. }
    destruct Hrun as [Hentry Hzero].
    split; [exact Hentry|]. split; [exact Hzero|].
    split; vm_compute; reflexivity.
  - intros hwm Hpos.
    induction totals as [|total totals IH] using rev_ind.
    + exists hwm. cbn.
      split; [reflexivity|]. split; [lra|]. split; [constructor|].
      split; [now left|]. split; [constructor|]. intros _. constructor.
    + destruct IH as (mark & Hentry & Hmark & Hbelow & Hfrom & Hlow & Hhigh).
      rewrite drawdownRun_snoc, Hentry. unfold calculateDrawdown.
      assert (Htruthy : truthy mark = true) by (apply truthy_Q; lra).
      rewrite Htruthy. destruct (nltb mark total) eqn:Hcmp.
      * apply nltb_Q in Hcmp. exists total. cbn [fst snd].
        split; [reflexivity|]. split; [lra|].
        split.
        { apply Forall_app. split; [|constructor; [lra|constructor]].
          revert Hbelow. apply List.Forall_impl. intros t Ht. lra. }
        split; [right; apply elem_of_app; right; apply list_elem_of_here|].
        split.
        { apply Forall_app. split; [exact Hlow|].
          constructor; [cbn; lra|constructor]. }
        intros Htotals. apply Forall_app in Htotals.
        destruct Htotals as [Htotals _].
        apply Forall_app. split; [exact (Hhigh Htotals)|].
        constructor; [cbn; lra|constructor].
      * apply nltb_Q_false in Hcmp. exists mark. cbn [fst snd].
        split; [reflexivity|]. split; [exact Hmark|].
        split.
        { apply Forall_app. split; [exact Hbelow|].
          constructor; [exact Hcmp|constructor]. }
        split.
        { destruct Hfrom as [->|Hin]; [now left|].
          right. apply elem_of_app. now left. }
        split.
        { apply Forall_app. split; [exact Hlow|].
          constructor; [|constructor]. cbn [nsub ndiv Q_number].
          apply Qle_shift_div_l; lra. }
        intros Htotals. apply Forall_app in Htotals.
        destruct Htotals as [Htotals Htotal].
        apply Forall_app. split; [exact (Hhigh Htotals)|].
        constructor; [|constructor]. cbn [nsub ndiv Q_number].
        apply Forall_inv in Htotal.
        apply Qle_shift_div_r; lra.
Qed.

End DrawdownRuns.

Lemma calculateDrawdown_runs_witness :
  Forall (fun drawdown => drawdown == 0)%Q
    (snd (drawdownRun None [150%Q; 120%Q]))
  /\ exists mark,
       fst (drawdownRun (Some 100%Q) [150%Q; 120%Q]) = Some mark
       /\ (100 <= mark)%Q.
Proof.
  assert (Hpos : (0 < 100)%Q) by reflexivity.
  assert (Hnonzero : Forall (fun total => ~ total == 0)%Q [150%Q; 120%Q])
    by (repeat constructor; intros Hzero; discriminate Hzero).
  destruct (calculateDrawdown_runs [150%Q; 120%Q])
    as [(_ & Hzero & _) Hmarked].
  split; [exact (Hzero Hnonzero)|].
  destruct (Hmarked 100%Q Hpos) as (mark & Hentry & Hmark & _).
  exists mark. split; [exact Hentry|exact Hmark].
Defined.

Lemma validateConfiguration_valid_witness :
  validateConfiguration (N := Q) initialConfiguration = initialConfiguration.
Proof.
  apply (validateConfiguration_valid initialConfiguration).
  vm_compute. repeat split; discriminate.
Defined.

(** ** Slippage recalibration *)

Section SlippageOptimizerProperties.
Local Open Scope Q_scope.

Lemma floorIndexQ_quartiles : quartileIndices floorIndexQ.
Proof.
  intros n Hn. unfold floorIndexQ.
  assert (Hpos : 0 < inject_Z (Z.of_nat n)).
  { change 0 with (inject_Z 0). rewrite <- Zlt_Qlt. lia. }
  set (x := inject_Z (Z.of_nat n)) in *.
  assert (Hlow : (0 <= Qfloor (x * 0.25))%Z).
  { change 0%Z with (Qfloor 0). apply Qfloor_resp_le. nra. }
  assert (Hmono : (Qfloor (x * 0.25) <= Qfloor (x * 0.75))%Z)
    by (apply Qfloor_resp_le; nra).
  assert (Hhigh : (Qfloor (x * 0.75) < Z.of_nat n)%Z).
  { rewrite Zlt_Qlt. fold x.
    apply Qle_lt_trans with (x * 0.75); [apply Qfloor_le|nra]. }
  split; lia.
Qed.

Lemma sum_bounds (values : list Q) (low high start : Q) :
  Forall (fun v => low <= v <= high) values ->
  start + inject_Z (Z.of_nat (length values)) * low
  <= fold_left (fun sum val => (sum + val)%js) values start
  <= start + inject_Z (Z.of_nat (length values)) * high.
Proof.
  intros Hall. revert start.
  induction Hall as [|v values Hv _ IH]; intros start.
  - cbn [fold_left length]. change (inject_Z (Z.of_nat 0)) with 0. lra.
  - cbn [fold_left length]. specialize (IH (start + v)%js).
    rewrite Nat2Z.inj_succ, <- Z.add_1_r, inject_Z_plus.
    cbn [nadd Q_number] in *. change (inject_Z 1) with 1. lra.
Qed.

Lemma mean_bounds (values : list Q) (low high : Q) :
  values <> [] ->
  Forall (fun v => low <= v <= high) values ->
  low
  <= fold_left (fun sum val => (sum + val)%js) values 0
     / inject_Z (Z.of_nat (length values))
  <= high.
Proof.
  intros Hne Hall. pose proof (sum_bounds values low high 0 Hall) as Hsum.
  assert (Hlen : 0 < inject_Z (Z.of_nat (length values))).
  { change 0 with (inject_Z 0). rewrite <- Zlt_Qlt.
    destruct values; [contradiction|cbn; lia]. }
  split.
  - apply Qle_shift_div_l; [exact Hlen|lra].
  - apply Qle_shift_div_r; [exact Hlen|lra].
Qed.

Lemma StronglySorted_at_index (sorted : list Q) (i j : nat) :
  StronglySorted (fun a b => a <= b) sorted ->
  (i <= j < length sorted)%nat ->
  at_index sorted i <= at_index sorted j.
Proof.
  intros Hsorted. revert i j.
  induction Hsorted as [|x sorted Hsorted IH Hx]; intros i j Hij.
  - cbn in Hij. lia.
  - destruct i as [|i], j as [|j]; cbn in Hij |- *; try lia; try lra.
    + rewrite List.Forall_forall in Hx. apply Hx, nth_In. lia.
    + apply IH. lia.
Qed.

Section Efficiency.

Variable floorIndex : nat -> Q -> nat.
Hypothesis floorIndex_quartiles : quartileIndices floorIndex.

(** X12: for a non-empty list of records that all used a slippage other
    than zero, the value that [calculateAverageSlippageEfficiency] returns
    is the mean of a non-empty selection of their efficiencies, the lower
    quartile being always selected: it lies between two efficiencies of
    the records.  (A record that used a slippage of zero has an infinite
    or undefined efficiency in binary64, and the result is then NaN.) *)
Theorem calculateAverageSlippageEfficiency_between
    (records : list (SlippageRecord Q)) :
  records <> [] ->
  Forall (fun record => ~ slippageBpsUsed record == 0) records ->
  exists low high,
    low ∈ efficienciesOf records
    /\ high ∈ efficienciesOf records
    /\ low <= calculateAverageSlippageEfficiency floorIndex records <= high.
Proof using floorIndex_quartiles.
  intros Hne _. unfold calculateAverageSlippageEfficiency.
  destruct records as [|record records]; [contradiction|].
  set (all := record :: records).
  change (map _ all) with (efficienciesOf all).
  set (efficiencies := efficienciesOf all).
  set (compare := fun a b : Q => (a - b)%js).
  set (sorted := sortWith compare efficiencies).
  assert (Hperm : Permutation efficiencies sorted)
    by apply sortWith_Permutation.
  assert (Hsorted : StronglySorted (fun a b => a <= b) sorted).
  { apply (sortWith_sorted compare (fun a => a)). intros a b.
    unfold compare. rewrite nltb_Q. cbn [nsub lit Q_number].
    split; intros; lra. }
  assert (Hlength : (0 < length sorted)%nat).
  { rewrite <- (Permutation_length Hperm). unfold efficiencies, efficienciesOf.
    rewrite length_map. cbn. lia. }
  destruct (floorIndex_quartiles (length sorted) Hlength) as [Horder Hwithin].
  set (q1 := at_index sorted (floorIndex (length sorted) 0.25)).
  set (q3 := at_index sorted (floorIndex (length sorted) 0.75)).
  assert (Hq : q1 <= q3)
    by (apply StronglySorted_at_index; [exact Hsorted|lia]).
  set (keep := fun e : Q => ((e >=? q1 - lit 1.5 * (q3 - q1))
                             && (e <=? q3 + lit 1.5 * (q3 - q1)))%js).
  set (filtered := List.filter keep efficiencies).
  assert (Hq1 : q1 ∈ filtered).
  { apply list_elem_of_In, filter_In. split.
    - apply (Permutation_in _ (Permutation_sym Hperm)), nth_In. lia.
    - unfold keep. apply andb_true_iff.
      split; apply nleb_Q; cbn [nadd nsub nmul lit Q_number]; lra. }
  assert (Hfiltered : filtered <> []).
  { intros Hnil. rewrite Hnil in Hq1. apply elem_of_nil in Hq1. exact Hq1. }
  assert (Hbounds : exists low high,
             low ∈ filtered /\ high ∈ filtered
             /\ Forall (fun v => low <= v <= high) filtered).
  { clear Hq1. induction filtered as [|v rest IH]; [contradiction|].
    destruct rest as [|w rest].
    - exists v, v. split; [apply list_elem_of_here|].
      split; [apply list_elem_of_here|]. constructor; [lra|constructor].
    - destruct IH as (low & high & Hlow & Hhigh & Hall); [discriminate|].
      exists (if Qlt_le_dec v low then v else low),
             (if Qlt_le_dec high v then v else high).
      split; [destruct (Qlt_le_dec v low);
              [apply list_elem_of_here|apply list_elem_of_further, Hlow]|].
      split; [destruct (Qlt_le_dec high v);
              [apply list_elem_of_here|apply list_elem_of_further, Hhigh]|].
      assert (Hlh : low <= high).
      { pose proof Hall as Hall'. rewrite List.Forall_forall in Hall'.
        apply list_elem_of_In in Hlow. specialize (Hall' _ Hlow). lra. }
      constructor.
      + destruct (Qlt_le_dec v low), (Qlt_le_dec high v); lra.
      + revert Hall. apply List.Forall_impl. intros u Hu.
        destruct (Qlt_le_dec v low), (Qlt_le_dec high v); lra. }
  destruct Hbounds as (low & high & Hlow & Hhigh & Hall).
  exists low, high.
  assert (Hsub : forall e, e ∈ filtered -> e ∈ efficiencies).
  { intros e He. apply list_elem_of_In, filter_In in He.
    apply list_elem_of_In, He. }
  split; [apply Hsub, Hlow|]. split; [apply Hsub, Hhigh|].
  apply (mean_bounds filtered low high Hfiltered Hall).
Qed.

End Efficiency.

Lemma adjustMultiplier_within (efficiency multiplier : Q) :
  0.5 <= multiplier <= 2 ->
  0.5 <= adjustMultiplier efficiency multiplier <= 2
  /\ 0.9 * multiplier <= adjustMultiplier efficiency multiplier
     <= 1.1 * multiplier.
Proof.
  intros Hm. unfold adjustMultiplier.
  destruct (_ >? _)%js; [|destruct (_ <? _)%js].
  - destruct (Math_max_Q (lit 0.5) (multiplier * lit 0.9)%js)
      as (H1 & H2 & [E|E]); rewrite E in *; cbn [nmul lit Q_number] in *; lra.
  - destruct (Math_min_Q (lit 2.0) (multiplier * lit 1.1)%js)
      as (H1 & H2 & [E|E]); rewrite E in *; cbn [nmul lit Q_number] in *; lra.
  - lra.
Qed.

Lemma maybeOptimizeSlippageParameters_step (floorIndex : nat -> Q -> nat)
    (now : Z) (last : option Z) (records : list (SlippageRecord Q))
    (settings : SlippageSettings Q) :
  multipliersWithin settings ->
  let after :=
    maybeOptimizeSlippageParameters floorIndex now last records settings in
  multipliersWithin (fst after)
  /\ baseSlippage (fst after) = baseSlippage settings
  /\ maxSlippage (fst after) = maxSlippage settings
  /\ 0.9 * liquidityMultiplier settings <= liquidityMultiplier (fst after)
     <= 1.1 * liquidityMultiplier settings
  /\ 0.9 * volumeMultiplier settings <= volumeMultiplier (fst after)
     <= 1.1 * volumeMultiplier settings.
Proof.
  intros [Hliquidity Hvolume]. unfold maybeOptimizeSlippageParameters.
  assert (Hsame : multipliersWithin settings
                  /\ baseSlippage settings = baseSlippage settings
                  /\ maxSlippage settings = maxSlippage settings
                  /\ 0.9 * liquidityMultiplier settings
                     <= liquidityMultiplier settings
                     <= 1.1 * liquidityMultiplier settings
                  /\ 0.9 * volumeMultiplier settings
                     <= volumeMultiplier settings
                     <= 1.1 * volumeMultiplier settings).
  { unfold multipliersWithin. repeat split; lra. }
  cbv zeta.
  destruct (match last with Some _ => _ | None => _ end); [exact Hsame|].
  destruct (length records <? 10)%nat; [exact Hsame|].
  destruct (length (List.filter _ records) <? 10)%nat; [exact Hsame|].
  cbn [fst baseSlippage maxSlippage liquidityMultiplier volumeMultiplier].
  unfold multipliersWithin.
  cbn [liquidityMultiplier volumeMultiplier].
  repeat match goal with
         | |- context [if (5 <=? ?n)%nat then _ else _] =>
             destruct (5 <=? n)%nat
         end;
    repeat match goal with
           | |- context [adjustMultiplier ?e ?m] =>
               let H := fresh "Hadjust" in
               assert (H := adjustMultiplier_within e m ltac:(assumption));
               destruct H as [? ?];
               generalize dependent (adjustMultiplier e m); intros
           end;
    repeat split; try reflexivity; lra.
Qed.

(** X13: a run of [maybeOptimizeSlippageParameters] never changes the base
    and the maximal slippage and moves each multiplier by at most a tenth;
    multipliers within [0.5, 2] stay within [0.5, 2], over any number of
    runs, whatever records the runs find.  A run less than 24 hours after
    the last one, or one that finds fewer than ten records, changes
    neither the settings nor the recorded time. *)
Theorem maybeOptimizeSlippageParameters_invariant
    (floorIndex : nat -> Q -> nat)
    (runs : list (Z * list (SlippageRecord Q)))
    (settings : SlippageSettings Q) (last : option Z) :
  multipliersWithin settings ->
  (multipliersWithin (fst (recalibrations floorIndex runs (settings, last)))
   /\ baseSlippage (fst (recalibrations floorIndex runs (settings, last)))
      = baseSlippage settings
   /\ maxSlippage (fst (recalibrations floorIndex runs (settings, last)))
      = maxSlippage settings)
  /\ (forall now records,
        let after :=
          maybeOptimizeSlippageParameters floorIndex now last records
            settings in
        0.9 * liquidityMultiplier settings <= liquidityMultiplier (fst after)
        <= 1.1 * liquidityMultiplier settings
        /\ 0.9 * volumeMultiplier settings <= volumeMultiplier (fst after)
           <= 1.1 * volumeMultiplier settings)
  /\ (forall now previous records,
        last = Some previous -> previous <> 0%Z ->
        (now - previous < 86400000)%Z ->
        maybeOptimizeSlippageParameters floorIndex now last records settings
        = (settings, last))
  /\ (forall now records,
        (length records < 10)%nat ->
        maybeOptimizeSlippageParameters floorIndex now last records settings
        = (settings, last)).
Proof.
  intros Hwithin. split; [|split; [|split]].
  - unfold recalibrations. revert settings last Hwithin.
    induction runs as [|[now records] runs IH]; intros settings last Hwithin.
    + cbn. repeat split; apply Hwithin.
    + cbn [fold_left fst snd].
      destruct (maybeOptimizeSlippageParameters_step floorIndex now last
                  records settings Hwithin)
        as (Hafter & Hbase & Hmax & _).
      destruct (maybeOptimizeSlippageParameters floorIndex now last records
                  settings) as [settings' last'].
      cbn [fst] in Hafter, Hbase, Hmax.
      destruct (IH settings' last' Hafter) as (H1 & H2 & H3).
      split; [exact H1|]. split; congruence.
  - intros now records.
    destruct (maybeOptimizeSlippageParameters_step floorIndex now last
                records settings Hwithin) as (_ & _ & _ & H1 & H2).
    split; assumption.
  - intros now previous records -> Hnonzero Hrecent.
    unfold maybeOptimizeSlippageParameters.
    destruct (Z.eqb_spec previous 0) as [|_]; [contradiction|].
    destruct (Z.ltb_spec (now - previous) (24 * 60 * 60 * 1000)) as [_|Hge];
      [reflexivity|lia].
  - intros now records Hfew. unfold maybeOptimizeSlippageParameters.
    destruct (match last with Some _ => _ | None => _ end); [reflexivity|].
    destruct (Nat.ltb_spec (length records) 10) as [_|Hge];
      [reflexivity|lia].
Qed.

End SlippageOptimizerProperties.

Lemma calculateAverageSlippageEfficiency_between_witness :
  exists low high,
    low ∈ efficienciesOf spentRecords
    /\ high ∈ efficienciesOf spentRecords
    /\ (low <= calculateAverageSlippageEfficiency floorIndexQ spentRecords
        <= high)%Q.
Proof.
  apply (calculateAverageSlippageEfficiency_between floorIndexQ
           floorIndexQ_quartiles spentRecords).
  - discriminate.
  - unfold spentRecords. apply Forall_forall. intros record Hin.
    apply list_elem_of_In, repeat_spec in Hin. subst record.
    intros Hzero. discriminate Hzero.
Defined.

(** One record of a trade that used a slippage of zero, in binary64: its
    efficiency is infinite, the bounds of the filter are NaN, nothing
    passes the filter and the result is [0 / 0].  (For one record both
    quartile indices are 0.) *)
Example calculateAverageSlippageEfficiency_zero_slippage :
  float_is_nan
    (calculateAverageSlippageEfficiency (fun _ _ => 0%nat)
       [{| recordTimestamp := 1000; recordLiquidity := 5000%float;
           recordVolume24h := 100%float; actualSlippageBps := 50%float;
           slippageBpsUsed := 0%float |}])
  = true.
Proof. vm_compute. reflexivity. Qed.

Lemma maybeOptimizeSlippageParameters_invariant_witness :
  multipliersWithin
    (fst (recalibrations floorIndexQ [(86400000%Z, spentRecords)]
            (slippageSettings defaultConfig, None))).
Proof.
  assert (Hwithin : multipliersWithin (slippageSettings (N := Q) defaultConfig))
    by (vm_compute; repeat split; discriminate).
  destruct (maybeOptimizeSlippageParameters_invariant floorIndexQ
              [(86400000%Z, spentRecords)] (slippageSettings defaultConfig)
              None Hwithin) as [[Hafter _] _].
  exact Hafter.
Defined.

(** The run of the witness lowers the liquidity multiplier from 1 to 0.9
    and records its time. *)
Example maybeOptimizeSlippageParameters_example :
  let after :=
    maybeOptimizeSlippageParameters floorIndexQ 86400000 None spentRecords
      (slippageSettings defaultConfig) in
  (liquidityMultiplier (fst after) == 0.9)%Q
  /\ (volumeMultiplier (fst after) == 1)%Q
  /\ snd after = Some 86400000%Z.
Proof. vm_compute. repeat split. Qed.

(** ** [executeSellTask] *)

Section SellTaskProperties.
Local Open Scope Z_scope.

(** [handleSellSignal] never throws: the [try] of [executeSellTask] around
    it changes nothing. *)
Lemma handleSellSignal_caught (t : string) (amount : option Z)
    (calls : SellCalls) (m : gmap string Z) :
  perform calls (try_catch (handleSellSignal t amount) (ret false)) m
  = perform calls (handleSellSignal t amount) m.
Proof.
  destruct amount as [a|]; [|reflexivity].
  destruct calls as [quote wallet sell].
  destruct quote as [[]|]; [|reflexivity].
  destruct wallet as [[[]|]|]; try reflexivity.
  destruct sell as [[[] [sig|]]|]; reflexivity.
Qed.

Lemma sold_success (calls : SellCalls) :
  sold calls = true ->
  exists result,
    walletSell calls = Got result /\ success result = true
    /\ signature result <> None.
Proof.
  unfold sold. destruct calls as [quote wallet sell].
  cbn [getQuote getWallet walletSell].
  destruct quote as [[]|]; [|discriminate].
  destruct wallet as [[[]|]|]; try discriminate.
  destruct sell as [result|]; [|discriminate].
  intros Hsold. apply andb_true_iff in Hsold. destruct Hsold as [Hok Hsig].
  apply bool_decide_eq_true_1 in Hsig.
  exists result. repeat split; assumption.
Qed.

(** X14: [executeSellTask] with [handleSellSignal], for every task and
    every behaviour of the quote, the wallet and the sell, in exact
    arithmetic.  The task never throws and leaves the pending-sells counter
    as it found it, and it reports success only for an amount that
    [BigInt] accepts and that is above zero, when [wallet.sell] succeeded
    with a signature; where [Number] gives the amount and the stated
    balance exactly (integers of magnitude at most 2^53), the amount is
    then not above the stated balance. *)
Theorem executeSellTask_counter (signal : option (SellTaskSignal Q))
    (calls : SellCalls) (pendingSells : gmap string Z) :
  positiveEntries pendingSells ->
  let run := perform calls (executeSellTask signal) pendingSells in
  counterAfter run = pendingSells
  /\ (exists result, completion run = Returns result)
  /\ (completion run = Returns true ->
      exists task amount result,
        signal = Some task
        /\ signalAmount task = integerText amount
        /\ 0 < amount
        /\ (hasText (signalBalance task) = true ->
            exactNumber (signalAmount task) ->
            exactNumber (signalBalance task) ->
            (inject_Z amount <= Number_of (signalBalance task))%Q)
        /\ walletSell calls = Got result
        /\ success result = true
        /\ signature result <> None).
Proof.
  intros Hpos run. unfold run, executeSellTask.
  assert (Hrejected :
            let run :=
              perform calls (try_catch (ret false) (ret false))
                pendingSells in
            counterAfter run = pendingSells
            /\ (exists result, completion run = Returns result)
            /\ (completion run = Returns true ->
                exists task amount result,
                  signal = Some task
                  /\ signalAmount task = integerText amount
                  /\ 0 < amount
                  /\ (hasText (signalBalance task) = true ->
                      exactNumber (signalAmount task) ->
                      exactNumber (signalBalance task) ->
                      (inject_Z amount <= Number_of (signalBalance task))%Q)
                  /\ walletSell calls = Got result
                  /\ success result = true
                  /\ signature result <> None)).
  { split; [reflexivity|]. split; [exists false; reflexivity|].
    cbn. intros Habsurd. discriminate Habsurd. }
  destruct signal as [[token amount balance]|]; [|exact Hrejected].
  cbn [signalToken signalAmount signalBalance].
  destruct amount as [z|number|];
    cbn [hasText negb orb Number_of BigInt_of]; [| |exact Hrejected].
  - destruct (lit 0 >=? of_Z z)%js eqn:Hpositive; [exact Hrejected|].
    apply nleb_Q_false in Hpositive.
    change (lit 0)%js with (inject_Z 0) in Hpositive.
    change (of_Z z) with (inject_Z z) in Hpositive.
    rewrite <- Zlt_Qlt in Hpositive.
    destruct (hasText balance
              && (of_Z z >? Number_of balance)%js) eqn:Hbalance;
      [exact Hrejected|].
    clear Hrejected.
    rewrite handleSellSignal_caught, handleSellSignal_alone.
    cbn [counterAfter completion].
    rewrite release_record by (assumption || lia).
    split; [reflexivity|]. split; [exists (sold calls); reflexivity|].
    intros Htrue. injection Htrue as Htrue.
    destruct (sold_success calls Htrue) as (result & Hsell & Hok & Hsig).
    exists {| signalToken := token; signalAmount := integerText z;
              signalBalance := balance |}, z, result.
    split; [reflexivity|]. split; [reflexivity|]. split; [exact Hpositive|].
    split; [|split; [exact Hsell|split; [exact Hok|exact Hsig]]].
    cbn [signalBalance]. intros Hhas _ _. rewrite Hhas in Hbalance.
    cbn [andb] in Hbalance. apply nltb_Q_false in Hbalance. exact Hbalance.
  - destruct (lit 0 >=? number)%js; [exact Hrejected|].
    destruct (hasText balance && (number >? Number_of balance)%js);
      [exact Hrejected|].
    clear Hrejected. cbn. split; [reflexivity|].
    split; [exists false; reflexivity|]. intros Habsurd. discriminate Habsurd.
Qed.

End SellTaskProperties.

Lemma executeSellTask_counter_witness :
  counterAfter
    (perform callsExample (executeSellTask (Some sellTaskExample))
       {["U"%string := 3%Z]})
  = {["U"%string := 3%Z]}.
Proof.
  assert (Hpos : positiveEntries {["U"%string := 3%Z]}).
  { apply map_Forall_singleton. lia. }
  apply (executeSellTask_counter (Some sellTaskExample) callsExample
           {["U"%string := 3%Z]} Hpos).
Defined.

(** A text that is no number is not rejected by the amount tests of
    [executeSellTask] (NaN is neither at most 0 nor above the balance) and
    fails in [handleSellSignal], at [BigInt], before the counter is
    touched and before any call. *)
Example executeSellTask_not_a_number :
  perform callsExample
    (executeSellTask
       (Some {| signalToken := "T"; signalAmount := otherText PrimFloat.nan;
                signalBalance := integerText 1000 |}))
    ∅
  = {| completion := Returns false; counterAfter := ∅; callsMade := [] |}.
Proof. vm_compute. reflexivity. Qed.

(** The balance test compares binary64 numbers: [Number] gives 2^53 for
    the amount 2^53 + 1, which is then not above a stated balance of
    2^53, and the sell of 2^53 + 1 units is submitted. *)
Example executeSellTask_rounded_balance :
  (Number_of (signalAmount roundedTaskExample)
   >? Number_of (signalBalance roundedTaskExample))%js = false
  /\ (9007199254740992 < 9007199254740993)%Z
  /\ completion
       (perform callsExample (executeSellTask (Some roundedTaskExample)) ∅)
     = Returns true
  /\ map fst
       (callsMade
          (perform callsExample (executeSellTask (Some roundedTaskExample))
             ∅))
     = [anyCall (slippageCall "T" 9007199254740993);
        anyCall (quoteCall "T" 9007199254740993);
        anyCall walletCall;
        anyCall (sellCall "T" 9007199254740993)].
Proof. vm_compute. repeat split. Qed.

(** ** Runs of the trailing-stop monitor *)

Section TrailingRunProperties.
Local Open Scope Q_scope.

Lemma withHighest_twice {N : Type} (h h' : N) (record : TrailingStop N) :
  withHighest h' (withHighest h record) = withHighest h' record.
Proof. reflexivity. Qed.

Lemma monitorTrailingStop_outcome (token : string) (tick : Tick Q)
    (rt : Runtime Q) :
  trailingOutcome token rt (monitorTrailingStop token tick rt).
Proof.
  unfold trailingOutcome, monitorTrailingStop.
  destruct (trailing_stop rt !! token) as [record|] eqn:Hrecord.
  2: { rewrite Hrecord. repeat split; reflexivity. }
  assert (Hstay : forall after : Runtime Q,
             after = rt ->
             (forall other, other <> token ->
                trailing_stop after !! other = trailing_stop rt !! other)
             /\ tasks after = tasks rt
             /\ circuit_breaker after = circuit_breaker rt
             /\ trading_paused after = trading_paused rt
             /\ ((sellSignals after = sellSignals rt
                  /\ (trailing_stop after !! token = None
                      \/ exists highest,
                           trailing_stop after !! token
                           = Some (withHighest highest record)
                           /\ highestPrice record <= highest))
                 \/ (sellSignals after
                     = sellSignals rt ++ [trailingSale token record]
                     /\ trailing_stop after !! token = None))).
  { intros after ->. repeat split; try reflexivity.
    left. split; [reflexivity|]. right. exists (highestPrice record).
    rewrite withHighest_same. split; [exact Hrecord|lra]. }
  destruct (currentBalance tick) as [balance|]; [|apply Hstay; reflexivity].
  destruct (match balance with Some b => (b <=? 0)%Z | None => true end).
  { cbn. repeat split; try reflexivity.
    - intros other Hother. apply lookup_delete_ne. congruence.
    - left. split; [reflexivity|]. left. apply lookup_delete_eq. }
  destruct (negb (truthy (price (marketData tick))));
    [apply Hstay; reflexivity|].
  destruct (price (marketData tick) >? highestPrice record)%js eqn:Hraise.
  - apply nltb_Q in Hraise.
    cbn [highestPrice trailingStopPercentage trailingAmount].
    destruct (_ <=? _)%js; cbn.
    + repeat split; try reflexivity.
      * intros other Hother. rewrite lookup_delete_ne by congruence.
        apply lookup_insert_ne. congruence.
      * right. split; [reflexivity|]. apply lookup_delete_eq.
    + repeat split; try reflexivity.
      * intros other Hother. apply lookup_insert_ne. congruence.
      * left. split; [reflexivity|]. right.
        exists (price (marketData tick)).
        split; [apply lookup_insert_eq|lra].
  - destruct (_ <=? _)%js; cbn.
    + repeat split; try reflexivity.
      * intros other Hother. apply lookup_delete_ne. congruence.
      * right. split; [reflexivity|]. apply lookup_delete_eq.
    + apply Hstay. reflexivity.
Qed.

Lemma trailingOutcome_trans (token : string) (rt middle after : Runtime Q) :
  trailingOutcome token rt middle -> trailingOutcome token middle after ->
  trailingOutcome token rt after.
Proof.
  intros (Hother & Htasks & Hbreaker & Hpaused & Hfirst)
         (Hother' & Htasks' & Hbreaker' & Hpaused' & Hsecond).
  split; [intros other Hne; rewrite Hother', Hother by exact Hne; reflexivity|].
  split; [congruence|]. split; [congruence|]. split; [congruence|].
  destruct (trailing_stop rt !! token) as [record|].
  - destruct Hfirst as [[Hsells [Hgone|(h & Hkept & Hh)]]|[Hsells Hgone]].
    + rewrite Hgone in Hsecond. destruct Hsecond as [Hsells' Hgone'].
      left. split; [congruence|]. left. exact Hgone'.
    + rewrite Hkept in Hsecond.
      destruct Hsecond
        as [[Hsells' [Hgone'|(h' & Hkept' & Hh')]]|[Hsells' Hgone']].
      * left. split; [congruence|]. left. exact Hgone'.
      * left. split; [congruence|]. right. exists h'.
        rewrite withHighest_twice in Hkept'. split; [exact Hkept'|].
        cbn [highestPrice withHighest] in Hh'. lra.
      * right. split; [|exact Hgone']. rewrite Hsells', Hsells. reflexivity.
    + rewrite Hgone in Hsecond. destruct Hsecond as [Hsells' Hgone'].
      right. split; [congruence|exact Hgone'].
  - destruct Hfirst as [Hsells Hgone]. rewrite Hgone in Hsecond.
    destruct Hsecond as [Hsells' Hgone']. split; congruence.
Qed.

Lemma trailingRun_outcome (token : string) (ticks : list (Tick Q))
    (rt : Runtime Q) :
  trailingOutcome token rt (trailingRun token ticks rt).
Proof.
  unfold trailingRun. revert rt.
  induction ticks as [|tick ticks IH]; intros rt; cbn [fold_left].
  - unfold trailingOutcome. repeat split; try reflexivity.
    destruct (trailing_stop rt !! token) as [record|] eqn:Hrecord.
    + left. split; [reflexivity|]. right. exists (highestPrice record).
      rewrite withHighest_same. split; [reflexivity|lra].
    + split; reflexivity.
  - apply (trailingOutcome_trans token rt (monitorTrailingStop token tick rt)).
    + apply monitorTrailingStop_outcome.
    + apply IH.
Qed.

(** X15: over any number of ticks of the trailing-stop monitor of a token
    (exact arithmetic), the records of other tokens, the tasks and the
    breaker entries stay as they are; without a record for the token the
    ticks change nothing; with one, at most one sell is created, for the
    tracked amount, after which the record is gone; and a record that is
    still there is the first one with a highest price that has not
    decreased. *)
Theorem monitorTrailingStop_runs (token : string) (ticks : list (Tick Q))
    (rt : Runtime Q) :
  let after := trailingRun token ticks rt in
  (forall other, other <> token ->
     trailing_stop after !! other = trailing_stop rt !! other)
  /\ tasks after = tasks rt
  /\ circuit_breaker after = circuit_breaker rt
  /\ trading_paused after = trading_paused rt
  /\ match trailing_stop rt !! token with
     | None =>
         sellSignals after = sellSignals rt
         /\ trailing_stop after !! token = None
     | Some record =>
         (sellSignals after = sellSignals rt
          /\ (trailing_stop after !! token = None
              \/ exists highest,
                   trailing_stop after !! token
                   = Some (withHighest highest record)
                   /\ highestPrice record <= highest))
         \/ (sellSignals after = sellSignals rt ++ [trailingSale token record]
             /\ trailing_stop after !! token = None)
     end.
Proof. exact (trailingRun_outcome token ticks rt). Qed.

End TrailingRunProperties.

(** ** Take profit, then the trailing stop *)

Section TakeProfitLifecycle.
Local Open Scope Q_scope.

Variable cfg : TradingConfig Q.

(** X16: a tick of [monitorToken] that takes profit on a balance, followed
    by any number of ticks of the trailing-stop monitor of the token,
    creates the take-profit sell of half the balance and at most one more
    sell, of the same half: together they never ask for more than the
    balance, and for an odd balance one unit is covered by neither. *)
Theorem take_profit_then_trailing_stop (options : MonitorOptions Q)
    (tick : Tick Q) (ticks : list (Tick Q)) (rt : Runtime Q) (balance : Z) :
  (0 < balance)%Z ->
  fst (monitorToken cfg options tick rt)
  = setTrailingStop (tokenAddress options) (price (marketData tick))
      (Z.quot balance 2) (now tick)
      (createSellSignal (tokenAddress options) (Z.quot balance 2)
         "Take profit - selling half position" rt) ->
  let after :=
    trailingRun (tokenAddress options) ticks
      (fst (monitorToken cfg options tick rt)) in
  exists sold,
    sellSignals after = sellSignals rt ++ sold
    /\ (sold = [takeProfitSale (tokenAddress options) balance]
        \/ sold = [takeProfitSale (tokenAddress options) balance;
                   {| sellToken := tokenAddress options;
                      sellAmount := Z.quot balance 2;
                      sellReason := "Trailing stop triggered" |}])
    /\ (soldAmount sold <= balance)%Z
    /\ (Z.odd balance = true -> soldAmount sold < balance)%Z.
Proof.
  intros Hbalance Htook after. unfold after. rewrite Htook.
  set (token := tokenAddress options).
  set (start := setTrailingStop _ _ _ _ _).
  pose proof (trailingRun_outcome token ticks start)
    as (_ & _ & _ & _ & Hrecord).
  assert (Hstored : trailing_stop start !! token
                    = Some {| highestPrice := price (marketData tick);
                              activationPrice := price (marketData tick);
                              trailingStopPercentage := lit 5;
                              trailingAmount := Z.quot balance 2;
                              createdAt := now tick |})
    by apply lookup_insert_eq.
  rewrite Hstored in Hrecord.
  assert (Hsells : sellSignals start
                   = sellSignals rt ++ [takeProfitSale token balance])
    by reflexivity.
  pose proof (Z.quot_rem' balance 2) as Hdiv.
  pose proof (Z.rem_bound_pos balance 2 ltac:(lia) ltac:(lia)) as Hrem.
  assert (Hodd : Z.odd balance = true -> Z.rem balance 2 = 1%Z).
  { intros Ho. rewrite Z.rem_mod_nonneg by lia.
    rewrite <- Z.bit0_mod, Z.bit0_odd. rewrite Ho. reflexivity. }
  destruct Hrecord as [[Hsame _]|[Hsold _]].
  - exists [takeProfitSale token balance].
    split; [rewrite Hsame; exact Hsells|]. split; [now left|].
    cbn [soldAmount fold_right sellAmount takeProfitSale]. split; lia.
  - exists [takeProfitSale token balance; trailingSale token
              {| highestPrice := price (marketData tick);
                 activationPrice := price (marketData tick);
                 trailingStopPercentage := lit 5;
                 trailingAmount := Z.quot balance 2;
                 createdAt := now tick |}].
    split; [rewrite Hsold, Hsells, <- app_assoc; reflexivity|].
    split; [now right|].
    cbn [soldAmount fold_right sellAmount takeProfitSale trailingSale
         trailingAmount].
    split; [lia|]. intros Ho. specialize (Hodd Ho). lia.
Qed.

End TakeProfitLifecycle.

Lemma take_profit_then_trailing_stop_witness :
  exists sold,
    sellSignals
      (trailingRun "T" [tickAt 130%Q; tickAt 120%Q]
         (fst (monitorToken exampleConfig exampleOptions (tickAt 121%Q)
                 emptyRuntime)))
    = sellSignals (emptyRuntime (N := Q)) ++ sold
    /\ (soldAmount sold <= 1000)%Z.
Proof.
  assert (Hbalance : (0 < 1000)%Z) by lia.
  assert (Htook :
            fst (monitorToken exampleConfig exampleOptions (tickAt 121%Q)
                   emptyRuntime)
            = setTrailingStop (tokenAddress (N := Q) exampleOptions)
                (price (marketData (tickAt 121%Q)))
                (Z.quot 1000 2) (now (tickAt 121%Q))
                (createSellSignal (tokenAddress (N := Q) exampleOptions)
                   (Z.quot 1000 2) "Take profit - selling half position"
                   emptyRuntime))
    by (vm_compute; reflexivity).
  destruct (take_profit_then_trailing_stop exampleConfig exampleOptions
              (tickAt 121%Q) [tickAt 130%Q; tickAt 120%Q] emptyRuntime 1000
              Hbalance Htook) as (sold & Hsells & _ & Hamount & _).
  exists sold. split; [exact Hsells|exact Hamount].
Defined.

(** ** [getLatestTradePerformance] *)

Section TradePerformanceProperties.
Context {N : Type} `{JsNumber N}.

(** X17: when no record is cached under [tokenAddress:recommenderId],
    [getLatestTradePerformance] throws, whatever the performance index
    holds, and writes nothing; a tick of [monitorToken] whose performance
    lookup is that call therefore changes nothing in the runtime and
    creates no sell, at whatever price: no stop loss and no take profit.
    With a cached record of the requested kind the call returns that
    record without reading the index. *)
Theorem getLatestTradePerformance_missing_entry (cfg : TradingConfig N)
    (options : MonitorOptions N) (tick : Tick N) (rt : Runtime N)
    (performanceIndex : Fetched (option (list (IndexEntry N))))
    (fullRecordOf : string -> Fetched (option PerformanceRecord)) :
  getLatestTradePerformance (tokenAddress options) "default" false
    (Got None) performanceIndex fullRecordOf = (Threw, None)
  /\ (performance tick
      = performanceCall
          (getLatestTradePerformance (tokenAddress options) "default" false
             (Got None) performanceIndex fullRecordOf) ->
      fst (monitorToken cfg options tick rt) = rt
      /\ (snd (monitorToken cfg options tick rt) = MonitorError
          \/ snd (monitorToken cfg options tick rt) = NoResult))
  /\ (forall cached simulation,
        isSimulation cached = simulation ->
        getLatestTradePerformance (tokenAddress options) "default" simulation
          (Got (Some cached)) performanceIndex fullRecordOf
        = (Got (Some cached), None)).
Proof.
  split; [reflexivity|]. split.
  - cbn [getLatestTradePerformance performanceCall fst].
    intros Hperformance. unfold monitorToken. rewrite Hperformance.
    destruct (currentBalance tick) as [[balance|]|];
      [|split; [reflexivity|now right]|split; [reflexivity|now left]].
    destruct (balance <=? 0)%Z; [split; [reflexivity|now right]|].
    destruct (negb (truthy (price (marketData tick))));
      [split; [reflexivity|now right]|].
    split; [reflexivity|now left].
  - intros cached simulation <-. cbn [getLatestTradePerformance].
    rewrite Bool.eqb_reflx. reflexivity.
Qed.

End TradePerformanceProperties.

Lemma getLatestTradePerformance_missing_entry_witness :
  fst (monitorToken exampleConfig exampleOptions
         {| currentBalance := Got (Some 1000%Z);
            marketData := {| price := 94%float; priceHistory := [] |};
            performance :=
              performanceCall
                (getLatestTradePerformance (N := float) "T" "default" false
                   (Got None) (Got None) (fun _ => Got None));
            now := 0 |}
         emptyRuntime)
  = emptyRuntime.
Proof.
  apply (proj1 (proj2 (getLatestTradePerformance_missing_entry exampleConfig
                         exampleOptions _ emptyRuntime (Got None)
                         (fun _ => Got None)))).
  reflexivity.
Defined.

(** ** [updateTokenStatistics] *)

Section TokenStatisticsProperties.
Local Open Scope Q_scope.

Lemma sumOf_snoc (values : list Q) (v : Q) :
  sumOf (values ++ [v]) == sumOf values + v.
Proof.
  unfold sumOf. induction values as [|x values IH]; cbn [app fold_right].
  - ring.
  - rewrite IH. ring.
Qed.

Lemma countOf_S (n : nat) : countOf (S n) == countOf n + 1.
Proof.
  unfold countOf. rewrite Nat2Z.inj_succ, <- Z.add_1_r, inject_Z_plus.
  reflexivity.
Qed.

Lemma countOf_nonneg (n : nat) : 0 <= countOf n.
Proof.
  unfold countOf. change 0 with (inject_Z 0). rewrite <- Zle_Qle. lia.
Qed.

Lemma statisticsAfter_snoc (outcomes : list (TradeOutcome Q))
    (data : TradeOutcome Q) :
  statisticsAfter (outcomes ++ [data])
  = Some (updateTokenStatistics (statisticsAfter outcomes) data).
Proof. unfold statisticsAfter. rewrite fold_left_app. reflexivity. Qed.

(** The figures that the statistics of a token hold after its trades. *)
Lemma statisticsAfter_figures (outcomes : list (TradeOutcome Q)) :
  let stats :=
    default {| trades := 0; total_profit_usd := 0;
               average_profit_percent := 0; rapid_dumps := 0 |}
            (statisticsAfter outcomes) in
  (outcomes <> [] -> statisticsAfter outcomes = Some stats)
  /\ trades stats == countOf (length outcomes)
  /\ total_profit_usd stats == sumOf (map profit_usd outcomes)
  /\ average_profit_percent stats * countOf (length outcomes)
     == sumOf (map profit_percent outcomes)
  /\ rapid_dumps stats
     == countOf (length (List.filter rapidDump outcomes)).
Proof.
  induction outcomes as [|data outcomes IH] using rev_ind.
  - cbn. split; [intros Hne; contradiction|]. repeat split; reflexivity.
  - cbv zeta in IH. destruct IH as (_ & Htrades & Htotal & Haverage & Hdumps).
    rewrite statisticsAfter_snoc. cbv zeta. cbn [default].
    split; [intros _; reflexivity|].
    unfold updateTokenStatistics.
    change (default _ (statisticsAfter outcomes))
      with (default {| trades := 0; total_profit_usd := 0;
                       average_profit_percent := 0; rapid_dumps := 0 |}
                    (statisticsAfter outcomes)).
    set (before := default _ (statisticsAfter outcomes)) in *.
    cbn [trades total_profit_usd average_profit_percent rapid_dumps
         nadd nsub nmul ndiv lit Q_number].
    rewrite !map_app, length_app, List.filter_app, length_app.
    cbn [map length List.filter].
    rewrite !sumOf_snoc, Nat.add_1_r, countOf_S.
    pose proof (countOf_nonneg (length outcomes)) as Hcount.
    unfold id.
    cbn [trades total_profit_usd average_profit_percent rapid_dumps].
    split; [|split; [|split]].
    + lra.
    + lra.
    + assert (Hpos : 0 < trades before + 1) by lra.
      assert (Hsame : trades before + 1 - 1 == countOf (length outcomes))
        by lra.
      rewrite Hsame, Haverage.
      transitivity ((sumOf (map profit_percent outcomes) + profit_percent data)
                    / (trades before + 1) * (trades before + 1));
        [|field; lra].
      apply Qmult_comp; [reflexivity|lra].
    + destruct (rapidDump data); cbn [length].
      * rewrite Nat.add_1_r, countOf_S. lra.
      * rewrite Nat.add_0_r. exact Hdumps.
Qed.

(** X18: after the trades of a token were recorded one after the other,
    starting without an entry, the stored statistics count the trades,
    sum their profits, count the rapid dumps, and hold the arithmetic mean
    of the profit percentages: the running update of the average loses
    nothing (exact arithmetic). *)
Theorem updateTokenStatistics_mean (outcomes : list (TradeOutcome Q)) :
  outcomes <> [] ->
  exists stats,
    statisticsAfter outcomes = Some stats
    /\ trades stats == countOf (length outcomes)
    /\ total_profit_usd stats == sumOf (map profit_usd outcomes)
    /\ average_profit_percent stats
       == sumOf (map profit_percent outcomes) / countOf (length outcomes)
    /\ rapid_dumps stats
       == countOf (length (List.filter rapidDump outcomes)).
Proof.
  intros Hne.
  destruct (statisticsAfter_figures outcomes)
    as (Hstats & Htrades & Htotal & Haverage & Hdumps).
  eexists. split; [exact (Hstats Hne)|].
  split; [exact Htrades|]. split; [exact Htotal|]. split; [|exact Hdumps].
  assert (Hcount : 0 < countOf (length outcomes)).
  { destruct outcomes as [|data outcomes]; [contradiction|].
    cbn [length]. rewrite countOf_S.
    pose proof (countOf_nonneg (length outcomes)). lra. }
  rewrite <- Haverage. field. lra.
Qed.

End TokenStatisticsProperties.

Lemma updateTokenStatistics_mean_witness :
  exists stats,
    statisticsAfter
      [{| profit_usd := 10%Q; profit_percent := 5%Q; rapidDump := false |};
       {| profit_usd := (-4)%Q; profit_percent := (-2)%Q;
          rapidDump := true |}]
    = Some stats
    /\ (average_profit_percent stats == 3 / 2)%Q.
Proof.
  destruct (updateTokenStatistics_mean
              [{| profit_usd := 10%Q; profit_percent := 5%Q;
                  rapidDump := false |};
               {| profit_usd := (-4)%Q; profit_percent := (-2)%Q;
                  rapidDump := true |}])
    as (stats & Hstats & _ & _ & Haverage & _); [discriminate|].
  exists stats. split; [exact Hstats|]. rewrite Haverage. reflexivity.
Defined.

(** ** The service's own cache *)

Section CacheProperties.
Local Open Scope Z_scope.
Context {V : Type}.

(** X19: a value stored by [CacheManager.set] is returned by [get] up to
    and including its expiry time [now + ttl] (60000 ms when no time to
    live is given), and the map is then left as it is; after that time
    [get] returns nothing and deletes the entry; reading or storing one
    key never changes what is returned for another. *)
Theorem CacheManager_round_trip (cache : gmap string (CacheEntry V))
    (key : string) (value : V) (ttl : option Z) (now later : Z) :
  let stored := CacheManager.set now key value ttl cache in
  let expires := now + default CacheManager.defaultTTL ttl in
  (later <= expires -> CacheManager.get later key stored = (Some value, stored))
  /\ (expires < later ->
      CacheManager.get later key stored = (None, delete key cache))
  /\ (forall other, other <> key ->
        fst (CacheManager.get later other stored)
        = fst (CacheManager.get later other cache)
        /\ snd (CacheManager.get later other cache) !! key = cache !! key)
  /\ (ttl = None -> expires = now + 60000).
Proof.
  cbv zeta. unfold CacheManager.get, CacheManager.set.
  rewrite lookup_insert_eq. cbn [expiry entryValue].
  split; [|split; [|split]].
  - intros Hfresh.
    destruct (Z.ltb_spec (now + default CacheManager.defaultTTL ttl) later);
      [lia|reflexivity].
  - intros Hstale.
    destruct (Z.ltb_spec (now + default CacheManager.defaultTTL ttl) later);
      [|lia].
    rewrite delete_insert_eq. reflexivity.
  - intros other Hother. rewrite lookup_insert_ne by congruence.
    destruct (cache !! other) as [entry|]; [|split; reflexivity].
    destruct (expiry entry <? later); cbn [fst snd]; split; try reflexivity.
    apply lookup_delete_ne. exact Hother.
  - intros ->. reflexivity.
Qed.

End CacheProperties.

Lemma CacheManager_round_trip_witness :
  CacheManager.get 60000 "price:T"
    (CacheManager.set 0 "price:T" 5%Z None ∅)
  = (Some 5%Z, CacheManager.set 0 "price:T" 5%Z None ∅).
Proof.
  apply (CacheManager_round_trip ∅ "price:T" 5%Z None 0 60000).
  vm_compute. discriminate.
Defined.

(** ** [storePerformanceSnapshot] *)

Section SnapshotProperties.

Lemma storePerformanceSnapshot_suffix (timestamp : string)
    (cached : option (list string)) :
  exists dropped,
    default [] cached ++ [timestamp]
    = dropped ++ storePerformanceSnapshot timestamp cached
    /\ (length (default [] cached) <= 100 ->
        length (storePerformanceSnapshot timestamp cached)
        = Nat.min 100 (length (default [] cached) + 1))
    /\ (100 < length (default [] cached) ->
        length (storePerformanceSnapshot timestamp cached)
        = length (default [] cached)).
Proof.
  unfold storePerformanceSnapshot.
  generalize (default [] cached). intros old.
  assert (Hlength : length (old ++ [timestamp]) = length old + 1)
    by (rewrite length_app; reflexivity).
  destruct (Nat.ltb_spec 100 (length (old ++ [timestamp]))) as [Hlong|Hshort].
  - destruct (old ++ [timestamp]) as [|first rest] eqn:Hindex;
      [cbn in Hlong; lia|].
    exists [first]. cbn [tail app length] in *.
    split; [reflexivity|]. split; intros; lia.
  - exists []. split; [reflexivity|]. split; intros; lia.
Qed.

(** X20: the snapshot index keeps the most recent timestamps in order.
    After any number of snapshots the stored index is the end of the old
    index followed by the new timestamps; starting from an index of at
    most 100 entries it holds the last 100 of them, or all when there are
    fewer. *)
Theorem storePerformanceSnapshot_index (timestamps : list string)
    (cached : option (list string)) :
  exists dropped,
    default [] cached ++ timestamps
    = dropped ++ default [] (snapshotRun timestamps cached)
    /\ (length (default [] cached) <= 100 ->
        length (default [] (snapshotRun timestamps cached))
        = Nat.min 100 (length (default [] cached) + length timestamps)).
Proof.
  unfold snapshotRun. revert cached.
  induction timestamps as [|timestamp timestamps IH]; intros cached.
  - exists []. cbn [fold_left]. rewrite app_nil_r. split; [reflexivity|].
    intros Hshort. cbn [length]. lia.
  - cbn [fold_left].
    destruct (storePerformanceSnapshot_suffix timestamp cached)
      as (dropped & Hsplit & Hshort & _).
    destruct (IH (Some (storePerformanceSnapshot timestamp cached)))
      as (dropped' & Hsplit' & Hshort').
    cbn [from_option id] in Hsplit', Hshort'.
    exists (dropped ++ dropped'). split.
    + change (timestamp :: timestamps) with ([timestamp] ++ timestamps).
      rewrite app_assoc, Hsplit, <- !app_assoc, Hsplit'. reflexivity.
    + intros Hold. specialize (Hshort Hold). cbn [length].
      rewrite Hshort', Hshort; lia.
Qed.

End SnapshotProperties.

Lemma storePerformanceSnapshot_index_witness :
  length (default [] (snapshotRun ["t1"; "t2"; "t3"]%string None)) = 3%nat.
Proof.
  destruct (storePerformanceSnapshot_index ["t1"; "t2"; "t3"]%string None)
    as (dropped & _ & Hlength).
  rewrite Hlength; [reflexivity|cbn; lia].
Defined.

(** ** [retryWithExponentialBackoff] *)

Section RetryProperties.
Local Open Scope Z_scope.
Context {A : Type}.
Variable operation : nat -> Fetched A.

Lemma backoffDelays_S (baseDelay : Z) (k : nat) :
  backoffDelays baseDelay (S k)
  = backoffDelays baseDelay k ++ [baseDelay * 2 ^ Z.of_nat k].
Proof.
  unfold backoffDelays. rewrite seq_S, map_app. reflexivity.
Qed.

Lemma totalDelay_backoff (baseDelay : Z) (k : nat) :
  totalDelay (backoffDelays baseDelay k) = baseDelay * (2 ^ Z.of_nat k - 1).
Proof.
  induction k as [|k IH]; [cbn; lia|].
  rewrite backoffDelays_S. unfold totalDelay in *.
  rewrite fold_right_app. cbn [fold_right].
  assert (Hshift : forall l z,
             fold_right Z.add z l = fold_right Z.add 0 l + z).
  { induction l as [|x l IHl]; intros z; cbn; [lia|]. rewrite IHl. lia. }
  rewrite Hshift, IH, Nat2Z.inj_succ, Z.pow_succ_r by lia. lia.
Qed.

Lemma retryFrom_spec (maxRetries : nat) (baseDelay : Z) (remaining i : nat) :
  (i + remaining = maxRetries)%nat ->
  (remaining = 0%nat -> i = 0%nat) ->
  (forall j, (j < i)%nat -> operation j = Threw) ->
  let outcome :=
    retryFrom operation maxRetries baseDelay remaining i
      (backoffDelays baseDelay i) in
  match fst outcome with
  | Succeeded value =>
      exists k, (k < maxRetries)%nat /\ operation k = Got value
                /\ (forall j, (j < k)%nat -> operation j = Threw)
                /\ snd outcome = backoffDelays baseDelay k
  | Rethrown attempt =>
      S attempt = maxRetries
      /\ (forall j, (j < maxRetries)%nat -> operation j = Threw)
      /\ snd outcome = backoffDelays baseDelay attempt
  | RetryFailed => maxRetries = 0%nat /\ snd outcome = []
  end.
Proof.
  revert i. induction remaining as [|remaining IH];
    intros i Hsum Hstart Hfailed; cbv zeta.
  - rewrite (Hstart eq_refl) in *. cbn. split; [lia|reflexivity].
  - cbn [retryFrom]. destruct (operation i) as [value|] eqn:Hattempt.
    + cbn [fst snd]. exists i. split; [lia|]. split; [exact Hattempt|].
      split; [exact Hfailed|reflexivity].
    + destruct (Nat.eqb_spec i (maxRetries - 1)) as [Hlast|Hmore].
      * cbn [fst snd]. split; [lia|]. split; [|reflexivity].
        intros j Hj. destruct (Nat.eq_dec j i) as [->|Hne];
          [exact Hattempt|apply Hfailed; lia].
      * rewrite <- backoffDelays_S. apply IH; [lia|lia|].
        intros j Hj. destruct (Nat.eq_dec j i) as [->|Hne];
          [exact Hattempt|apply Hfailed; lia].
Qed.

(** X21: [retryWithExponentialBackoff] for a whole number of retries.  It
    returns the value of the first attempt that succeeds, after waiting
    [baseDelay * 2 ^ i] before each attempt [i + 1], which adds up to
    [baseDelay * (2 ^ k - 1)] before attempt [k]; when all [maxRetries]
    attempts fail it rethrows the error of the last one without waiting
    after it; and it throws [Retry failed] exactly when no attempt is
    allowed. *)
Theorem retryWithExponentialBackoff_spec (maxRetries : nat) (baseDelay : Z) :
  let outcome := retryWithExponentialBackoff operation maxRetries baseDelay in
  match fst outcome with
  | Succeeded value =>
      exists k, (k < maxRetries)%nat /\ operation k = Got value
                /\ (forall j, (j < k)%nat -> operation j = Threw)
                /\ snd outcome = backoffDelays baseDelay k
                /\ totalDelay (snd outcome)
                   = baseDelay * (2 ^ Z.of_nat k - 1)
  | Rethrown attempt =>
      S attempt = maxRetries
      /\ (forall j, (j < maxRetries)%nat -> operation j = Threw)
      /\ snd outcome = backoffDelays baseDelay attempt
      /\ totalDelay (snd outcome)
         = baseDelay * (2 ^ Z.of_nat attempt - 1)
  | RetryFailed => maxRetries = 0%nat /\ snd outcome = []
  end.
Proof.
  cbv zeta. unfold retryWithExponentialBackoff.
  pose proof (retryFrom_spec maxRetries baseDelay maxRetries 0) as Hspec.
  cbv zeta in Hspec. change (backoffDelays baseDelay 0) with (@nil Z) in Hspec.
  specialize (Hspec ltac:(lia) ltac:(lia) ltac:(intros j Hj; lia)).
  destruct (retryFrom operation maxRetries baseDelay maxRetries 0 [])
    as [[value|attempt|] waited]; cbn [fst snd] in *.
  - destruct Hspec as (k & Hk & Hvalue & Hfailed & Hwaited).
    exists k. rewrite Hwaited, totalDelay_backoff. repeat split; assumption.
  - destruct Hspec as (Hlast & Hfailed & Hwaited).
    rewrite Hwaited, totalDelay_backoff. repeat split; assumption.
  - exact Hspec.
Qed.

End RetryProperties.

(** ** [calculateOptimalBuyAmount] on the token that it is called with *)

Section RankedTokenSizing.
Local Open Scope Q_scope.

Lemma head_elem_of {A : Type} (l : list A) (x : A) :
  head l = Some x -> x ∈ l.
Proof.
  destruct l as [|y l]; [discriminate|]. cbn. intros Hhead.
  injection Hhead as ->. apply list_elem_of_here.
Qed.

(** C4: [calculateOptimalBuyAmount] is private and has one call, in
    [getTokenRecommendation], on the first token that [scoreTokenSignals]
    returns, under the configuration that [validateConfiguration] left.
    For every such token, every wallet balance that is not negative and
    every drawdown and market condition, the result is exactly 0 whenever
    the drawdown is at least [maxDrawdown], as whenever the available
    capital is at most 0, and whenever the available capital is positive
    the result lies within [[minTradeSize, liquidity * 0.02]]. *)
Theorem calculateOptimalBuyAmount_ranked (config : ServiceConfig Q)
    (signals : list (FeedSignal Q)) (bestToken : FeedSignal Q)
    (walletBalance drawdown : Q) (marketCondition : MarketCondition) :
  head (scoreTokenSignals signals) = Some bestToken ->
  0 <= walletBalance ->
  let cfg := limits (validateConfiguration config) in
  let result :=
    calculateOptimalBuyAmount cfg (Got walletBalance) drawdown
      (sizerToken bestToken) marketCondition in
  (maxDrawdown (riskLimits cfg) <= drawdown -> result = 0)
  /\ (availableCapital cfg walletBalance drawdown <= 0 -> result = 0)
  /\ (0 < availableCapital cfg walletBalance drawdown ->
      minTradeSize <= result <= feedLiquidity bestToken * 0.02).
Proof.
  intros Hbest Hwallet cfg result.
  assert (Hmax : 0 < maxDrawdown (riskLimits cfg)).
  { pose proof (validateConfiguration_ranges config) as Hvalid.
    unfold validConfiguration in Hvalid. apply Hvalid. }
  assert (Hliquidity : 50000 <= feedLiquidity bestToken).
  { apply head_elem_of in Hbest.
    destruct (scoreTokenSignals_elem _ _ Hbest) as (grouped & _ & _ & Hmin).
    unfold meetsMinimum in Hmin.
    apply andb_prop in Hmin. destruct Hmin as [Hmin _].
    apply andb_prop in Hmin. destruct Hmin as [_ Hmin].
    apply nleb_Q in Hmin. exact Hmin. }
  destruct (calculateOptimalBuyAmount_bounds cfg walletBalance drawdown
              (sizerToken bestToken) marketCondition Hmax)
    as (Hzero & Hdrawdown & Hrange).
  split; [exact (Hdrawdown Hwallet)|]. split; [exact Hzero|].
  intros Hcapital. destruct (Hrange Hcapital) as (Hfloor & Hcap & _).
  assert (Hroom : minTradeSize <= maxLiquidityImpact (sizerToken bestToken)).
  { unfold minTradeSize, maxLiquidityImpact, sizerToken.
    cbn [liquidity nmul lit Q_number]. lra. }
  specialize (Hcap Hroom).
  unfold maxLiquidityImpact, sizerToken in Hcap.
  cbn [liquidity nmul lit Q_number] in Hcap.
  split; [exact Hfloor|exact Hcap].
Qed.

End RankedTokenSizing.

Lemma calculateOptimalBuyAmount_ranked_witness :
  (minTradeSize
   <= calculateOptimalBuyAmount (limits (validateConfiguration initialConfiguration))
        (Got 10) 0 (sizerToken rankedExample) bearish
   <= feedLiquidity rankedExample * 0.02)%Q.
Proof.
  assert (Hbest : head (scoreTokenSignals [birdeyeExample; twitterExample])
                  = Some rankedExample)
    by (vm_compute; reflexivity).
  assert (Hwallet : (0 <= 10)%Q) by discriminate.
  destruct (calculateOptimalBuyAmount_ranked initialConfiguration
              [birdeyeExample; twitterExample] rankedExample 10 0 bearish
              Hbest Hwallet) as (_ & _ & Hrange).
  apply Hrange. vm_compute. reflexivity.
Defined.

(** ** The stop loss and the take profit of [monitorToken] *)

Section MonitorExits.
Context {N : Type} `{JsNumber N}.
Local Open Scope js_scope.

Variable cfg : TradingConfig N.



End MonitorExits.






